(** * camera_windows: capture session state machine

    A shallow embedding of the Windows camera plugin's session logic:

    - [CameraImpl] (camera.cpp): the pending-result table and the
      [CaptureControllerListener] callbacks that answer the host bridge;
    - [PreviewHandler] (preview_handler.cpp): the preview state machine;
    - [CaptureControllerImpl] (capture_controller.cpp): the controller that
      routes capture-engine events to the handlers and to its listener.

    Member functions become functions on an explicit object state.  What a
    function says to the outside (a call on a [MethodResult], a message on the
    camera's method channel, a call on the capture engine, a listener
    callback) is written to a log, in program order.  Dereferencing a null
    [std::unique_ptr] is a [Fault].  The [assert]s of the sources are left
    out: release builds compile them out. *)

From stdpp Require Import gmap strings list fin_maps pretty sorting.
From Stdlib Require Import ZArith Lia.

Open Scope Z_scope.

Set Warnings "-register-all".

(** ** Windows scalar types *)

(** [HRESULT] is a signed 32-bit status; [FAILED] is "negative". *)
Definition HRESULT := Z.
Definition S_OK : HRESULT := 0.
Definition E_FAIL : HRESULT := -2147467259. (* 0x80004005 *)
Definition SUCCEEDED (hr : HRESULT) : bool := bool_decide (0 ≤ hr).
Definition FAILED (hr : HRESULT) : bool := bool_decide (hr < 0).

(** [uint32_t] arithmetic wraps modulo 2^32. *)
Definition UINT32_MAX : Z := 4294967295.
Definition wrap32 (z : Z) : Z := z `mod` 4294967296.
Definition is_uint32 (z : Z) : Prop := 0 ≤ z ≤ UINT32_MAX.

(** A [uint32_t] argument passed for an [int32_t] parameter: the value
    modulo 2^32 that lies between -2^31 and 2^31 - 1. *)
Definition to_int32 (z : Z) : Z :=
  (z + 2147483648) `mod` 4294967296 - 2147483648.

(** ** Values sent over the host bridge *)

(** [flutter::EncodableValue], restricted to the alternatives camera.cpp
    builds.  [EV_Float z] is the value of the cast [(float)z]. *)
Inductive EncodableValue : Type :=
| EV_Null
| EV_Int64 (z : Z)
| EV_Float (z : Z)
| EV_String (s : string)
| EV_Map (entries : list (EncodableValue * EncodableValue)).

(** A [flutter::MethodResult<>] is an object owned through a
    [std::unique_ptr]; it is identified by its address. *)
Definition MethodResult := nat.
Definition BinaryMessenger := nat.

(** What reaches the host bridge. *)
Inductive HostEffect : Type :=
| ResultSuccess (result : MethodResult) (value : EncodableValue)
| ResultError (result : MethodResult) (error_code error_message : string)
| InvokeMethod (messenger : BinaryMessenger) (channel_name method : string)
               (arguments : EncodableValue).

(** The method result a host effect resolves, if any. *)
Definition resolved_result (e : HostEffect) : option MethodResult :=
  match e with
  | ResultSuccess r _ | ResultError r _ _ => Some r
  | InvokeMethod _ _ _ _ => None
  end.

Definition is_InvokeMethod (method : string) (e : HostEffect) : bool :=
  match e with
  | InvokeMethod _ _ m _ => bool_decide (m = method)
  | _ => false
  end.

(** ** The pending-result keys (camera.h) *)

Inductive PendingResultType : Type :=
| CREATE_CAMERA
| INITIALIZE
| TAKE_PICTURE
| START_RECORD
| STOP_RECORD
| PAUSE_PREVIEW
| RESUME_PREVIEW.

#[global] Instance PendingResultType_eq_dec : EqDecision PendingResultType.
Proof. solve_decision. Defined.

Definition PendingResultType_to_nat (t : PendingResultType) : nat :=
  match t with
  | CREATE_CAMERA => 0 | INITIALIZE => 1 | TAKE_PICTURE => 2
  | START_RECORD => 3 | STOP_RECORD => 4 | PAUSE_PREVIEW => 5
  | RESUME_PREVIEW => 6
  end%nat.

Definition PendingResultType_of_nat (n : nat) : option PendingResultType :=
  match n with
  | 0 => Some CREATE_CAMERA | 1 => Some INITIALIZE | 2 => Some TAKE_PICTURE
  | 3 => Some START_RECORD | 4 => Some STOP_RECORD | 5 => Some PAUSE_PREVIEW
  | 6 => Some RESUME_PREVIEW | _ => None
  end%nat.

#[global] Instance PendingResultType_countable : Countable PendingResultType.
Proof.
  apply (inj_countable PendingResultType_to_nat PendingResultType_of_nat).
  by intros [].
Defined.

(** ** CameraImpl (camera.cpp) *)

Module CameraImpl.

(** Camera channel events. *)
Definition kCameraMethodChannelBaseName : string :=
  "flutter.io/cameraPlugin/camera".
Definition kVideoRecordedEvent : string := "video_recorded".
Definition kErrorEvent : string := "error".

(** The members the listener callbacks read or write.  [messenger_] is a
    nullable pointer; [pending_results_] is the
    [std::map<PendingResultType, std::unique_ptr<MethodResult<>>>]. *)
Record t : Type := mk {
  device_id_ : string;
  messenger_ : option BinaryMessenger;
  camera_id_ : Z;
  pending_results_ : gmap PendingResultType MethodResult;
}.

Definition with_pending_results
    (m : gmap PendingResultType MethodResult) (c : t) : t :=
  mk (device_id_ c) (messenger_ c) (camera_id_ c) m.

Definition with_camera_id (id : Z) (c : t) : t :=
  mk (device_id_ c) (messenger_ c) id (pending_results_ c).

Definition with_messenger (m : option BinaryMessenger) (c : t) : t :=
  mk (device_id_ c) m (camera_id_ c) (pending_results_ c).

(** The constructor: no messenger, no camera id, nothing pending.  The
    constructor of camera.cpp leaves [camera_id_] to its initializer in
    camera.h; the guard [camera_id_ >= 0] of the notifications makes a
    negative id the one that is not assigned yet, and -1 is what the
    controller uses for its texture id. *)
Definition CameraImpl (device_id : string) : t :=
  mk device_id None (-1) ∅.

(** [BuildChannelForCamera] followed by [InvokeMethod] on that channel. *)
Definition channel_name (camera_id : Z) : string :=
  kCameraMethodChannelBaseName +:+ pretty camera_id.

(** Adds pending result to the pending_results map.
    Calls method result error handler, if result already exists. *)
Definition AddPendingResult (type : PendingResultType) (result : MethodResult)
    (c : t) : bool * t * list HostEffect :=
  match pending_results_ c !! type with
  | Some _ =>
      (false, c,
       [ResultError result "Duplicate request" "Method handler already called"])
  | None =>
      (true, with_pending_results (<[type := result]> (pending_results_ c)) c,
       [])
  end.

Definition GetPendingResultByType (type : PendingResultType) (c : t)
    : option MethodResult * t :=
  match pending_results_ c !! type with
  | None => (None, c)
  | Some result =>
      (Some result, with_pending_results (delete type (pending_results_ c)) c)
  end.

Definition HasPendingResultByType (type : PendingResultType) (c : t) : bool :=
  bool_decide (is_Some (pending_results_ c !! type)).

(** The keys in ascending order: the enumerators of camera.h by their
    values. *)
Definition PendingResultType_values : list PendingResultType :=
  [CREATE_CAMERA; INITIALIZE; TAKE_PICTURE; START_RECORD; STOP_RECORD;
   PAUSE_PREVIEW; RESUME_PREVIEW].

(** [for (const auto &pending_result : pending_results_)]: a [std::map] is
    visited in the ascending order of its keys. *)
Definition in_key_order (m : gmap PendingResultType MethodResult)
    : list (PendingResultType * MethodResult) :=
  omap (λ type, pair type <$> m !! type) PendingResultType_values.

(** The loop over the map calls [Error] on every entry, in the order of the
    keys, then the map is cleared. *)
Definition SendErrorForPendingResults (error_id description : string)
    (c : t) : t * list HostEffect :=
  (with_pending_results ∅ c,
   (λ pending_result, ResultError pending_result.2 error_id description)
     <$> in_key_order (pending_results_ c)).

(** The shape shared by the callbacks that answer one pending result: take
    it out of the map and, if there was one, resolve it. *)
Definition resolve (type : PendingResultType)
    (answer : MethodResult → HostEffect) (c : t) : t * list HostEffect :=
  match GetPendingResultByType type c with
  | (Some pending_result, c') => (c', [answer pending_result])
  | (None, c') => (c', [])
  end.

Definition OnCreateCaptureEngineSucceeded (texture_id : Z) (c : t)
    : t * list HostEffect :=
  resolve CREATE_CAMERA
    (λ r, ResultSuccess r
            (EV_Map [(EV_String "cameraId", EV_Int64 texture_id)]))
    (with_camera_id texture_id c).

Definition OnCreateCaptureEngineFailed (error : string) (c : t)
    : t * list HostEffect :=
  resolve CREATE_CAMERA (λ r, ResultError r "camera_error" error) c.

Definition OnStartPreviewSucceeded (width height : Z) (c : t)
    : t * list HostEffect :=
  resolve INITIALIZE
    (λ r, ResultSuccess r
            (EV_Map [(EV_String "previewWidth", EV_Float width);
                     (EV_String "previewHeight", EV_Float height)]))
    c.

Definition OnStartPreviewFailed (error : string) (c : t)
    : t * list HostEffect :=
  resolve INITIALIZE (λ r, ResultError r "camera_error" error) c.

Definition OnResumePreviewSucceeded (c : t) : t * list HostEffect :=
  resolve RESUME_PREVIEW (λ r, ResultSuccess r EV_Null) c.

Definition OnResumePreviewFailed (error : string) (c : t)
    : t * list HostEffect :=
  resolve RESUME_PREVIEW (λ r, ResultError r "camera_error" error) c.

Definition OnPausePreviewSucceeded (c : t) : t * list HostEffect :=
  resolve PAUSE_PREVIEW (λ r, ResultSuccess r EV_Null) c.

Definition OnPausePreviewFailed (error : string) (c : t)
    : t * list HostEffect :=
  resolve PAUSE_PREVIEW (λ r, ResultError r "camera_error" error) c.

Definition OnStartRecordSucceeded (c : t) : t * list HostEffect :=
  resolve START_RECORD (λ r, ResultSuccess r EV_Null) c.

Definition OnStartRecordFailed (error : string) (c : t)
    : t * list HostEffect :=
  resolve START_RECORD (λ r, ResultError r "camera_error" error) c.

Definition OnStopRecordSucceeded (filepath : string) (c : t)
    : t * list HostEffect :=
  resolve STOP_RECORD (λ r, ResultSuccess r (EV_String filepath)) c.

Definition OnStopRecordFailed (error : string) (c : t)
    : t * list HostEffect :=
  resolve STOP_RECORD (λ r, ResultError r "camera_error" error) c.

Definition OnTakePictureSucceeded (filepath : string) (c : t)
    : t * list HostEffect :=
  resolve TAKE_PICTURE (λ r, ResultSuccess r (EV_String filepath)) c.

Definition OnTakePictureFailed (error : string) (c : t)
    : t * list HostEffect :=
  resolve TAKE_PICTURE (λ r, ResultError r "camera_error" error) c.

(** The push notifications go out only with a messenger and an assigned
    camera id. *)
Definition push (method : string) (arguments : EncodableValue) (c : t)
    : list HostEffect :=
  match messenger_ c with
  | Some messenger =>
      if bool_decide (0 ≤ camera_id_ c)
      then [InvokeMethod messenger (channel_name (camera_id_ c)) method
                         arguments]
      else []
  | None => []
  end.

Definition OnVideoRecordSucceeded (filepath : string) (video_duration : Z)
    (c : t) : t * list HostEffect :=
  (c, push kVideoRecordedEvent
        (EV_Map [(EV_String "path", EV_String filepath);
                 (EV_String "maxVideoDuration", EV_Int64 video_duration)])
        c).

(** The body is empty. *)
Definition OnVideoRecordFailed (error : string) (c : t)
    : t * list HostEffect :=
  (c, []).

Definition OnCaptureError (error : string) (c : t) : t * list HostEffect :=
  let notification :=
    push kErrorEvent (EV_Map [(EV_String "description", EV_String error)]) c in
  let '(c', failures) := SendErrorForPendingResults "capture_error" error c in
  (c', notification ++ failures).

End CameraImpl.

(** ** CaptureControllerListener (the interface CameraImpl implements) *)

(** One constructor per virtual member function; a value is one call the
    controller makes on its listener. *)
Module Listener.

Inductive call : Type :=
| OnCreateCaptureEngineSucceeded (texture_id : Z)
| OnCreateCaptureEngineFailed (error : string)
| OnStartPreviewSucceeded (width height : Z)
| OnStartPreviewFailed (error : string)
| OnResumePreviewSucceeded
| OnResumePreviewFailed (error : string)
| OnPausePreviewSucceeded
| OnPausePreviewFailed (error : string)
| OnStartRecordSucceeded
| OnStartRecordFailed (error : string)
| OnStopRecordSucceeded (filepath : string)
| OnStopRecordFailed (error : string)
| OnTakePictureSucceeded (filepath : string)
| OnTakePictureFailed (error : string)
| OnVideoRecordSucceeded (filepath : string) (video_duration : Z)
| OnVideoRecordFailed (error : string)
| OnCaptureError (error : string).

(** The calls on the stop-record result channel and on the video-record push
    channel. *)
Definition is_stop_record (c : call) : bool :=
  match c with
  | OnStopRecordSucceeded _ | OnStopRecordFailed _ => true
  | _ => false
  end.

Definition is_video_record (c : call) : bool :=
  match c with
  | OnVideoRecordSucceeded _ _ | OnVideoRecordFailed _ => true
  | _ => false
  end.

Definition is_start_preview_succeeded (c : call) : bool :=
  match c with
  | OnStartPreviewSucceeded _ _ => true
  | _ => false
  end.

End Listener.

(** Virtual dispatch: the listener is a [CameraImpl]. *)
Definition dispatch (call : Listener.call) (c : CameraImpl.t)
    : CameraImpl.t * list HostEffect :=
  match call with
  | Listener.OnCreateCaptureEngineSucceeded texture_id =>
      CameraImpl.OnCreateCaptureEngineSucceeded texture_id c
  | Listener.OnCreateCaptureEngineFailed error =>
      CameraImpl.OnCreateCaptureEngineFailed error c
  | Listener.OnStartPreviewSucceeded width height =>
      CameraImpl.OnStartPreviewSucceeded width height c
  | Listener.OnStartPreviewFailed error =>
      CameraImpl.OnStartPreviewFailed error c
  | Listener.OnResumePreviewSucceeded => CameraImpl.OnResumePreviewSucceeded c
  | Listener.OnResumePreviewFailed error =>
      CameraImpl.OnResumePreviewFailed error c
  | Listener.OnPausePreviewSucceeded => CameraImpl.OnPausePreviewSucceeded c
  | Listener.OnPausePreviewFailed error =>
      CameraImpl.OnPausePreviewFailed error c
  | Listener.OnStartRecordSucceeded => CameraImpl.OnStartRecordSucceeded c
  | Listener.OnStartRecordFailed error => CameraImpl.OnStartRecordFailed error c
  | Listener.OnStopRecordSucceeded filepath =>
      CameraImpl.OnStopRecordSucceeded filepath c
  | Listener.OnStopRecordFailed error => CameraImpl.OnStopRecordFailed error c
  | Listener.OnTakePictureSucceeded filepath =>
      CameraImpl.OnTakePictureSucceeded filepath c
  | Listener.OnTakePictureFailed error => CameraImpl.OnTakePictureFailed error c
  | Listener.OnVideoRecordSucceeded filepath video_duration =>
      CameraImpl.OnVideoRecordSucceeded filepath video_duration c
  | Listener.OnVideoRecordFailed error => CameraImpl.OnVideoRecordFailed error c
  | Listener.OnCaptureError error => CameraImpl.OnCaptureError error c
  end.

(** The calls of one controller operation, delivered in program order. *)
Fixpoint dispatch_all (calls : list Listener.call) (c : CameraImpl.t)
    : CameraImpl.t * list HostEffect :=
  match calls with
  | [] => (c, [])
  | call :: rest =>
      let '(c1, effects1) := dispatch call c in
      let '(c2, effects2) := dispatch_all rest c1 in
      (c2, effects1 ++ effects2)
  end.

(** ** The capture engine, seen from the controller *)

(** An [IMFMediaType] as far as the controller looks into it:
    [MFGetAttributeSize(.., MF_MT_FRAME_SIZE, ..)] either fails or yields a
    width and a height; [media_type_id] tells native types of one size
    apart. *)
Record IMFMediaType : Type := {
  media_type_id : nat;
  MF_MT_FRAME_SIZE : option (Z * Z);
}.

#[global] Instance IMFMediaType_eq_dec : EqDecision IMFMediaType.
Proof. solve_decision. Defined.

Inductive SourceStream : Type :=
| MF_CAPTURE_ENGINE_PREFERRED_SOURCE_STREAM_FOR_VIDEO_PREVIEW
| MF_CAPTURE_ENGINE_PREFERRED_SOURCE_STREAM_FOR_VIDEO_RECORD.

(** An [IMFCaptureSource]: for a stream, the media types
    [GetAvailableDeviceMediaType] yields for the indices 0, 1, ... up to its
    first failure. *)
Definition IMFCaptureSource := SourceStream → list IMFMediaType.

(** What the platform answers during one operation of the controller: the
    status of each native call the operation can make, the native media
    types, the id the texture registrar hands out, the text
    [std::system_category().message] has for a status. *)
Record Env : Type := {
  hr_MFStartup : HRESULT;
  hr_CreateCaptureEngine : HRESULT;
  RegisterTexture : Z;
  hr_GetSource : HRESULT;
  capture_source : IMFCaptureSource;
  hr_GetSink : HRESULT;
  hr_As_preview_sink : HRESULT;
  hr_RemoveAllStreams : HRESULT;
  hr_MFCreateMediaType : HRESULT;
  hr_CopyAllItems : HRESULT;
  hr_SetGUID : HRESULT;
  hr_SetUINT32 : HRESULT;
  hr_AddStream : HRESULT;
  hr_SetSampleCallback : HRESULT;
  hr_StartPreview : HRESULT;
  hr_StopPreview : HRESULT;
  hr_StartRecord : HRESULT;
  hr_StopRecord : HRESULT;
  hr_TakePhoto : HRESULT;
  system_category_message : HRESULT → string;
}.

(** ** PreviewHandler (preview_handler.cpp) *)

Module PreviewHandler.

(** Modelled from the spec: preview_handler.h, which declares the enum and
    the inline predicates, is not among the sources.  The four states the
    source names are joined by the spec's STOPPED, the state of a handler
    whose preview was never started. *)
Inductive PreviewState : Type :=
| PREVIEW_STATE__STOPPED
| PREVIEW_STATE__STARTING
| PREVIEW_STATE__RUNNING
| PREVIEW_STATE__PAUSED
| PREVIEW_STATE__STOPPING.

#[global] Instance PreviewState_eq_dec : EqDecision PreviewState.
Proof. solve_decision. Defined.

(** [preview_sink_] is a [ComPtr]: [true] when it holds a sink. *)
Record t : Type := mk {
  preview_sink_ : bool;
  preview_state_ : PreviewState;
}.

(** [std::make_unique<PreviewHandler>()]. *)
Definition new : t := mk false PREVIEW_STATE__STOPPED.

Definition with_state (st : PreviewState) (h : t) : t :=
  mk (preview_sink_ h) st.

Definition with_sink (sink : bool) (h : t) : t :=
  mk sink (preview_state_ h).

(** Modelled from the spec: the inline predicate of preview_handler.h; a
    preview "already running" (running, or paused, which is running with the
    frames suppressed) counts as initialized. *)
Definition IsInitialized (h : t) : bool :=
  bool_decide (preview_state_ h = PREVIEW_STATE__RUNNING) ||
  bool_decide (preview_state_ h = PREVIEW_STATE__PAUSED).

(** Modelled from the spec: the inline predicate of preview_handler.h; a
    preview start is pending its first frame. *)
Definition IsStarting (h : t) : bool :=
  bool_decide (preview_state_ h = PREVIEW_STATE__STARTING).

(** Initializes media type for video preview.  [src_media_type] is a
    pointer, [None] when null; the function returns a status, or does not
    return ([None]) because it calls [CopyAllItems] through the null
    pointer.  The media type it builds is handed to [AddStream] only. *)
Definition BuildMediaTypeForVideoPreview (env : Env)
    (src_media_type : option IMFMediaType) : option HRESULT :=
  if FAILED (hr_MFCreateMediaType env) then Some (hr_MFCreateMediaType env)
  else
    match src_media_type with
    | None => None
    | Some _ =>
        (* Clones everything from original media type. *)
        if FAILED (hr_CopyAllItems env) then Some (hr_CopyAllItems env)
        (* Changes subtype to MFVideoFormat_RGB32. *)
        else if FAILED (hr_SetGUID env) then Some (hr_SetGUID env)
        else Some (hr_SetUINT32 env)
    end.

(** [None]: the null [base_media_type] was dereferenced. *)
Definition InitPreviewSink (env : Env) (base_media_type : option IMFMediaType)
    (h : t) : option (HRESULT * t) :=
  if preview_sink_ h then Some (S_OK, h)
  else if FAILED (hr_GetSink env) then Some (hr_GetSink env, h)
  else if FAILED (hr_As_preview_sink env)
       then Some (hr_As_preview_sink env, with_sink false h)
  else if FAILED (hr_RemoveAllStreams env)
       then Some (hr_RemoveAllStreams env, with_sink false h)
  else
    match BuildMediaTypeForVideoPreview env base_media_type with
    | None => None
    | Some hr =>
        if FAILED hr then Some (hr, with_sink false h)
        else if FAILED (hr_AddStream env)
             then Some (hr_AddStream env, with_sink true h)
        else if FAILED (hr_SetSampleCallback env)
             then Some (hr_SetSampleCallback env, with_sink false h)
        else Some (hr_SetSampleCallback env, with_sink true h)
    end.

Definition StartPreview (env : Env) (base_media_type : option IMFMediaType)
    (h : t) : option (bool * t) :=
  match InitPreviewSink env base_media_type h with
  | None => None
  | Some (hr, h1) =>
      if FAILED hr then Some (false, h1)
      else Some (SUCCEEDED (hr_StartPreview env),
                 with_state PREVIEW_STATE__STARTING h1)
  end.

Definition StopPreview (env : Env) (h : t) : bool * t :=
  if bool_decide (preview_state_ h = PREVIEW_STATE__STARTING) ||
     bool_decide (preview_state_ h = PREVIEW_STATE__RUNNING) ||
     bool_decide (preview_state_ h = PREVIEW_STATE__PAUSED)
  then (SUCCEEDED (hr_StopPreview env), with_state PREVIEW_STATE__STOPPING h)
  else (false, h).

Definition PausePreview (h : t) : bool * t :=
  if bool_decide (preview_state_ h ≠ PREVIEW_STATE__RUNNING) then (false, h)
  else (true, with_state PREVIEW_STATE__PAUSED h).

Definition ResumePreview (h : t) : bool * t :=
  if bool_decide (preview_state_ h ≠ PREVIEW_STATE__PAUSED) then (false, h)
  else (true, with_state PREVIEW_STATE__RUNNING h).

(** The [assert] is compiled out of release builds; the [if] stays. *)
Definition OnPreviewStarted (h : t) : t :=
  if bool_decide (preview_state_ h = PREVIEW_STATE__STARTING)
  then with_state PREVIEW_STATE__RUNNING h
  else h.

End PreviewHandler.

(** ** RecordHandler and PhotoHandler (record_handler.h, photo_handler.h) *)

(** Neither handler's source is at hand; the controller is embedded over any
    implementation of the member functions it calls.  The functions that
    talk to the capture engine see the platform's answers. *)
Module RecordHandler.

Class api : Type := {
  t : Type;
  new : bool → t;
  CanStart : t → bool;
  CanStop : t → bool;
  IsContinuousRecording : t → bool;
  IsTimedRecording : t → bool;
  ShouldStopTimedRecording : t → bool;
  GetRecordPath : t → string;
  GetRecordedDuration : t → Z;
  StartRecord : string → Z → Env → t → bool * t;
  StopRecord : Env → t → bool * t;
  OnRecordStarted : t → t;
  OnRecordStopped : t → t;
  UpdateRecordingTime : Z → t → t;
}.

End RecordHandler.

Module PhotoHandler.

Class api : Type := {
  t : Type;
  new : t;
  IsTakingPhoto : t → bool;
  GetPhotoPath : t → string;
  TakePhoto : string → Env → t → bool * t;
  OnPhotoTaken : t → t;
}.

End PhotoHandler.

(** ** The controller's effects *)

(** Undefined behaviour the embedding makes explicit. *)
Inductive Fault : Type :=
| NullDereference
| BufferOverrun.

(** An operation runs on the object's state; it returns a value, a new state
    and the listener calls it made, or it stops at a fault after the calls it
    had made until then. *)
Inductive Outcome (S A : Type) : Type :=
| Returns (a : A) (s : S) (calls : list Listener.call)
| Crashes (f : Fault) (calls : list Listener.call).

Arguments Returns {S A} a s calls.
Arguments Crashes {S A} f calls.

Definition M (S A : Type) : Type := S → Outcome S A.

Definition ret {S A} (a : A) : M S A := λ s, Returns a s [].

Definition bind {S A B} (m : M S A) (k : A → M S B) : M S B :=
  λ s, match m s with
       | Returns a s1 calls1 =>
           match k a s1 with
           | Returns b s2 calls2 => Returns b s2 (calls1 ++ calls2)
           | Crashes f calls2 => Crashes f (calls1 ++ calls2)
           end
       | Crashes f calls1 => Crashes f calls1
       end.

Definition get {S} : M S S := λ s, Returns s s [].
Definition modify {S} (f : S → S) : M S unit := λ s, Returns () (f s) [].
Definition emit {S} (call : Listener.call) : M S unit :=
  λ s, Returns () s [call].
Definition crash {S A} (f : Fault) : M S A := λ _, Crashes f [].

Notation "'let*' x := m 'in' k" := (bind m (λ x, k))
  (at level 10, x pattern, m at level 100, k at level 200,
   format "'[v' 'let*'  x  :=  m  'in' '/' k ']'").
Notation "m ;;; k" := (bind m (λ _, k))
  (at level 100, k at level 200, right associativity,
   format "'[v' m  ;;; '/' k ']'").

(** C++'s [a && b]: [b] is evaluated only when [a] holds. *)
Definition and_then {S} (a : bool) (b : M S bool) : M S bool :=
  if a then b else ret false.

(** [wp E m s Φ]: run from [s], [m] returns with [Φ], or it stops at a fault
    and [E] holds.  [E := True] is partial correctness, [E := False] also
    rules the faults out. *)
Definition wp {S A} (E : Prop) (m : M S A) (s : S)
    (Φ : A → S → list Listener.call → Prop) : Prop :=
  match m s with
  | Returns a s' calls => Φ a s' calls
  | Crashes _ _ => E
  end.

(** ** CaptureControllerImpl (capture_controller.cpp) *)

Inductive CaptureEngineState : Type :=
| CAPTURE_ENGINE_NOT_INITIALIZED
| CAPTURE_ENGINE_INITIALIZING
| CAPTURE_ENGINE_INITIALIZED.

#[global] Instance CaptureEngineState_eq_dec : EqDecision CaptureEngineState.
Proof. solve_decision. Defined.

(** The six presets [GetMaxPreviewHeight] names; [RESOLUTION_PRESET_other]
    stands for any further value of the enum, which the switch sends to its
    [default] label. *)
Inductive ResolutionPreset : Type :=
| RESOLUTION_PRESET_AUTO
| RESOLUTION_PRESET_LOW
| RESOLUTION_PRESET_MEDIUM
| RESOLUTION_PRESET_HIGH
| RESOLUTION_PRESET_VERY_HIGH
| RESOLUTION_PRESET_ULTRA_HIGH
| RESOLUTION_PRESET_other (value : Z).

(** The events of the capture engine the router tells apart; [None] as the
    extended type or the status is a failed [GetExtendedType] or
    [GetStatus]. *)
Inductive ExtendedType : Type :=
| MF_CAPTURE_ENGINE_ERROR
| MF_CAPTURE_ENGINE_INITIALIZED
| MF_CAPTURE_ENGINE_PREVIEW_STARTED
| MF_CAPTURE_ENGINE_PREVIEW_STOPPED
| MF_CAPTURE_ENGINE_RECORD_STARTED
| MF_CAPTURE_ENGINE_RECORD_STOPPED
| MF_CAPTURE_ENGINE_PHOTO_TAKEN
| MF_CAPTURE_ENGINE_CAMERA_STREAM_BLOCKED
| MF_CAPTURE_ENGINE_CAMERA_STREAM_UNBLOCKED
| MF_CAPTURE_ENGINE_other (guid : nat).

Record IMFMediaEvent : Type := {
  GetExtendedType : option ExtendedType;
  GetStatus : option HRESULT;
}.

(** The texture handed to the presentation layer. *)
Record FlutterDesktopPixelBuffer : Type := {
  buffer : list Z;
  width : Z;
  height : Z;
}.

(** Finds best media type for given source stream index and max height.
    [target_media_type] is the caller's [ComPtr], read and written through
    its address; the best width and height are returned for the caller to
    store where it passed pointers. *)
Definition improves (max_height best_width best_height : Z)
    (frame_width frame_height : Z) : bool :=
  bool_decide (frame_height ≤ max_height) &&
  (bool_decide (best_width < frame_width) ||
   bool_decide (best_height < frame_height)).

Fixpoint scan_media_types (max_height : Z) (types : list IMFMediaType)
    (target : option IMFMediaType) (best_width best_height : Z)
    : option IMFMediaType * (Z * Z) :=
  match types with
  | [] => (target, (best_width, best_height))
  | media_type :: rest =>
      match MF_MT_FRAME_SIZE media_type with
      | Some (frame_width, frame_height) =>
          if improves max_height best_width best_height frame_width frame_height
          then scan_media_types max_height rest (Some media_type)
                 frame_width frame_height
          else scan_media_types max_height rest target best_width best_height
      | None => scan_media_types max_height rest target best_width best_height
      end
  end.

Definition FindBestMediaType (source_stream_index : SourceStream)
    (source : IMFCaptureSource) (target_media_type : option IMFMediaType)
    (max_height : Z) : bool * option IMFMediaType * (Z * Z) :=
  let '(target, best) :=
    scan_media_types max_height (source source_stream_index)
      target_media_type 0 0 in
  (bool_decide (is_Some target), target, best).

(** The two pixel layouts of capture_controller.h, one byte per channel:
    the capture engine's RGB32 sample stores blue first, the texture's pixel
    red first. *)
Record MFVideoFormatRGB32Pixel : Type := {
  rgb32_b : Z;
  rgb32_g : Z;
  rgb32_r : Z;
  rgb32_x : Z;
}.

Record FlutterDesktopPixel : Type := {
  pixel_r : Z;
  pixel_g : Z;
  pixel_b : Z;
  pixel_a : Z;
}.

(** [src[i]] for the byte array seen as an array of RGB32 pixels; [None]
    when the pixel is not inside the array. *)
Definition read_pixel (data : list Z) (i : nat)
    : option MFVideoFormatRGB32Pixel :=
  match data !! (4 * i)%nat, data !! (4 * i + 1)%nat,
        data !! (4 * i + 2)%nat, data !! (4 * i + 3)%nat with
  | Some b, Some g, Some r, Some x =>
      Some {| rgb32_b := b; rgb32_g := g; rgb32_r := r; rgb32_x := x |}
  | _, _, _, _ => None
  end.

(** The body of the conversion loop. *)
Definition convert_pixel (src : MFVideoFormatRGB32Pixel) : FlutterDesktopPixel :=
  {| pixel_r := rgb32_r src; pixel_g := rgb32_g src; pixel_b := rgb32_b src;
     pixel_a := 255 |}.

Definition pixel_bytes (p : FlutterDesktopPixel) : list Z :=
  [pixel_r p; pixel_g p; pixel_b p; pixel_a p].

(** [for (i = first; i < first + count; i++) dst[i] = convert(src[i])], for a
    destination of [capacity] bytes: the bytes written, or [None] when a
    pixel read or written lies outside its array. *)
Fixpoint convert_pixels (count : nat) (first : nat) (src : list Z)
    (capacity : Z) : option (list Z) :=
  match count with
  | O => Some []
  | S count' =>
      if bool_decide (capacity < 4 * (Z.of_nat first + 1)) then None
      else
        match read_pixel src first with
        | None => None
        | Some p =>
            match convert_pixels count' (S first) src capacity with
            | None => None
            | Some rest => Some (pixel_bytes (convert_pixel p) ++ rest)
            end
        end
  end.

Module CaptureControllerImpl.

Section WithHandlers.

Context {RH : RecordHandler.api} {PH : PhotoHandler.api}.

(** The members the session logic reads or writes.  Pointers are [bool]
    ("not null") where only that is looked at.  The COM objects
    [CreateCaptureEngine] builds (engine, sources, device manager) are left to
    the platform: the function is represented by its status. *)
Record t : Type := mk {
  capture_controller_listener_ : bool;
  capture_engine_state_ : CaptureEngineState;
  media_foundation_started_ : bool;
  resolution_preset_ : ResolutionPreset;
  record_audio_ : bool;
  texture_registrar_ : bool;
  texture_id_ : Z;
  record_handler_ : option RecordHandler.t;
  preview_handler_ : option PreviewHandler.t;
  photo_handler_ : option PhotoHandler.t;
  preview_frame_width_ : Z;
  preview_frame_height_ : Z;
  base_preview_media_type_ : option IMFMediaType;
  base_capture_media_type_ : option IMFMediaType;
  source_buffer_data_ : option (list Z);
  source_buffer_size_ : Z;
  dest_buffer_ : option (list Z);
}.

Definition set_capture_controller_listener_ (v : bool) (c : t) : t :=
  mk v (capture_engine_state_ c) (media_foundation_started_ c)
     (resolution_preset_ c) (record_audio_ c) (texture_registrar_ c)
     (texture_id_ c) (record_handler_ c) (preview_handler_ c)
     (photo_handler_ c) (preview_frame_width_ c) (preview_frame_height_ c)
     (base_preview_media_type_ c) (base_capture_media_type_ c)
     (source_buffer_data_ c) (source_buffer_size_ c) (dest_buffer_ c).

Definition set_capture_engine_state_ (v : CaptureEngineState) (c : t) : t :=
  mk (capture_controller_listener_ c) v (media_foundation_started_ c)
     (resolution_preset_ c) (record_audio_ c) (texture_registrar_ c)
     (texture_id_ c) (record_handler_ c) (preview_handler_ c)
     (photo_handler_ c) (preview_frame_width_ c) (preview_frame_height_ c)
     (base_preview_media_type_ c) (base_capture_media_type_ c)
     (source_buffer_data_ c) (source_buffer_size_ c) (dest_buffer_ c).

Definition set_media_foundation_started_ (v : bool) (c : t) : t :=
  mk (capture_controller_listener_ c) (capture_engine_state_ c) v
     (resolution_preset_ c) (record_audio_ c) (texture_registrar_ c)
     (texture_id_ c) (record_handler_ c) (preview_handler_ c)
     (photo_handler_ c) (preview_frame_width_ c) (preview_frame_height_ c)
     (base_preview_media_type_ c) (base_capture_media_type_ c)
     (source_buffer_data_ c) (source_buffer_size_ c) (dest_buffer_ c).

Definition set_resolution_preset_ (v : ResolutionPreset) (c : t) : t :=
  mk (capture_controller_listener_ c) (capture_engine_state_ c)
     (media_foundation_started_ c) v (record_audio_ c) (texture_registrar_
     c) (texture_id_ c) (record_handler_ c) (preview_handler_ c)
     (photo_handler_ c) (preview_frame_width_ c) (preview_frame_height_ c)
     (base_preview_media_type_ c) (base_capture_media_type_ c)
     (source_buffer_data_ c) (source_buffer_size_ c) (dest_buffer_ c).

Definition set_record_audio_ (v : bool) (c : t) : t :=
  mk (capture_controller_listener_ c) (capture_engine_state_ c)
     (media_foundation_started_ c) (resolution_preset_ c) v
     (texture_registrar_ c) (texture_id_ c) (record_handler_ c)
     (preview_handler_ c) (photo_handler_ c) (preview_frame_width_ c)
     (preview_frame_height_ c) (base_preview_media_type_ c)
     (base_capture_media_type_ c) (source_buffer_data_ c)
     (source_buffer_size_ c) (dest_buffer_ c).

Definition set_texture_registrar_ (v : bool) (c : t) : t :=
  mk (capture_controller_listener_ c) (capture_engine_state_ c)
     (media_foundation_started_ c) (resolution_preset_ c) (record_audio_ c)
     v (texture_id_ c) (record_handler_ c) (preview_handler_ c)
     (photo_handler_ c) (preview_frame_width_ c) (preview_frame_height_ c)
     (base_preview_media_type_ c) (base_capture_media_type_ c)
     (source_buffer_data_ c) (source_buffer_size_ c) (dest_buffer_ c).

Definition set_texture_id_ (v : Z) (c : t) : t :=
  mk (capture_controller_listener_ c) (capture_engine_state_ c)
     (media_foundation_started_ c) (resolution_preset_ c) (record_audio_ c)
     (texture_registrar_ c) v (record_handler_ c) (preview_handler_ c)
     (photo_handler_ c) (preview_frame_width_ c) (preview_frame_height_ c)
     (base_preview_media_type_ c) (base_capture_media_type_ c)
     (source_buffer_data_ c) (source_buffer_size_ c) (dest_buffer_ c).

Definition set_record_handler_ (v : option RecordHandler.t) (c : t) : t :=
  mk (capture_controller_listener_ c) (capture_engine_state_ c)
     (media_foundation_started_ c) (resolution_preset_ c) (record_audio_ c)
     (texture_registrar_ c) (texture_id_ c) v (preview_handler_ c)
     (photo_handler_ c) (preview_frame_width_ c) (preview_frame_height_ c)
     (base_preview_media_type_ c) (base_capture_media_type_ c)
     (source_buffer_data_ c) (source_buffer_size_ c) (dest_buffer_ c).

Definition set_preview_handler_ (v : option PreviewHandler.t) (c : t) : t :=
  mk (capture_controller_listener_ c) (capture_engine_state_ c)
     (media_foundation_started_ c) (resolution_preset_ c) (record_audio_ c)
     (texture_registrar_ c) (texture_id_ c) (record_handler_ c) v
     (photo_handler_ c) (preview_frame_width_ c) (preview_frame_height_ c)
     (base_preview_media_type_ c) (base_capture_media_type_ c)
     (source_buffer_data_ c) (source_buffer_size_ c) (dest_buffer_ c).

Definition set_photo_handler_ (v : option PhotoHandler.t) (c : t) : t :=
  mk (capture_controller_listener_ c) (capture_engine_state_ c)
     (media_foundation_started_ c) (resolution_preset_ c) (record_audio_ c)
     (texture_registrar_ c) (texture_id_ c) (record_handler_ c)
     (preview_handler_ c) v (preview_frame_width_ c) (preview_frame_height_
     c) (base_preview_media_type_ c) (base_capture_media_type_ c)
     (source_buffer_data_ c) (source_buffer_size_ c) (dest_buffer_ c).

Definition set_preview_frame_width_ (v : Z) (c : t) : t :=
  mk (capture_controller_listener_ c) (capture_engine_state_ c)
     (media_foundation_started_ c) (resolution_preset_ c) (record_audio_ c)
     (texture_registrar_ c) (texture_id_ c) (record_handler_ c)
     (preview_handler_ c) (photo_handler_ c) v (preview_frame_height_ c)
     (base_preview_media_type_ c) (base_capture_media_type_ c)
     (source_buffer_data_ c) (source_buffer_size_ c) (dest_buffer_ c).

Definition set_preview_frame_height_ (v : Z) (c : t) : t :=
  mk (capture_controller_listener_ c) (capture_engine_state_ c)
     (media_foundation_started_ c) (resolution_preset_ c) (record_audio_ c)
     (texture_registrar_ c) (texture_id_ c) (record_handler_ c)
     (preview_handler_ c) (photo_handler_ c) (preview_frame_width_ c) v
     (base_preview_media_type_ c) (base_capture_media_type_ c)
     (source_buffer_data_ c) (source_buffer_size_ c) (dest_buffer_ c).

Definition set_base_preview_media_type_ (v : option IMFMediaType) (c : t) : t :=
  mk (capture_controller_listener_ c) (capture_engine_state_ c)
     (media_foundation_started_ c) (resolution_preset_ c) (record_audio_ c)
     (texture_registrar_ c) (texture_id_ c) (record_handler_ c)
     (preview_handler_ c) (photo_handler_ c) (preview_frame_width_ c)
     (preview_frame_height_ c) v (base_capture_media_type_ c)
     (source_buffer_data_ c) (source_buffer_size_ c) (dest_buffer_ c).

Definition set_base_capture_media_type_ (v : option IMFMediaType) (c : t) : t :=
  mk (capture_controller_listener_ c) (capture_engine_state_ c)
     (media_foundation_started_ c) (resolution_preset_ c) (record_audio_ c)
     (texture_registrar_ c) (texture_id_ c) (record_handler_ c)
     (preview_handler_ c) (photo_handler_ c) (preview_frame_width_ c)
     (preview_frame_height_ c) (base_preview_media_type_ c) v
     (source_buffer_data_ c) (source_buffer_size_ c) (dest_buffer_ c).

Definition set_source_buffer_data_ (v : option (list Z)) (c : t) : t :=
  mk (capture_controller_listener_ c) (capture_engine_state_ c)
     (media_foundation_started_ c) (resolution_preset_ c) (record_audio_ c)
     (texture_registrar_ c) (texture_id_ c) (record_handler_ c)
     (preview_handler_ c) (photo_handler_ c) (preview_frame_width_ c)
     (preview_frame_height_ c) (base_preview_media_type_ c)
     (base_capture_media_type_ c) v (source_buffer_size_ c) (dest_buffer_
     c).

Definition set_source_buffer_size_ (v : Z) (c : t) : t :=
  mk (capture_controller_listener_ c) (capture_engine_state_ c)
     (media_foundation_started_ c) (resolution_preset_ c) (record_audio_ c)
     (texture_registrar_ c) (texture_id_ c) (record_handler_ c)
     (preview_handler_ c) (photo_handler_ c) (preview_frame_width_ c)
     (preview_frame_height_ c) (base_preview_media_type_ c)
     (base_capture_media_type_ c) (source_buffer_data_ c) v (dest_buffer_
     c).

Definition set_dest_buffer_ (v : option (list Z)) (c : t) : t :=
  mk (capture_controller_listener_ c) (capture_engine_state_ c)
     (media_foundation_started_ c) (resolution_preset_ c) (record_audio_ c)
     (texture_registrar_ c) (texture_id_ c) (record_handler_ c)
     (preview_handler_ c) (photo_handler_ c) (preview_frame_width_ c)
     (preview_frame_height_ c) (base_preview_media_type_ c)
     (base_capture_media_type_ c) (source_buffer_data_ c)
     (source_buffer_size_ c) v.

(** The constructor; the member initializers are the values
    [ResetCaptureController] restores. *)
Definition CaptureControllerImpl (listener : bool) : t :=
  mk listener CAPTURE_ENGINE_NOT_INITIALIZED false RESOLUTION_PRESET_AUTO false
     false (-1) None None None 0 0 None None None 0 None.

Definition GetMaxPreviewHeight (c : t) : Z :=
  match resolution_preset_ c with
  | RESOLUTION_PRESET_LOW => 240
  | RESOLUTION_PRESET_MEDIUM => 480
  | RESOLUTION_PRESET_HIGH => 720
  | RESOLUTION_PRESET_VERY_HIGH => 1080
  | RESOLUTION_PRESET_ULTRA_HIGH => 2160
  | RESOLUTION_PRESET_AUTO | RESOLUTION_PRESET_other _ => 4294967295
  end.

(** Calls through the controller's pointers. *)
Definition listener_call (call : Listener.call) : M t unit :=
  let* c := get in
  if capture_controller_listener_ c then emit call else crash NullDereference.

(** [if (capture_controller_listener_) { capture_controller_listener_->... }] *)
Definition if_listener (call : Listener.call) : M t unit :=
  let* c := get in
  if capture_controller_listener_ c then emit call else ret ().

Definition deref_record_handler : M t RecordHandler.t :=
  let* c := get in
  match record_handler_ c with
  | Some h => ret h
  | None => crash NullDereference
  end.

Definition deref_preview_handler : M t PreviewHandler.t :=
  let* c := get in
  match preview_handler_ c with
  | Some h => ret h
  | None => crash NullDereference
  end.

Definition deref_photo_handler : M t PhotoHandler.t :=
  let* c := get in
  match photo_handler_ c with
  | Some h => ret h
  | None => crash NullDereference
  end.

(** *** Pipeline outcomes, reported to the listener *)

(** Handles RecordStopped event and informs CaptureControllerListener. *)
Definition OnRecordStopped (success : bool) (error : string) : M t unit :=
  let* c := get in
  match capture_controller_listener_ c, record_handler_ c with
  | true, Some h =>
      if success then
        let path := RecordHandler.GetRecordPath h in
        emit (Listener.OnStopRecordSucceeded path) ;;;
        if RecordHandler.IsTimedRecording h
        then emit (Listener.OnVideoRecordSucceeded path
                     (Z.quot (RecordHandler.GetRecordedDuration h) 1000))
        else ret ()
      else
        emit (Listener.OnStopRecordFailed error) ;;;
        if RecordHandler.IsTimedRecording h
        then emit (Listener.OnVideoRecordFailed error)
        else ret ()
  | _, _ => ret ()
  end ;;;
  let* c := get in
  match success, record_handler_ c with
  | true, Some h =>
      modify (set_record_handler_ (Some (RecordHandler.OnRecordStopped h)))
  | _, _ => modify (set_record_handler_ None)
  end.

(** Handles RecordStarted event and informs CaptureControllerListener. *)
Definition OnRecordStarted (success : bool) (error : string) : M t unit :=
  let* c := get in
  match success, record_handler_ c with
  | true, Some h =>
      modify (set_record_handler_ (Some (RecordHandler.OnRecordStarted h))) ;;;
      if_listener Listener.OnStartRecordSucceeded
  | _, _ =>
      if_listener (Listener.OnStartRecordFailed error) ;;;
      modify (set_record_handler_ None)
  end.

(** Handles Picture event and informs CaptureControllerListener. *)
Definition OnPicture (success : bool) (error : string) : M t unit :=
  let* c := get in
  match success, photo_handler_ c with
  | true, Some h =>
      if_listener (Listener.OnTakePictureSucceeded (PhotoHandler.GetPhotoPath h)) ;;;
      modify (set_photo_handler_ (Some (PhotoHandler.OnPhotoTaken h)))
  | _, _ =>
      if_listener (Listener.OnTakePictureFailed error) ;;;
      modify (set_photo_handler_ None)
  end.

(** Handles PreviewStarted event and informs CaptureControllerListener.
    This should be called only after first frame has been received or
    in error cases. *)
Definition OnPreviewStarted (success : bool) (error : string) : M t unit :=
  let* c := get in
  match preview_handler_ c, success with
  | Some h, true =>
      modify (set_preview_handler_ (Some (PreviewHandler.OnPreviewStarted h)))
  | _, _ => modify (set_preview_handler_ None)
  end ;;;
  let* c := get in
  if capture_controller_listener_ c then
    if success && bool_decide (0 < preview_frame_width_ c)
               && bool_decide (0 < preview_frame_height_ c)
    then
      (* The listener's parameters are [int32_t]. *)
      emit (Listener.OnStartPreviewSucceeded
              (to_int32 (preview_frame_width_ c))
              (to_int32 (preview_frame_height_ c)))
    else emit (Listener.OnStartPreviewFailed error)
  else ret ().

(** Handles PreviewStopped event. *)
Definition OnPreviewStopped (success : bool) (error : string) : M t unit :=
  modify (set_preview_handler_ None).

(** Handles CaptureEngineError event and informs CaptureControllerListener. *)
Definition OnCaptureEngineError (hr : HRESULT) (error : string) : M t unit :=
  if_listener (Listener.OnCaptureError error).

(** *** Requests *)

Definition not_initialized_message : string :=
  "Camera not initialized. Camera should be disposed and reinitialized.".

Definition StopRecord (env : Env) : M t unit :=
  let* c := get in
  if bool_decide (capture_engine_state_ c ≠ CAPTURE_ENGINE_INITIALIZED)
  then OnRecordStopped false not_initialized_message
  else
    (* !record_handler_ && !record_handler_->CanStop() *)
    let* cannot_stop :=
      and_then (bool_decide (record_handler_ c = None))
        (let* h := deref_record_handler in
         ret (negb (RecordHandler.CanStop h))) in
    if cannot_stop
    then OnRecordStopped false "Recording cannot be stopped."
    else
      let* h := deref_record_handler in
      let '(stopped, h') := RecordHandler.StopRecord env h in
      modify (set_record_handler_ (Some h')) ;;;
      if stopped then ret ()
      else
        modify (set_record_handler_ None) ;;;
        OnRecordStopped false "Failed to stop video recording".

(** Stops timed recording. Called internally when requested time is
    passed. *)
Definition StopTimedRecord (env : Env) : M t unit :=
  let* c := get in
  match record_handler_ c with
  | None => ret ()
  | Some h =>
      if negb (RecordHandler.IsTimedRecording h) then ret ()
      else
        let '(stopped, h') := RecordHandler.StopRecord env h in
        modify (set_record_handler_ (Some h')) ;;;
        if stopped then ret ()
        else
          modify (set_record_handler_ None) ;;;
          listener_call (Listener.OnVideoRecordFailed "Failed to record video")
  end.

(** Stops preview. Called by destructor. *)
Definition StopPreview (env : Env) : M t unit :=
  let* c := get in
  if bool_decide (capture_engine_state_ c ≠ CAPTURE_ENGINE_INITIALIZED) &&
     bool_decide (preview_handler_ c = None)
  then ret ()
  else
    let* h := deref_preview_handler in
    modify (set_preview_handler_ (Some (PreviewHandler.StopPreview env h).2)).

(** Marks preview as paused. *)
Definition PausePreview : M t unit :=
  let* c := get in
  (* !preview_handler_ && !preview_handler_->IsInitialized() *)
  let* not_started :=
    and_then (bool_decide (preview_handler_ c = None))
      (let* h := deref_preview_handler in
       ret (negb (PreviewHandler.IsInitialized h))) in
  if not_started
  then listener_call (Listener.OnPausePreviewFailed "Preview not started")
  else
    let* h := deref_preview_handler in
    let '(paused, h') := PreviewHandler.PausePreview h in
    modify (set_preview_handler_ (Some h')) ;;;
    if paused then listener_call Listener.OnPausePreviewSucceeded
    else listener_call (Listener.OnPausePreviewFailed "Failed to pause preview").

(** Marks preview as not paused. *)
Definition ResumePreview : M t unit :=
  let* c := get in
  let* not_started :=
    and_then (bool_decide (preview_handler_ c = None))
      (let* h := deref_preview_handler in
       ret (negb (PreviewHandler.IsInitialized h))) in
  if not_started
  then listener_call (Listener.OnResumePreviewFailed "Preview not started")
  else
    let* h := deref_preview_handler in
    let '(resumed, h') := PreviewHandler.ResumePreview h in
    modify (set_preview_handler_ (Some h')) ;;;
    if resumed then listener_call Listener.OnResumePreviewSucceeded
    else listener_call (Listener.OnResumePreviewFailed "Failed to pause preview").

(** *** Teardown and initialization *)

Definition reset_members (c : t) : t :=
  mk (capture_controller_listener_ c) CAPTURE_ENGINE_NOT_INITIALIZED false
     (resolution_preset_ c) (record_audio_ c) (texture_registrar_ c) (-1)
     None None None 0 0 None None (source_buffer_data_ c)
     (source_buffer_size_ c) (dest_buffer_ c).

Definition ResetCaptureController (env : Env) : M t unit :=
  let* c := get in
  match record_handler_ c with
  | Some h =>
      if RecordHandler.IsContinuousRecording h then StopRecord env
      else if RecordHandler.IsTimedRecording h then StopTimedRecord env
      else ret ()
  | None => ret ()
  end ;;;
  let* c := get in
  match preview_handler_ c with
  | Some _ => StopPreview env
  | None => ret ()
  end ;;;
  modify reset_members.

(** The destructor. *)
Definition destructor (env : Env) : M t unit :=
  ResetCaptureController env ;;;
  modify (set_capture_controller_listener_ false).

Definition create_failed (env : Env) : M t unit :=
  listener_call (Listener.OnCreateCaptureEngineFailed "Failed to create camera") ;;;
  ResetCaptureController env.

Definition InitCaptureDevice (texture_registrar : bool) (device_id : string)
    (record_audio : bool) (resolution_preset : ResolutionPreset) (env : Env)
    : M t unit :=
  let* c := get in
  if bool_decide (capture_engine_state_ c = CAPTURE_ENGINE_INITIALIZED) &&
     bool_decide (0 ≤ texture_id_ c)
  then listener_call
         (Listener.OnCreateCaptureEngineFailed "Capture device already initialized")
  else if bool_decide (capture_engine_state_ c = CAPTURE_ENGINE_INITIALIZING)
  then listener_call
         (Listener.OnCreateCaptureEngineFailed "Capture device already initializing")
  else
    modify (set_capture_engine_state_ CAPTURE_ENGINE_INITIALIZING) ;;;
    modify (set_resolution_preset_ resolution_preset) ;;;
    modify (set_record_audio_ record_audio) ;;;
    modify (set_texture_registrar_ texture_registrar) ;;;
    let create_engine :=
      if FAILED (hr_CreateCaptureEngine env) then create_failed env
      else ret () in
    (* MFStartup must be called before using Media Foundation. *)
    if media_foundation_started_ c then create_engine
    else if FAILED (hr_MFStartup env) then create_failed env
    else modify (set_media_foundation_started_ true) ;;; create_engine.

(** Handles CaptureEngineInitialized event and informs
    CaptureControllerListener. *)
Definition OnCaptureEngineInitialized (success : bool) (error : string)
    (env : Env) : M t unit :=
  let* c := get in
  if capture_controller_listener_ c then
    if texture_registrar_ c then
      let new_texture_id := RegisterTexture env in
      if bool_decide (0 ≤ new_texture_id) then
        modify (set_texture_id_ new_texture_id) ;;;
        emit (Listener.OnCreateCaptureEngineSucceeded new_texture_id) ;;;
        modify (set_capture_engine_state_ CAPTURE_ENGINE_INITIALIZED)
      else
        emit (Listener.OnCreateCaptureEngineFailed "Failed to create texture_id") ;;;
        ResetCaptureController env
    else crash NullDereference
  else ret ().

(** *** Media types *)

Definition FindBaseMediaTypes (env : Env) : M t HRESULT :=
  let* c := get in
  if bool_decide (capture_engine_state_ c ≠ CAPTURE_ENGINE_INITIALIZED)
  then ret E_FAIL
  else if FAILED (hr_GetSource env) then ret (hr_GetSource env)
  else
    (* Find base media type for previewing. *)
    let '(found, target, (best_width, best_height)) :=
      FindBestMediaType
        MF_CAPTURE_ENGINE_PREFERRED_SOURCE_STREAM_FOR_VIDEO_PREVIEW
        (capture_source env) (base_preview_media_type_ c)
        (GetMaxPreviewHeight c) in
    modify (set_base_preview_media_type_ target) ;;;
    modify (set_preview_frame_width_ best_width) ;;;
    modify (set_preview_frame_height_ best_height) ;;;
    if negb found then ret E_FAIL
    else
      (* Find base media type for record and photo capture. *)
      let '(found, target, _) :=
        FindBestMediaType
          MF_CAPTURE_ENGINE_PREFERRED_SOURCE_STREAM_FOR_VIDEO_RECORD
          (capture_source env) (base_capture_media_type_ c) 4294967295 in
      modify (set_base_capture_media_type_ target) ;;;
      if negb found then ret E_FAIL else ret S_OK.

(** *** Requests that need a media type *)

Definition TakePicture (file_path : string) (env : Env) : M t unit :=
  let* c := get in
  if bool_decide (capture_engine_state_ c ≠ CAPTURE_ENGINE_INITIALIZED)
  then OnPicture false "Not initialized"
  else
    let* hr :=
      match base_capture_media_type_ c with
      | None => FindBaseMediaTypes env
      | Some _ => ret S_OK
      end in
    if FAILED hr then OnPicture false "Failed to initialize photo capture"
    else
      let take_photo :=
        let* h := deref_photo_handler in
        let '(taken, h') := PhotoHandler.TakePhoto file_path env h in
        modify (set_photo_handler_ (Some h')) ;;;
        if taken then ret ()
        else
          modify (set_photo_handler_ None) ;;;
          OnPicture false "Failed to take photo" in
      let* c := get in
      match photo_handler_ c with
      | None => modify (set_photo_handler_ (Some PhotoHandler.new)) ;;; take_photo
      | Some h =>
          if PhotoHandler.IsTakingPhoto h
          then OnPicture false "Photo already requested"
          else take_photo
      end.

Definition StartRecord (file_path : string) (max_video_duration_ms : Z)
    (env : Env) : M t unit :=
  let* c := get in
  if bool_decide (capture_engine_state_ c ≠ CAPTURE_ENGINE_INITIALIZED)
  then OnRecordStarted false not_initialized_message
  else
    let* hr :=
      match base_capture_media_type_ c with
      | None => FindBaseMediaTypes env
      | Some _ => ret S_OK
      end in
    if FAILED hr then OnRecordStarted false "Failed to initialize video recording"
    else
      let start_record :=
        let* h := deref_record_handler in
        let '(started, h') :=
          RecordHandler.StartRecord file_path max_video_duration_ms env h in
        modify (set_record_handler_ (Some h')) ;;;
        if started then ret ()
        else
          modify (set_record_handler_ None) ;;;
          OnRecordStarted false "Failed to start video recording" in
      let* c := get in
      match record_handler_ c with
      | None =>
          modify (set_record_handler_
                    (Some (RecordHandler.new (record_audio_ c)))) ;;;
          start_record
      | Some h =>
          if negb (RecordHandler.CanStart h)
          then OnRecordStarted false
                 "Recording cannot be started. Previous recording must be stopped first."
          else start_record
      end.

(** Starts capturing preview frames using preview handler.
    After first frame is captured, OnPreviewStarted is called. *)
Definition StartPreview (env : Env) : M t unit :=
  let* c := get in
  if bool_decide (capture_engine_state_ c ≠ CAPTURE_ENGINE_INITIALIZED)
  then OnPreviewStarted false not_initialized_message
  else
    let* hr :=
      match base_preview_media_type_ c with
      | None => FindBaseMediaTypes env
      | Some _ => ret S_OK
      end in
    if FAILED hr then OnPreviewStarted false "Failed to initialize video preview"
    else
      let* c := get in
      match preview_handler_ c with
      | None =>
          (* The handler is given the capture type, which is null when
             only the preview type was found. *)
          match PreviewHandler.StartPreview env (base_capture_media_type_ c)
                  PreviewHandler.new with
          | Some (started, h') =>
              modify (set_preview_handler_ (Some h')) ;;;
              if started then ret ()
              else
                modify (set_preview_handler_ None) ;;;
                OnPreviewStarted false "Failed to start video preview"
          | None => crash NullDereference
          end
      | Some h =>
          if PreviewHandler.IsInitialized h
          then OnPreviewStarted true EmptyString
          else OnPreviewStarted false "Preview already exists"
      end.

(** *** The event router and the sample callbacks *)

(** Handles capture engine events. *)
Definition OnEvent (event : IMFMediaEvent) (env : Env) : M t unit :=
  let* c := get in
  if bool_decide (capture_engine_state_ c ≠ CAPTURE_ENGINE_INITIALIZED) &&
     bool_decide (capture_engine_state_ c ≠ CAPTURE_ENGINE_INITIALIZING)
  then ret ()
  else
    match GetExtendedType event with
    | None => ret ()
    | Some extended_type_guid =>
        match GetStatus event with
        | None => ret ()
        | Some event_hr =>
            let error :=
              if FAILED event_hr then system_category_message env event_hr
              else EmptyString in
            match extended_type_guid with
            | MF_CAPTURE_ENGINE_ERROR => OnCaptureEngineError event_hr error
            | MF_CAPTURE_ENGINE_INITIALIZED =>
                OnCaptureEngineInitialized (SUCCEEDED event_hr) error env
            | MF_CAPTURE_ENGINE_PREVIEW_STARTED =>
                (* Preview is marked as started after first frame is
                   captured. *)
                ret ()
            | MF_CAPTURE_ENGINE_PREVIEW_STOPPED =>
                OnPreviewStopped (SUCCEEDED event_hr) error
            | MF_CAPTURE_ENGINE_RECORD_STARTED =>
                OnRecordStarted (SUCCEEDED event_hr) error
            | MF_CAPTURE_ENGINE_RECORD_STOPPED =>
                OnRecordStopped (SUCCEEDED event_hr) error
            | MF_CAPTURE_ENGINE_PHOTO_TAKEN =>
                OnPicture (SUCCEEDED event_hr) error
            | MF_CAPTURE_ENGINE_CAMERA_STREAM_BLOCKED
            | MF_CAPTURE_ENGINE_CAMERA_STREAM_UNBLOCKED
            | MF_CAPTURE_ENGINE_other _ => ret ()
            end
        end
    end.

(** Returns pointer to databuffer: a fresh zeroed array when the length
    changes. *)
Definition GetFrameBuffer (new_length : Z) : M t unit :=
  let* c := get in
  if bool_decide (source_buffer_data_ c = None) ||
     bool_decide (source_buffer_size_ c ≠ new_length)
  then
    modify (set_source_buffer_data_
              (Some (replicate (Z.to_nat new_length) 0))) ;;;
    modify (set_source_buffer_size_ new_length)
  else ret ().

(** The sample callback copies a frame into the array [GetFrameBuffer]
    returned, keeping its length. *)
Definition write_frame (frame : list Z) : M t unit :=
  let* c := get in
  match source_buffer_data_ c with
  | Some data =>
      modify (set_source_buffer_data_
                (Some (take (length data) (frame ++ drop (length frame) data))))
  | None => ret ()
  end.

(** Marks texture frame available after buffer is updated. *)
Definition OnBufferUpdated : M t unit := ret ().

(** Handles capture time update from each processed frame.
    Stops timed recordings if requested recording duration has passed. *)
Definition UpdateCaptureTime (capture_time_us : Z) (env : Env) : M t unit :=
  let* c := get in
  if bool_decide (capture_engine_state_ c ≠ CAPTURE_ENGINE_INITIALIZED)
  then ret ()
  else
    match preview_handler_ c with
    | Some h =>
        if PreviewHandler.IsStarting h
        then
          (* Informs that first frame is captured successfully and preview
             has started. *)
          OnPreviewStarted true EmptyString
        else ret ()
    | None => ret ()
    end ;;;
    (* Checks if max_video_duration_ms is passed. *)
    let* c := get in
    match record_handler_ c with
    | Some h =>
        let h' := RecordHandler.UpdateRecordingTime capture_time_us h in
        modify (set_record_handler_ (Some h')) ;;;
        if RecordHandler.ShouldStopTimedRecording h'
        then StopTimedRecord env
        else ret ()
    | None => ret ()
    end.

(** *** Pixel conversion for the texture *)

(** [target_width] and [target_height] are not read. *)
Definition ConvertPixelBufferForFlutter (target_width target_height : Z)
    : M t (option FlutterDesktopPixelBuffer) :=
  let* c := get in
  match source_buffer_data_ c with
  | Some src =>
      if bool_decide (0 < source_buffer_size_ c) &&
         bool_decide (0 < preview_frame_width_ c) &&
         bool_decide (0 < preview_frame_height_ c)
      then
        let pixels_total :=
          wrap32 (preview_frame_width_ c * preview_frame_height_ c) in
        let capacity := wrap32 (pixels_total * 4) in
        match convert_pixels (Z.to_nat pixels_total) 0 src capacity with
        | Some dest =>
            modify (set_dest_buffer_ (Some dest)) ;;;
            ret (Some {| buffer := dest;
                         width := preview_frame_width_ c;
                         height := preview_frame_height_ c |})
        | None => crash BufferOverrun
        end
      else ret None
  | None => ret None
  end.

(** *** The states a controller can be in *)

(** What the plugin and the capture engine can ask of a controller. *)
Inductive operation : Type :=
| op_InitCaptureDevice (texture_registrar : bool) (device_id : string)
    (record_audio : bool) (resolution_preset : ResolutionPreset)
| op_TakePicture (file_path : string)
| op_StartRecord (file_path : string) (max_video_duration_ms : Z)
| op_StopRecord
| op_StartPreview
| op_StopPreview
| op_PausePreview
| op_ResumePreview
| op_OnEvent (event : IMFMediaEvent)
| op_GetFrameBuffer (new_length : Z)
| op_write_frame (frame : list Z)
| op_OnBufferUpdated
| op_UpdateCaptureTime (capture_time_us : Z)
| op_ConvertPixelBufferForFlutter (target_width target_height : Z).

Definition perform (op : operation) (env : Env) : M t unit :=
  match op with
  | op_InitCaptureDevice texture_registrar device_id record_audio preset =>
      InitCaptureDevice texture_registrar device_id record_audio preset env
  | op_TakePicture file_path => TakePicture file_path env
  | op_StartRecord file_path max_video_duration_ms =>
      StartRecord file_path max_video_duration_ms env
  | op_StopRecord => StopRecord env
  | op_StartPreview => StartPreview env
  | op_StopPreview => StopPreview env
  | op_PausePreview => PausePreview
  | op_ResumePreview => ResumePreview
  | op_OnEvent event => OnEvent event env
  | op_GetFrameBuffer new_length => GetFrameBuffer new_length
  | op_write_frame frame => write_frame frame
  | op_OnBufferUpdated => OnBufferUpdated
  | op_UpdateCaptureTime capture_time_us => UpdateCaptureTime capture_time_us env
  | op_ConvertPixelBufferForFlutter target_width target_height =>
      ConvertPixelBufferForFlutter target_width target_height ;;; ret ()
  end.

(** Operations in sequence, as far as they return. *)
Fixpoint run (ops : list (operation * Env)) (c : t) : option t :=
  match ops with
  | [] => Some c
  | (op, env) :: rest =>
      match perform op env c with
      | Returns _ c' _ => run rest c'
      | Crashes _ _ => None
      end
  end.

(** The listener calls of operations in sequence. *)
Fixpoint calls_of (ops : list (operation * Env)) (c : t)
    : option (list Listener.call) :=
  match ops with
  | [] => Some []
  | (op, env) :: rest =>
      match perform op env c with
      | Returns _ c' calls => (calls ++.) <$> calls_of rest c'
      | Crashes _ _ => None
      end
  end.

(** A controller built with a listener, after any number of operations that
    returned. *)
Inductive reachable : t → Prop :=
| reachable_new : reachable (CaptureControllerImpl true)
| reachable_step c op env c' calls :
    reachable c →
    perform op env c = Returns () c' calls →
    reachable c'.

(** What holds of every reachable controller: it has its listener, and a
    record or preview handler exists only while the engine is initialized,
    which it is only with a registered texture. *)
Definition consistent (c : t) : Prop :=
  capture_controller_listener_ c = true ∧
  (capture_engine_state_ c = CAPTURE_ENGINE_INITIALIZED → 0 ≤ texture_id_ c) ∧
  (is_Some (record_handler_ c) →
   capture_engine_state_ c = CAPTURE_ENGINE_INITIALIZED) ∧
  (is_Some (preview_handler_ c) →
   capture_engine_state_ c = CAPTURE_ENGINE_INITIALIZED).

(** [frame c c']: from [c] to [c'] the listener, the engine state and the
    texture id are kept and no handler appeared. *)
Definition frame (c c' : t) : Prop :=
  capture_controller_listener_ c' = capture_controller_listener_ c ∧
  capture_engine_state_ c' = capture_engine_state_ c ∧
  texture_id_ c' = texture_id_ c ∧
  (is_Some (record_handler_ c') → is_Some (record_handler_ c)) ∧
  (is_Some (preview_handler_ c') → is_Some (preview_handler_ c)).

Definition framed {A} (m : M t A) : Prop :=
  ∀ c (Φ : A → t → list Listener.call → Prop),
    (∀ a c' calls, frame c c' → Φ a c' calls) → wp True m c Φ.

(** After a reset the engine is not initialized and there are no handlers. *)
Definition is_reset (c c' : t) : Prop :=
  capture_controller_listener_ c' = capture_controller_listener_ c ∧
  capture_engine_state_ c' = CAPTURE_ENGINE_NOT_INITIALIZED ∧
  record_handler_ c' = None ∧ preview_handler_ c' = None.

(** An operation keeps the controller consistent. *)
Definition preserving {A} (m : M t A) : Prop :=
  ∀ c, consistent c → wp True m c (λ _ c' _, consistent c').

End WithHandlers.

End CaptureControllerImpl.

(** ** A camera with its controller *)

(** [CameraImpl] owns its controller through [capture_controller_] and is the
    controller's listener: the calls an operation of the controller makes are
    delivered to the camera. *)
Module Camera.

Section WithHandlers.

Context {RH : RecordHandler.api} {PH : PhotoHandler.api}.

Record t : Type := mk {
  camera : CameraImpl.t;
  capture_controller_ : option CaptureControllerImpl.t;
}.

Inductive Outcome : Type :=
| Done (s : t) (effects : list HostEffect)
| Faulted (f : Fault).

(** [capture_controller_->op(...)]. *)
Definition on_controller {A} (op : M CaptureControllerImpl.t A) (s : t)
    : Outcome :=
  match capture_controller_ s with
  | None => Faulted NullDereference
  | Some controller =>
      match op controller with
      | Returns _ controller' calls =>
          let '(camera', effects) := dispatch_all calls (camera s) in
          Done (mk camera' (Some controller')) effects
      | Crashes f _ => Faulted f
      end
  end.

(** [InitCamera] with the production factory: the messenger is stored, a
    controller is built with the camera as its listener and assigned to
    [capture_controller_], which destroys the controller held before, and the
    new controller is asked to initialize the device. *)
Definition InitCamera (texture_registrar : bool) (messenger : BinaryMessenger)
    (enable_audio : bool) (resolution_preset : ResolutionPreset) (env : Env)
    (s : t) : Outcome :=
  let camera0 := CameraImpl.with_messenger (Some messenger) (camera s) in
  let init (camera1 : CameraImpl.t) (effects1 : list HostEffect) :=
    match
      on_controller
        (CaptureControllerImpl.InitCaptureDevice texture_registrar
           (CameraImpl.device_id_ camera1) enable_audio resolution_preset env)
        (mk camera1 (Some (CaptureControllerImpl.CaptureControllerImpl true)))
    with
    | Done s' effects2 => Done s' (effects1 ++ effects2)
    | Faulted f => Faulted f
    end in
  match capture_controller_ s with
  | None => init camera0 []
  | Some old =>
      match CaptureControllerImpl.destructor env old with
      | Returns _ _ calls =>
          let '(camera1, effects1) := dispatch_all calls camera0 in
          init camera1 effects1
      | Crashes f _ => Faulted f
      end
  end.

(** [~CameraImpl]: [capture_controller_ = nullptr] destroys the controller,
    then the pending results are failed. *)
Definition destructor (env : Env) (s : t) : Outcome :=
  let dispose (c : CameraImpl.t) :=
    CameraImpl.SendErrorForPendingResults "Plugin disposed"
      "Plugin disposed before request was handled" c in
  match capture_controller_ s with
  | None =>
      let '(camera', effects) := dispose (camera s) in
      Done (mk camera' None) effects
  | Some controller =>
      match CaptureControllerImpl.destructor env controller with
      | Returns _ _ calls =>
          let '(camera1, effects1) := dispatch_all calls (camera s) in
          let '(camera2, effects2) := dispose camera1 in
          Done (mk camera2 None) (effects1 ++ effects2)
      | Crashes f _ => Faulted f
      end
  end.

End WithHandlers.

End Camera.

(** ** The handlers, after the specification *)

Module SpecRecordHandler.

Inductive RecordState : Type :=
| RECORD_STATE__IDLE
| RECORD_STATE__STARTING
| RECORD_STATE__STARTED
| RECORD_STATE__STOPPING.

Inductive RecordingType : Type :=
| RECORDING_TYPE_NOT_SET
| RECORDING_TYPE_CONTINUOUS
| RECORDING_TYPE_TIMED.

#[global] Instance RecordState_eq_dec : EqDecision RecordState.
Proof. solve_decision. Defined.

#[global] Instance RecordingType_eq_dec : EqDecision RecordingType.
Proof. solve_decision. Defined.

Record t : Type := mk {
  record_audio_ : bool;
  recording_state_ : RecordState;
  type_ : RecordingType;
  file_path_ : string;
  max_video_duration_ms_ : Z;
  recording_start_timestamp_us_ : option Z;
  recording_duration_us_ : Z;
}.

Definition new (record_audio : bool) : t :=
  mk record_audio RECORD_STATE__IDLE RECORDING_TYPE_NOT_SET EmptyString (-1)
     None 0.

Definition with_state (st : RecordState) (h : t) : t :=
  mk (record_audio_ h) st (type_ h) (file_path_ h) (max_video_duration_ms_ h)
     (recording_start_timestamp_us_ h) (recording_duration_us_ h).

Definition CanStart (h : t) : bool :=
  bool_decide (recording_state_ h = RECORD_STATE__IDLE).

Definition CanStop (h : t) : bool :=
  bool_decide (recording_state_ h = RECORD_STATE__STARTED).

Definition IsContinuousRecording (h : t) : bool :=
  bool_decide (type_ h = RECORDING_TYPE_CONTINUOUS).

Definition IsTimedRecording (h : t) : bool :=
  bool_decide (type_ h = RECORDING_TYPE_TIMED).

Definition ShouldStopTimedRecording (h : t) : bool :=
  bool_decide (type_ h = RECORDING_TYPE_TIMED) &&
  bool_decide (recording_state_ h = RECORD_STATE__STARTED) &&
  bool_decide (0 < max_video_duration_ms_ h) &&
  bool_decide (max_video_duration_ms_ h * 1000 ≤ recording_duration_us_ h).

Definition StartRecord (file_path : string) (max_video_duration_ms : Z)
    (env : Env) (h : t) : bool * t :=
  (SUCCEEDED (hr_StartRecord env),
   mk (record_audio_ h) RECORD_STATE__STARTING
      (if bool_decide (0 < max_video_duration_ms) then RECORDING_TYPE_TIMED
       else RECORDING_TYPE_CONTINUOUS)
      file_path max_video_duration_ms None 0).

Definition StopRecord (env : Env) (h : t) : bool * t :=
  if bool_decide (recording_state_ h = RECORD_STATE__STARTED)
  then (SUCCEEDED (hr_StopRecord env), with_state RECORD_STATE__STOPPING h)
  else (false, h).

Definition OnRecordStarted (h : t) : t :=
  if bool_decide (recording_state_ h = RECORD_STATE__STARTING)
  then with_state RECORD_STATE__STARTED h
  else h.

Definition OnRecordStopped (h : t) : t :=
  if bool_decide (recording_state_ h = RECORD_STATE__STOPPING)
  then mk (record_audio_ h) RECORD_STATE__IDLE RECORDING_TYPE_NOT_SET
          EmptyString (-1) None 0
  else h.

Definition UpdateRecordingTime (timestamp : Z) (h : t) : t :=
  if bool_decide (recording_state_ h = RECORD_STATE__STARTED) then
    let start := default timestamp (recording_start_timestamp_us_ h) in
    mk (record_audio_ h) (recording_state_ h) (type_ h) (file_path_ h)
       (max_video_duration_ms_ h) (Some start) (timestamp - start)
  else h.

(** Modelled from the spec: record_handler.cpp and record_handler.h are not
    among the sources.  A handler is idle, starting or started, or stopping;
    it is continuous or timed, set at start time by whether a positive
    maximal duration was supplied; it may be started only while idle and
    stopped only while started; while active it accumulates the time elapsed
    between frame timestamps, in microseconds; a timed recording should stop
    once that time reaches the budget. *)
Definition api : RecordHandler.api := {|
  RecordHandler.t := t;
  RecordHandler.new := new;
  RecordHandler.CanStart := CanStart;
  RecordHandler.CanStop := CanStop;
  RecordHandler.IsContinuousRecording := IsContinuousRecording;
  RecordHandler.IsTimedRecording := IsTimedRecording;
  RecordHandler.ShouldStopTimedRecording := ShouldStopTimedRecording;
  RecordHandler.GetRecordPath := file_path_;
  RecordHandler.GetRecordedDuration := recording_duration_us_;
  RecordHandler.StartRecord := StartRecord;
  RecordHandler.StopRecord := StopRecord;
  RecordHandler.OnRecordStarted := OnRecordStarted;
  RecordHandler.OnRecordStopped := OnRecordStopped;
  RecordHandler.UpdateRecordingTime := UpdateRecordingTime;
|}.

End SpecRecordHandler.

Module SpecPhotoHandler.

Record t : Type := mk {
  capturing_ : bool;
  file_path_ : string;
}.

Definition TakePhoto (file_path : string) (env : Env) (h : t) : bool * t :=
  (SUCCEEDED (hr_TakePhoto env), mk true file_path).

(** Modelled from the spec: photo_handler.cpp and photo_handler.h are not
    among the sources.  A handler holds one flag, set on request and cleared
    on completion, and keeps the path of the captured file. *)
Definition api : PhotoHandler.api := {|
  PhotoHandler.t := t;
  PhotoHandler.new := mk false EmptyString;
  PhotoHandler.IsTakingPhoto := capturing_;
  PhotoHandler.GetPhotoPath := file_path_;
  PhotoHandler.TakePhoto := TakePhoto;
  PhotoHandler.OnPhotoTaken := λ h, mk false (file_path_ h);
|}.

End SpecPhotoHandler.

(** ** Notions used in the statements *)

(** The number of "error" push notifications among host effects. *)
Definition error_notifications (effects : list HostEffect) : nat :=
  length (filter (λ e, is_InvokeMethod CameraImpl.kErrorEvent e = true) effects).

(** Listener calls to which the camera does not react. *)
Definition silent (calls : list Listener.call) : Prop :=
  Forall (λ call, ∃ error, call = Listener.OnVideoRecordFailed error) calls.

(** The best width and height after scanning [types], starting from
    [best]. *)
Definition best_seen (max_height : Z) (types : list IMFMediaType)
    (best : Z * Z) : Z * Z :=
  (scan_media_types max_height types None best.1 best.2).2.

(** The test of the loop body on one native type. *)
Definition accepts (max_height : Z) (best : Z * Z) (media_type : IMFMediaType)
    : bool :=
  match MF_MT_FRAME_SIZE media_type with
  | Some (frame_width, frame_height) =>
      improves max_height best.1 best.2 frame_width frame_height
  | None => false
  end.

(** ** Concrete platforms, cameras and controllers *)

(** Used to run the operations on concrete inputs; the handlers are the ones
    written after the specification. *)
Module Examples.

Definition Controller : Type :=
  @CaptureControllerImpl.t SpecRecordHandler.api SpecPhotoHandler.api.

Definition CameraWithController : Type :=
  @Camera.t SpecRecordHandler.api SpecPhotoHandler.api.

Definition vga : IMFMediaType :=
  {| media_type_id := 0; MF_MT_FRAME_SIZE := Some (640, 480) |}.

Definition qvga : IMFMediaType :=
  {| media_type_id := 1; MF_MT_FRAME_SIZE := Some (320, 240) |}.

Definition hd : IMFMediaType :=
  {| media_type_id := 2; MF_MT_FRAME_SIZE := Some (1280, 720) |}.

Definition sizeless : IMFMediaType :=
  {| media_type_id := 3; MF_MT_FRAME_SIZE := None |}.

(** A native type 640 wide and 0 high. *)
Definition flat : IMFMediaType :=
  {| media_type_id := 4; MF_MT_FRAME_SIZE := Some (640, 0) |}.

(** The smallest frames: 2 × 1, 2 × 2 and 1 × 1 pixels. *)
Definition two_by_one : IMFMediaType :=
  {| media_type_id := 5; MF_MT_FRAME_SIZE := Some (2, 1) |}.

Definition two_by_two : IMFMediaType :=
  {| media_type_id := 6; MF_MT_FRAME_SIZE := Some (2, 2) |}.

Definition one_by_one : IMFMediaType :=
  {| media_type_id := 7; MF_MT_FRAME_SIZE := Some (1, 1) |}.

(** A platform on which every native call succeeds, but for the status given
    for stopping a recording; the device enumerates [preview_types] on the
    preview stream and [record_types] on the record stream. *)
Definition platform (preview_types record_types : list IMFMediaType)
    (stop_record : HRESULT) : Env :=
  {| hr_MFStartup := S_OK;
     hr_CreateCaptureEngine := S_OK;
     RegisterTexture := 1;
     hr_GetSource := S_OK;
     capture_source := λ stream,
       match stream with
       | MF_CAPTURE_ENGINE_PREFERRED_SOURCE_STREAM_FOR_VIDEO_PREVIEW =>
           preview_types
       | MF_CAPTURE_ENGINE_PREFERRED_SOURCE_STREAM_FOR_VIDEO_RECORD =>
           record_types
       end;
     hr_GetSink := S_OK;
     hr_As_preview_sink := S_OK;
     hr_RemoveAllStreams := S_OK;
     hr_MFCreateMediaType := S_OK;
     hr_CopyAllItems := S_OK;
     hr_SetGUID := S_OK;
     hr_SetUINT32 := S_OK;
     hr_AddStream := S_OK;
     hr_SetSampleCallback := S_OK;
     hr_StartPreview := S_OK;
     hr_StopPreview := S_OK;
     hr_StartRecord := S_OK;
     hr_StopRecord := stop_record;
     hr_TakePhoto := S_OK;
     system_category_message := λ _, "Unspecified error" |}.

Definition env : Env := platform [qvga; vga; hd] [qvga; vga; hd] S_OK.

(** The same platform, on which a recording cannot be stopped. *)
Definition env_stop_fails : Env :=
  platform [qvga; vga; hd] [qvga; vga; hd] E_FAIL.

Definition event (type : ExtendedType) (status : HRESULT) : IMFMediaEvent :=
  {| GetExtendedType := Some type; GetStatus := Some status |}.

Definition new_controller : Controller :=
  CaptureControllerImpl.CaptureControllerImpl true.

(** The controller after [ops], or the new controller if one of them does
    not return. *)
Definition after (ops : list (CaptureControllerImpl.operation * Env))
    : Controller :=
  default new_controller (CaptureControllerImpl.run ops new_controller).

Definition initialize (e : Env) : list (CaptureControllerImpl.operation * Env) :=
  [(CaptureControllerImpl.op_InitCaptureDevice true "camera0" false
      RESOLUTION_PRESET_MEDIUM, e);
   (CaptureControllerImpl.op_OnEvent (event MF_CAPTURE_ENGINE_INITIALIZED S_OK),
    e)].

(** Initialized, nothing started. *)
Definition initialized : Controller := after (initialize env).

(** Initialized, preview requested, no frame yet. *)
Definition start_preview (e : Env)
    : list (CaptureControllerImpl.operation * Env) :=
  initialize e ++ [(CaptureControllerImpl.op_StartPreview, e)].

Definition previewing : Controller := after (start_preview env).

(** The same on a device whose only native type is 640 wide and 0 high. *)
Definition previewing_flat : Controller :=
  after (start_preview (platform [flat] [flat] S_OK)).

(** Initialized and recording, for at most [max_video_duration_ms] when that
    is positive. *)
Definition start_record (max_video_duration_ms : Z)
    : list (CaptureControllerImpl.operation * Env) :=
  initialize env ++
  [(CaptureControllerImpl.op_StartRecord "clip.mp4" max_video_duration_ms, env);
   (CaptureControllerImpl.op_OnEvent
      (event MF_CAPTURE_ENGINE_RECORD_STARTED S_OK), env)].

Definition recording (max_video_duration_ms : Z) : Controller :=
  after (start_record max_video_duration_ms).

(** Previewing 2 × 1 pixels, with one frame of two pixels delivered. *)
Definition two_pixels : list Z := [10; 20; 30; 0; 40; 50; 60; 0].

Definition deliver_two_pixels : list (CaptureControllerImpl.operation * Env) :=
  start_preview (platform [two_by_one] [two_by_one] S_OK) ++
  [(CaptureControllerImpl.op_GetFrameBuffer 8, env);
   (CaptureControllerImpl.op_write_frame two_pixels, env)].

Definition with_frame : Controller := after deliver_two_pixels.

(** The preview stream offers 2 × 2 pixels, the record stream 1 × 1; the
    frame delivered has one pixel. *)
Definition deliver_one_pixel : list (CaptureControllerImpl.operation * Env) :=
  start_preview (platform [two_by_two] [one_by_one] S_OK) ++
  [(CaptureControllerImpl.op_GetFrameBuffer 4, env);
   (CaptureControllerImpl.op_write_frame [10; 20; 30; 0], env)].

Definition with_short_frame : Controller := after deliver_one_pixel.

(** A camera before [InitCamera], with a create request pending. *)
Definition created_camera : CameraWithController :=
  Camera.mk
    (CameraImpl.with_pending_results {[CREATE_CAMERA := 7%nat]}
       (CameraImpl.CameraImpl "camera0"))
    None.

(** A camera whose texture id is 1, with two requests pending. *)
Definition busy_camera : CameraImpl.t :=
  CameraImpl.mk "camera0" (Some 1%nat) 1
    {[START_RECORD := 11%nat; TAKE_PICTURE := 12%nat]}.

End Examples.

(** ** More notions used in the statements *)

(** The method results answered by host effects, in order. *)
Definition resolved (effects : list HostEffect) : list MethodResult :=
  omap resolved_result effects.

(** The kind of pending result a listener call answers, if it answers
    one. *)
Definition kind_of (call : Listener.call) : option PendingResultType :=
  match call with
  | Listener.OnCreateCaptureEngineSucceeded _
  | Listener.OnCreateCaptureEngineFailed _ => Some CREATE_CAMERA
  | Listener.OnStartPreviewSucceeded _ _
  | Listener.OnStartPreviewFailed _ => Some INITIALIZE
  | Listener.OnResumePreviewSucceeded
  | Listener.OnResumePreviewFailed _ => Some RESUME_PREVIEW
  | Listener.OnPausePreviewSucceeded
  | Listener.OnPausePreviewFailed _ => Some PAUSE_PREVIEW
  | Listener.OnStartRecordSucceeded
  | Listener.OnStartRecordFailed _ => Some START_RECORD
  | Listener.OnStopRecordSucceeded _
  | Listener.OnStopRecordFailed _ => Some STOP_RECORD
  | Listener.OnTakePictureSucceeded _
  | Listener.OnTakePictureFailed _ => Some TAKE_PICTURE
  | Listener.OnVideoRecordSucceeded _ _
  | Listener.OnVideoRecordFailed _
  | Listener.OnCaptureError _ => None
  end.

(** The camera id a call assigns: only the engine's creation does. *)
Definition camera_id_after (call : Listener.call) (c : CameraImpl.t) : Z :=
  match call with
  | Listener.OnCreateCaptureEngineSucceeded texture_id => texture_id
  | _ => CameraImpl.camera_id_ c
  end.

(** ** More on the states of a controller *)

Section ControllerNotions.

Import CaptureControllerImpl.

Context {RH : RecordHandler.api} {PH : PhotoHandler.api}.

(** A controller that holds nothing of a session: no handler, no media
    type, no preview size, no texture. *)
Definition idle (c : CaptureControllerImpl.t) : Prop :=
  record_handler_ c = None ∧ preview_handler_ c = None ∧
  photo_handler_ c = None ∧
  preview_frame_width_ c = 0 ∧ preview_frame_height_ c = 0 ∧
  base_preview_media_type_ c = None ∧ base_capture_media_type_ c = None ∧
  texture_id_ c = -1.

(** The raw buffer is as long as its recorded size says. *)
Definition buffer_sized (c : CaptureControllerImpl.t) : Prop :=
  match source_buffer_data_ c with
  | Some data => length data = Z.to_nat (source_buffer_size_ c)
  | None => source_buffer_size_ c = 0
  end.

(** A preview handler whose preview was started: it has its sink and is in
    one of the states [StartPreview] and the later operations give. *)
Definition preview_begun (h : PreviewHandler.t) : Prop :=
  PreviewHandler.preview_sink_ h = true ∧
  (PreviewHandler.preview_state_ h = PreviewHandler.PREVIEW_STATE__STARTING ∨
   PreviewHandler.preview_state_ h = PreviewHandler.PREVIEW_STATE__RUNNING ∨
   PreviewHandler.preview_state_ h = PreviewHandler.PREVIEW_STATE__PAUSED ∨
   PreviewHandler.preview_state_ h = PreviewHandler.PREVIEW_STATE__STOPPING).

(** What the operations keep true of a controller built with a listener:
    it has the listener; its raw buffer has its recorded size; a handler or a
    capture type is there only with the media type found before it; a
    preview handler has begun its preview; and the engine state tells what
    else is held. *)
Definition well_formed (c : CaptureControllerImpl.t) : Prop :=
  capture_controller_listener_ c = true ∧
  buffer_sized c ∧
  (is_Some (base_capture_media_type_ c) →
   is_Some (base_preview_media_type_ c)) ∧
  (is_Some (record_handler_ c) → is_Some (base_capture_media_type_ c)) ∧
  (is_Some (photo_handler_ c) → is_Some (base_capture_media_type_ c)) ∧
  (∀ h, preview_handler_ c = Some h →
        preview_begun h ∧ is_Some (base_preview_media_type_ c)) ∧
  match capture_engine_state_ c with
  | CAPTURE_ENGINE_NOT_INITIALIZED =>
      idle c ∧ media_foundation_started_ c = false
  | CAPTURE_ENGINE_INITIALIZING =>
      idle c ∧ media_foundation_started_ c = true
  | CAPTURE_ENGINE_INITIALIZED =>
      0 ≤ texture_id_ c ∧ media_foundation_started_ c = true
  end.

End ControllerNotions.

(** ** More concrete controllers *)

Module MoreExamples.

(** Asked to initialize; the engine's initialized event is yet to come. *)
Definition initializing : Examples.Controller :=
  Examples.after
    [(CaptureControllerImpl.op_InitCaptureDevice true "camera0" false
        RESOLUTION_PRESET_MEDIUM, Examples.env)].

(** Previewing, the first frame received. *)
Definition first_frame : list (CaptureControllerImpl.operation * Env) :=
  Examples.start_preview Examples.env ++
  [(CaptureControllerImpl.op_UpdateCaptureTime 0, Examples.env)].

Definition preview_running : Examples.Controller := Examples.after first_frame.

(** The preview started and stopped again: the media types are known and
    there is no handler. *)
Definition preview_stopped : Examples.Controller :=
  Examples.after
    (Examples.start_preview Examples.env ++
     [(CaptureControllerImpl.op_StopPreview, Examples.env);
      (CaptureControllerImpl.op_OnEvent
         (Examples.event MF_CAPTURE_ENGINE_PREVIEW_STOPPED S_OK),
       Examples.env)]).

(** A picture requested; the photo-taken event is yet to come. *)
Definition taking_picture : Examples.Controller :=
  Examples.after
    (Examples.initialize Examples.env ++
     [(CaptureControllerImpl.op_TakePicture "photo.jpeg", Examples.env)]).

(** A platform on which the preview sink refuses the stream. *)
Definition env_no_stream : Env :=
  {| hr_MFStartup := S_OK;
     hr_CreateCaptureEngine := S_OK;
     RegisterTexture := 1;
     hr_GetSource := S_OK;
     capture_source := capture_source Examples.env;
     hr_GetSink := S_OK;
     hr_As_preview_sink := S_OK;
     hr_RemoveAllStreams := S_OK;
     hr_MFCreateMediaType := S_OK;
     hr_CopyAllItems := S_OK;
     hr_SetGUID := S_OK;
     hr_SetUINT32 := S_OK;
     hr_AddStream := E_FAIL;
     hr_SetSampleCallback := S_OK;
     hr_StartPreview := S_OK;
     hr_StopPreview := S_OK;
     hr_StartRecord := S_OK;
     hr_StopRecord := S_OK;
     hr_TakePhoto := S_OK;
     system_category_message := λ _, "Unspecified error" |}.

(** A device whose record stream offers no type: the preview type is found,
    the capture type is not, and the preview request is refused. *)
Definition preview_type_only : Examples.Controller :=
  Examples.after
    (Examples.start_preview (Examples.platform [Examples.vga] [] S_OK)).

(** A native type 4294967295 wide and 1 high. *)
Definition widest : IMFMediaType :=
  {| media_type_id := 8; MF_MT_FRAME_SIZE := Some (4294967295, 1) |}.

(** Previewing on a device whose only native type is that one; no frame
    yet. *)
Definition previewing_widest : Examples.Controller :=
  Examples.after
    (Examples.start_preview (Examples.platform [widest] [widest] S_OK)).

(** A device that offers 1280 × 720 only. *)
Definition env_hd_only : Env :=
  Examples.platform [Examples.hd] [Examples.hd] S_OK.

End MoreExamples.

(** * The pending results of a camera *)

Section CameraFacts.

Import CameraImpl.
Implicit Types c : CameraImpl.t.

Lemma SendErrorForPendingResults_spec error_id description c :
  ∃ c',
    SendErrorForPendingResults error_id description c =
      (c', (λ slot, ResultError slot.2 error_id description)
             <$> in_key_order (pending_results_ c)) ∧
    pending_results_ c' = ∅ ∧
    messenger_ c' = messenger_ c ∧ camera_id_ c' = camera_id_ c.
Proof. by eexists. Qed.

(** Every key is among the enumerators. *)
Lemma PendingResultType_values_all (type : PendingResultType) :
  type ∈ PendingResultType_values.
Proof. destruct type; apply (bool_decide_unpack _); vm_compute; exact I. Qed.

(** The enumerators are listed by ascending value. *)
Lemma PendingResultType_values_ascending :
  StronglySorted
    (λ a b, (PendingResultType_to_nat a < PendingResultType_to_nat b)%nat)
    PendingResultType_values.
Proof.
  unfold PendingResultType_values.
  repeat (constructor; [|repeat (constructor; [cbn; lia|]); constructor]).
  constructor.
Qed.

Lemma sublist_StronglySorted {A} (R : A → A → Prop) (l1 l2 : list A) :
  StronglySorted R l2 → l1 `sublist_of` l2 → StronglySorted R l1.
Proof.
  intros Hsorted. revert l1.
  induction Hsorted as [|x l2 Hsorted IH Hall]; intros l1 Hsub.
  - apply sublist_nil_r in Hsub as ->. constructor.
  - inv Hsub; [|by apply IH].
    constructor; [by apply IH|].
    rewrite Forall_forall in *. eauto using elem_of_sublist.
Qed.

Lemma in_key_order_keys (m : gmap PendingResultType MethodResult)
    (types : list PendingResultType) :
  (omap (λ type, pair type <$> m !! type) types).*1 `sublist_of` types.
Proof.
  induction types as [|type types IH]; [done|].
  cbn. destruct (m !! type); cbn; by constructor.
Qed.

Lemma in_key_order_elem_of (m : gmap PendingResultType MethodResult) type
    result :
  (type, result) ∈ in_key_order m ↔ m !! type = Some result.
Proof.
  unfold in_key_order. rewrite list_elem_of_omap. split.
  - intros (type' & _ & Hsome).
    destruct (m !! type') as [result'|] eqn:Hlookup; [|done].
    by injection Hsome as -> ->.
  - intros Hlookup. exists type.
    split; [apply PendingResultType_values_all|]. by rewrite Hlookup.
Qed.

Lemma in_key_order_NoDup (m : gmap PendingResultType MethodResult) :
  NoDup (in_key_order m).*1.
Proof.
  eapply sublist_NoDup; [|apply in_key_order_keys].
  apply (bool_decide_unpack _). vm_compute. exact I.
Qed.

(** The visit goes through the entries of the map, each once. *)
Lemma in_key_order_map_to_list (m : gmap PendingResultType MethodResult) :
  in_key_order m ≡ₚ map_to_list m.
Proof.
  apply NoDup_Permutation.
  - eapply NoDup_fmap_1, in_key_order_NoDup.
  - apply NoDup_map_to_list.
  - intros [type result].
    by rewrite in_key_order_elem_of, elem_of_map_to_list.
Qed.

(** The entries of the map, one for each pending result, by ascending
    key. *)
Lemma pending_slots (m : gmap PendingResultType MethodResult) :
  StronglySorted
    (λ a b, (PendingResultType_to_nat a < PendingResultType_to_nat b)%nat)
    (in_key_order m).*1 ∧
  NoDup (in_key_order m).*1 ∧
  length (in_key_order m) = size m ∧
  ∀ type result, (type, result) ∈ in_key_order m ↔ m !! type = Some result.
Proof.
  split.
  { eapply sublist_StronglySorted; [|apply in_key_order_keys].
    apply PendingResultType_values_ascending. }
  split; [apply in_key_order_NoDup|]. split.
  - by rewrite in_key_order_map_to_list, length_map_to_list.
  - apply in_key_order_elem_of.
Qed.

Lemma push_notifications method arguments c :
  length (filter (λ e, is_InvokeMethod method e = true)
            (push method arguments c)) =
  if bool_decide (is_Some (messenger_ c) ∧ 0 ≤ camera_id_ c) then 1%nat
  else 0%nat.
Proof.
  unfold push. destruct (messenger_ c) as [m|].
  - destruct (bool_decide (0 ≤ camera_id_ c)) eqn:Hid.
    + apply bool_decide_eq_true in Hid.
      rewrite bool_decide_eq_true_2 by eauto.
      rewrite filter_cons_True; [done|].
      unfold is_InvokeMethod. by apply bool_decide_eq_true_2.
    + apply bool_decide_eq_false in Hid.
      rewrite bool_decide_eq_false_2; [done|]. by intros [_ ?].
  - rewrite bool_decide_eq_false_2; [done|]. by intros [[? [=]] _].
Qed.

Lemma failures_are_not_notifications method error_id description
    (slots : list (PendingResultType * MethodResult)) :
  filter (λ e, is_InvokeMethod method e = true)
    ((λ slot, ResultError slot.2 error_id description) <$> slots) = [].
Proof.
  induction slots as [|slot slots IH]; [done|].
  rewrite fmap_cons, filter_cons_False; [done|]. by intros [=].
Qed.

End CameraFacts.


(** * Choosing a media type *)

Lemma scan_media_types_best max_height types target best_width best_height :
  (scan_media_types max_height types target best_width best_height).2 =
  best_seen max_height types (best_width, best_height).
Proof.
  unfold best_seen. cbn [fst snd].
  generalize (@None IMFMediaType).
  revert target best_width best_height.
  induction types as [|media_type types IH]; intros; [done|].
  cbn. destruct (MF_MT_FRAME_SIZE media_type) as [[w h]|]; [|apply IH].
  destruct (improves _ _ _ _ _); apply IH.
Qed.

Lemma scan_media_types_rejected max_height types target best :
  Forall (λ media_type, accepts max_height best media_type = false) types →
  scan_media_types max_height types target best.1 best.2 = (target, best).
Proof.
  destruct best as [best_width best_height]. cbn [fst snd].
  induction 1 as [|media_type types Hrej _ IH]; [done|].
  cbn. unfold accepts in Hrej. cbn [fst snd] in Hrej.
  destruct (MF_MT_FRAME_SIZE media_type) as [[w h]|]; [|done].
  by rewrite Hrej.
Qed.

(** The scan either accepts nothing, or its result is the last type it
    accepted: accepted against the best seen before it, with nothing accepted
    after it. *)
Lemma scan_media_types_last max_height types target best :
  let result := scan_media_types max_height types target best.1 best.2 in
  (result = (target, best) ∧
   Forall (λ media_type, accepts max_height best media_type = false) types) ∨
  (∃ before media_type after,
     types = before ++ media_type :: after ∧
     result.1 = Some media_type ∧
     MF_MT_FRAME_SIZE media_type = Some result.2 ∧
     accepts max_height (best_seen max_height before best) media_type = true ∧
     Forall (λ later, accepts max_height result.2 later = false) after).
Proof.
  destruct best as [best_width best_height]. cbn [fst snd].
  revert target best_width best_height.
  induction types as [|media_type types IH]; intros; [by left|].
  cbn [scan_media_types].
  destruct (MF_MT_FRAME_SIZE media_type) as [[w h]|] eqn:Hsize.
  - destruct (improves max_height best_width best_height w h) eqn:Himp.
    + right.
      destruct (IH (Some media_type) w h) as [[Hres Hrej]|Hlater].
      * exists [], media_type, types. cbn zeta in Hres. rewrite Hres.
        repeat split; try done.
        unfold accepts, best_seen. cbn. by rewrite Hsize.
      * destruct Hlater as (before & later & after & -> & H1 & H2 & H3 & H4).
        exists (media_type :: before), later, after.
        repeat split; try done.
        unfold best_seen in *. cbn [fst snd scan_media_types] in *.
        rewrite Hsize, Himp.
        rewrite scan_media_types_best in *. exact H3.
    + destruct (IH target best_width best_height) as [[Hres Hrej]|Hlater].
      * left. split; [done|]. constructor; [|done].
        unfold accepts. by rewrite Hsize.
      * right.
        destruct Hlater as (before & later & after & -> & H1 & H2 & H3 & H4).
        exists (media_type :: before), later, after.
        repeat split; try done.
        unfold best_seen in *. cbn [fst snd scan_media_types] in *.
        by rewrite Hsize, Himp.
  - destruct (IH target best_width best_height) as [[Hres Hrej]|Hlater].
    + left. split; [done|]. constructor; [|done].
      unfold accepts. by rewrite Hsize.
    + right.
      destruct Hlater as (before & later & after & -> & H1 & H2 & H3 & H4).
      exists (media_type :: before), later, after.
      repeat split; try done.
      unfold best_seen in *. cbn [fst snd scan_media_types] in *.
      by rewrite Hsize.
Qed.

Lemma accepts_spec max_height best media_type :
  accepts max_height best media_type = true ↔
  ∃ w h, MF_MT_FRAME_SIZE media_type = Some (w, h) ∧
         h ≤ max_height ∧ (best.1 < w ∨ best.2 < h).
Proof.
  unfold accepts, improves.
  destruct (MF_MT_FRAME_SIZE media_type) as [[w h]|].
  - rewrite andb_true_iff, orb_true_iff, !bool_decide_eq_true. split.
    + intros [? ?]. by exists w, h.
    + by intros (? & ? & [= <- <-] & ? & ?).
  - split; [done|]. by intros (? & ? & [=] & _).
Qed.

(** * Converting pixels *)

Lemma read_pixel_inside (src : list Z) (i : nat) :
  (4 * i + 4 ≤ length src)%nat →
  ∃ b g r x,
    src !! (4 * i)%nat = Some b ∧ src !! (4 * i + 1)%nat = Some g ∧
    src !! (4 * i + 2)%nat = Some r ∧ src !! (4 * i + 3)%nat = Some x ∧
    read_pixel src i =
      Some {| rgb32_b := b; rgb32_g := g; rgb32_r := r; rgb32_x := x |}.
Proof.
  intros Hlen. unfold read_pixel.
  destruct (lookup_lt_is_Some_2 src (4 * i)%nat) as [b Hb]; [lia|].
  destruct (lookup_lt_is_Some_2 src (4 * i + 1)%nat) as [g Hg]; [lia|].
  destruct (lookup_lt_is_Some_2 src (4 * i + 2)%nat) as [r Hr]; [lia|].
  destruct (lookup_lt_is_Some_2 src (4 * i + 3)%nat) as [x Hx]; [lia|].
  exists b, g, r, x. by rewrite Hb, Hg, Hr, Hx.
Qed.

(** When [count] pixels from [first] on lie inside both arrays, the loop
    writes 4 bytes for each: red, green and blue taken from the source pixel,
    and 255. *)
Lemma convert_pixels_inside (count first : nat) (src : list Z) (capacity : Z) :
  (4 * (first + count) ≤ length src)%nat →
  4 * Z.of_nat (first + count) ≤ capacity →
  ∃ dest,
    convert_pixels count first src capacity = Some dest ∧
    length dest = (4 * count)%nat ∧
    ∀ i, (i < count)%nat →
      dest !! (4 * i)%nat = src !! (4 * (first + i) + 2)%nat ∧
      dest !! (4 * i + 1)%nat = src !! (4 * (first + i) + 1)%nat ∧
      dest !! (4 * i + 2)%nat = src !! (4 * (first + i))%nat ∧
      dest !! (4 * i + 3)%nat = Some 255.
Proof.
  revert first. induction count as [|count IH]; intros first Hsrc Hcap.
  - exists []. repeat split; try done; lia.
  - cbn [convert_pixels].
    rewrite bool_decide_eq_false_2 by lia.
    destruct (read_pixel_inside src first) as (b & g & r & x & Hb & Hg & Hr & Hx & ->);
      [lia|].
    destruct (IH (S first)) as (rest & -> & Hlen & Hrest); [lia|lia|].
    eexists. split; [reflexivity|]. split.
    { cbn. rewrite Hlen. lia. }
    intros [|i] Hi.
    + replace (first + 0)%nat with first by lia.
      rewrite Hb, Hg, Hr. done.
    + destruct (Hrest i ltac:(lia)) as (H0 & H1 & H2 & H3).
      replace (first + S i)%nat with (S first + i)%nat by lia.
      rewrite <- H0, <- H1, <- H2, <- H3.
      replace (4 * S i)%nat with (S (S (S (S (4 * i))))) by lia.
      generalize (4 * i)%nat. intros k.
      replace (S (S (S (S k))) + 1)%nat with (S (S (S (S (k + 1))))) by lia.
      replace (S (S (S (S k))) + 2)%nat with (S (S (S (S (k + 2))))) by lia.
      replace (S (S (S (S k))) + 3)%nat with (S (S (S (S (k + 3))))) by lia.
      done.
Qed.
(** * Reasoning about operations *)

(** ** Weakest preconditions *)

Section wp_rules.

Context {S : Type} (E : Prop).
Implicit Types s : S.

Lemma wp_ret {A} (a : A) s Φ : Φ a s [] → wp E (ret a) s Φ.
Proof. done. Qed.

Lemma wp_get s Φ : Φ s s [] → wp E get s Φ.
Proof. done. Qed.

Lemma wp_modify (f : S → S) s Φ : Φ () (f s) [] → wp E (modify f) s Φ.
Proof. done. Qed.

Lemma wp_emit call s Φ : Φ () s [call] → wp E (emit call) s Φ.
Proof. done. Qed.

Lemma wp_crash {A} f s (Φ : A → S → list Listener.call → Prop) :
  E → wp E (crash f) s Φ.
Proof. done. Qed.

Lemma wp_bind {A B} (m : M S A) (k : A → M S B) s Φ :
  wp E m s (λ a s1 calls1,
    wp E (k a) s1 (λ b s2 calls2, Φ b s2 (calls1 ++ calls2))) →
  wp E (bind m k) s Φ.
Proof.
  unfold wp, bind. destruct (m s) as [a s1 calls1|]; [|done].
  by destruct (k a s1).
Qed.

Lemma wp_mono {A} (m : M S A) s (Φ Ψ : A → S → list Listener.call → Prop) :
  wp E m s Φ → (∀ a s' calls, Φ a s' calls → Ψ a s' calls) → wp E m s Ψ.
Proof. unfold wp. destruct (m s); auto. Qed.

Lemma wp_returns {A} (m : M S A) s Φ a s' calls :
  wp E m s Φ → m s = Returns a s' calls → Φ a s' calls.
Proof. unfold wp. intros H Hm. by rewrite Hm in H. Qed.

End wp_rules.

Lemma wp_total {S A} (m : M S A) s Φ :
  wp False m s Φ → ∃ a s' calls, m s = Returns a s' calls ∧ Φ a s' calls.
Proof. unfold wp. destruct (m s); [eauto|done]. Qed.

(** An operation returns, with the given calls and a state as described. *)
Lemma wp_total_unit {S} (m : M S unit) s calls (P : S → Prop) :
  wp False m s (λ _ s' calls', calls' = calls ∧ P s') →
  ∃ s', m s = Returns () s' calls ∧ P s'.
Proof.
  intros H. apply wp_total in H as ([] & s' & calls' & Hm & -> & HP). eauto.
Qed.

(** Guards decided by what is known. *)
Ltac decide_guards :=
  repeat match goal with
         | H : bool_decide _ = true |- _ => apply bool_decide_eq_true in H
         | H : bool_decide _ = false |- _ => apply bool_decide_eq_false in H
         | H : _ && _ = true |- _ => apply andb_true_iff in H as [? ?]
         | H : _ || _ = false |- _ => apply orb_false_iff in H as [? ?]
         | H : negb _ = true |- _ => apply negb_true_iff in H
         | H : negb _ = false |- _ => apply negb_false_iff in H
         end.

(** The end of a path of a symbolic execution. *)
Ltac wp_close :=
  decide_guards; simplify_eq/=;
  repeat match goal with
         | H : ?x = _ |- context [if ?x then _ else _] => rewrite H
         end;
  first [ done | congruence | exfalso; congruence | repeat split; congruence ].

(** Evaluation of an operation on a state known through equations. *)
Ltac eval_op :=
  repeat first
    [ progress cbn
    | match goal with
      | H : ?x = _ |- context [?x] => rewrite H
      end
    | case_bool_decide; [try done; try congruence ..] ].

(** One step of symbolic execution: the rule for the operation at the head,
    or a case distinction on what a conditional looks at, unless that is
    known. *)
Ltac wp_step :=
  lazymatch goal with
  | |- wp _ (bind _ _) _ _ => apply wp_bind
  | |- wp _ (ret _) _ _ => apply wp_ret
  | |- wp _ get _ _ => apply wp_get
  | |- wp _ (modify _) _ _ => apply wp_modify
  | |- wp _ (emit _) _ _ => apply wp_emit
  | |- wp _ (crash _) _ _ => apply wp_crash; try exact I
  | |- wp _ (and_then _ _) _ _ => unfold and_then
  | |- wp _ (match ?x with _ => _ end) _ _ =>
      let x' := eval cbn in x in
      first [ progress (change x with x') | destruct x eqn:? ]
  end.

(** ** The controller stays consistent *)

Section ControllerFacts.

Import CaptureControllerImpl.

Context {RH : RecordHandler.api} {PH : PhotoHandler.api}.
Implicit Types c : CaptureControllerImpl.t.

Lemma frame_refl c : frame c c.
Proof. done. Qed.

Lemma frame_trans c1 c2 c3 : frame c1 c2 → frame c2 c3 → frame c1 c3.
Proof.
  unfold frame. intros (?&?&?&?&?) (?&?&?&?&?).
  repeat split; try congruence; auto.
Qed.

Lemma frame_consistent c c' : consistent c → frame c c' → consistent c'.
Proof.
  unfold consistent, frame. intros (Hl&Ht&Hr&Hp) (El&Es&Et&Fr&Fp).
  rewrite El, Es, Et. repeat split; auto.
Qed.

Create HintDb framed discriminated.

Ltac frame_solve :=
  unfold frame in *; cbn in *;
  repeat match goal with H : _ ∧ _ |- _ => destruct H end;
  repeat split;
  first
    [ congruence
    | intros;
      repeat match goal with
             | H : is_Some ?x → _, H' : is_Some ?x |- _ => specialize (H H')
             end;
      repeat match goal with
             | H : is_Some None |- _ => by destruct H
             | H : ?x = Some _ |- is_Some ?x => by rewrite H
             end;
      eauto ].

(** A call of an operation already known to be framed. *)
Ltac wp_framed :=
  lazymatch goal with
  | |- wp True ?m ?c ?Φ =>
      let H := fresh "Hframed" in
      assert (H : framed m) by (eauto with framed);
      refine (H _ _ _); clear H; intros ? ? ? ?
  end.

Ltac wp_run0 := repeat first [ wp_step; cbn beta iota | wp_framed ].

Lemma framed_intro {A} (m : M CaptureControllerImpl.t A) :
  (∀ c, wp True m c (λ _ c' _, frame c c')) → framed m.
Proof.
  intros H c Φ HΦ. eapply wp_mono; [apply H|]. simpl. eauto.
Qed.

Ltac framed_proof := apply framed_intro; intros ?; wp_run0; frame_solve.

Lemma OnRecordStopped_framed success error :
  framed (OnRecordStopped success error).
Proof. unfold OnRecordStopped. framed_proof. Qed.

Lemma OnRecordStarted_framed success error :
  framed (OnRecordStarted success error).
Proof. unfold OnRecordStarted, if_listener. framed_proof. Qed.

Lemma OnPicture_framed success error : framed (OnPicture success error).
Proof. unfold OnPicture, if_listener. framed_proof. Qed.

Lemma OnPreviewStarted_framed success error :
  framed (OnPreviewStarted success error).
Proof. unfold OnPreviewStarted. framed_proof. Qed.

Lemma OnPreviewStopped_framed success error :
  framed (OnPreviewStopped success error).
Proof. unfold OnPreviewStopped. framed_proof. Qed.

Lemma OnCaptureEngineError_framed hr error :
  framed (OnCaptureEngineError hr error).
Proof. unfold OnCaptureEngineError, if_listener. framed_proof. Qed.

#[local] Hint Resolve OnRecordStopped_framed OnRecordStarted_framed
  OnPicture_framed OnPreviewStarted_framed OnPreviewStopped_framed
  OnCaptureEngineError_framed : framed.

Lemma StopRecord_framed env : framed (StopRecord env).
Proof. unfold StopRecord, deref_record_handler. framed_proof. Qed.

Lemma StopTimedRecord_framed env : framed (StopTimedRecord env).
Proof. unfold StopTimedRecord, listener_call. framed_proof. Qed.

Lemma StopPreview_framed env : framed (StopPreview env).
Proof. unfold StopPreview, deref_preview_handler. framed_proof. Qed.

Lemma PausePreview_framed : framed PausePreview.
Proof. unfold PausePreview, deref_preview_handler, listener_call. framed_proof. Qed.

Lemma ResumePreview_framed : framed ResumePreview.
Proof. unfold ResumePreview, deref_preview_handler, listener_call. framed_proof. Qed.

Lemma FindBaseMediaTypes_framed env : framed (FindBaseMediaTypes env).
Proof. unfold FindBaseMediaTypes. framed_proof. Qed.

#[local] Hint Resolve StopRecord_framed StopTimedRecord_framed
  StopPreview_framed PausePreview_framed ResumePreview_framed
  FindBaseMediaTypes_framed : framed.

Lemma TakePicture_framed file_path env : framed (TakePicture file_path env).
Proof. unfold TakePicture, deref_photo_handler. framed_proof. Qed.

Lemma GetFrameBuffer_framed new_length : framed (GetFrameBuffer new_length).
Proof. unfold GetFrameBuffer. framed_proof. Qed.

Lemma write_frame_framed frame : framed (write_frame frame).
Proof. unfold write_frame. framed_proof. Qed.

Lemma OnBufferUpdated_framed : framed OnBufferUpdated.
Proof. unfold OnBufferUpdated. framed_proof. Qed.

Lemma ConvertPixelBufferForFlutter_framed target_width target_height :
  framed (ConvertPixelBufferForFlutter target_width target_height).
Proof. unfold ConvertPixelBufferForFlutter. framed_proof. Qed.

Lemma UpdateCaptureTime_framed capture_time_us env :
  framed (UpdateCaptureTime capture_time_us env).
Proof. unfold UpdateCaptureTime. framed_proof. Qed.

#[local] Hint Resolve TakePicture_framed GetFrameBuffer_framed
  write_frame_framed OnBufferUpdated_framed
  ConvertPixelBufferForFlutter_framed UpdateCaptureTime_framed : framed.

Lemma ResetCaptureController_resets env c :
  wp True (ResetCaptureController env) c (λ _ c' _, is_reset c c').
Proof.
  unfold ResetCaptureController. wp_run0.
  all: unfold is_reset; frame_solve.
Qed.

Lemma is_reset_consistent c c' : consistent c → is_reset c c' → consistent c'.
Proof.
  unfold consistent, is_reset. intros (Hl&_) (El&Es&Er&Ep).
  rewrite El, Es, Er, Ep. repeat split; auto; try done; by intros [].
Qed.

Lemma framed_preserving {A} (m : M CaptureControllerImpl.t A) :
  framed m → preserving m.
Proof.
  intros Hm c Hc. apply Hm. intros _ c' _. by apply frame_consistent.
Qed.

Ltac wp_reset :=
  lazymatch goal with
  | |- wp True (ResetCaptureController _) _ _ =>
      eapply wp_mono; [apply ResetCaptureController_resets|];
      cbn beta; intros ? ? ? ?
  end.

Ltac wp_run := repeat first [ wp_step; cbn beta iota | wp_framed | wp_reset ].

Ltac consistent_solve :=
  unfold consistent, frame, is_reset in *; cbn in *;
  repeat match goal with H : _ ∧ _ |- _ => destruct H end;
  repeat case_bool_decide;
  repeat split;
  first
    [ congruence
    | lia
    | intros;
      repeat match goal with
             | H : ?P → _, H' : ?P |- _ => specialize (H H')
             | H : ?x = None, H' : is_Some ?x |- _ =>
                 rewrite H in H'; by destruct H'
             end;
      repeat match goal with
             | H : is_Some None |- _ => by destruct H
             end;
      first [ congruence | lia | eauto ] ].

Lemma InitCaptureDevice_preserving texture_registrar device_id record_audio
    resolution_preset env :
  preserving (InitCaptureDevice texture_registrar device_id record_audio
                resolution_preset env).
Proof.
  intros c Hc. unfold InitCaptureDevice, create_failed, listener_call.
  wp_run; consistent_solve.
Qed.

Lemma OnCaptureEngineInitialized_preserving success error env :
  preserving (OnCaptureEngineInitialized success error env).
Proof.
  intros c Hc. unfold OnCaptureEngineInitialized.
  wp_run; consistent_solve.
Qed.

Lemma StartRecord_preserving file_path max_video_duration_ms env :
  preserving (StartRecord file_path max_video_duration_ms env).
Proof.
  intros c Hc. unfold StartRecord, deref_record_handler.
  wp_run; consistent_solve.
Qed.

Lemma StartPreview_preserving env : preserving (StartPreview env).
Proof.
  intros c Hc. unfold StartPreview.
  wp_run; consistent_solve.
Qed.

Lemma OnEvent_preserving event env : preserving (OnEvent event env).
Proof.
  intros c Hc. unfold OnEvent.
  repeat first
    [ wp_step; cbn beta iota
    | apply OnCaptureEngineInitialized_preserving
    | wp_framed ];
  try done; consistent_solve.
Qed.

Lemma perform_preserving op env : preserving (perform op env).
Proof.
  destruct op; cbn [perform];
    try (apply framed_preserving; solve [eauto with framed]).
  - apply InitCaptureDevice_preserving.
  - apply StartRecord_preserving.
  - apply StartPreview_preserving.
  - apply OnEvent_preserving.
  - intros c Hc. wp_run. by eapply frame_consistent.
Qed.

Lemma CaptureControllerImpl_consistent :
  consistent (CaptureControllerImpl true).
Proof. unfold consistent; cbn. repeat split; try done; by intros []. Qed.

(** Every reachable controller is consistent. *)
Lemma reachable_consistent c : reachable c → consistent c.
Proof.
  induction 1 as [|c op env c' calls _ IH Hstep].
  - apply CaptureControllerImpl_consistent.
  - by apply (wp_returns _ _ _ _ _ _ _ (perform_preserving op env c IH) Hstep).
Qed.


(** ** Disposal *)

Lemma silent_dispatch_all calls (camera : CameraImpl.t) :
  silent calls → dispatch_all calls camera = (camera, []).
Proof.
  unfold silent. induction 1 as [|call calls [error ->] _ IH]; [done|].
  cbn. by rewrite IH.
Qed.

(** Contradictions between the case at hand and what is known of the
    controller. *)
Ltac absurd_case :=
  exfalso;
  unfold consistent in *; cbn in *;
  repeat match goal with H : _ ∧ _ |- _ => destruct H end;
  repeat case_bool_decide;
  repeat match goal with
         | H : ?x = Some _, H' : context [is_Some ?x] |- _ =>
             rewrite H in H'
         end;
  repeat match goal with
         | H : is_Some (Some _) → _ |- _ => specialize (H (mk_is_Some _ _ eq_refl))
         end;
  first [ congruence | done | naive_solver ].

Ltac silent_solve :=
  cbn; unfold silent;
  repeat first
    [ apply Forall_nil_2
    | apply Forall_cons_2; [eexists; reflexivity|] ].

(** Destroying a consistent controller returns, and calls nothing on the
    listener the camera reacts to. *)
Lemma destructor_silent env c :
  consistent c → wp False (destructor env) c (λ _ _ calls, silent calls).
Proof.
  intros Hc.
  unfold destructor, ResetCaptureController, StopRecord, StopTimedRecord,
    StopPreview, OnRecordStopped, deref_record_handler, deref_preview_handler,
    listener_call.
  wp_run.
  all: first [ solve [silent_solve] | solve [absurd_case] ].
Qed.

(** C2. Disposing a camera whose controller, if it has one, is reachable
    resolves every pending result with the "Plugin disposed" error, one
    [Error] call for each entry of the map, in the ascending order of the
    keys, and nothing else, and leaves the map empty. *)
Theorem dispose_fails_every_pending_result (env : Env) (s : Camera.t) :
  (∀ controller,
     Camera.capture_controller_ s = Some controller → reachable controller) →
  let pending := CameraImpl.pending_results_ (Camera.camera s) in
  let slots := CameraImpl.in_key_order pending in
  let failures :=
    (λ slot, ResultError slot.2 "Plugin disposed"
               "Plugin disposed before request was handled")
      <$> slots in
  ∃ camera',
    Camera.destructor env s = Camera.Done (Camera.mk camera' None) failures ∧
    CameraImpl.pending_results_ camera' = ∅ ∧
    length failures = size pending ∧
    StronglySorted
      (λ a b, (PendingResultType_to_nat a < PendingResultType_to_nat b)%nat)
      slots.*1 ∧
    NoDup slots.*1 ∧
    ∀ type result, (type, result) ∈ slots ↔ pending !! type = Some result.
Proof.
  intros Hreach pending slots failures.
  destruct (pending_slots pending) as (Hsorted & Hnodup & Hlen & Hslots).
  exists (CameraImpl.with_pending_results ∅ (Camera.camera s)).
  split; [|split; [done|split; [|done]]].
  - unfold Camera.destructor.
    destruct (Camera.capture_controller_ s) as [controller|] eqn:Hctrl; [|done].
    pose proof (destructor_silent env controller
                  (reachable_consistent _ (Hreach _ eq_refl))) as Hwp.
    apply wp_total in Hwp as (a & c' & calls & -> & Hsilent).
    by rewrite (silent_dispatch_all _ _ Hsilent).
  - unfold failures. by rewrite length_fmap.
Qed.

(** ** Stopping a recording *)

(** C3. With the engine initialized and no record handler, [StopRecord]
    dereferences the null handler: [!record_handler_] holds, so the right
    operand of [&&] is evaluated.  With a handler, the left operand is false:
    the handler is never asked whether it can stop, its [StopRecord] is
    called, and when that fails the handler is destroyed before
    [OnRecordStopped] looks for it, so that nothing is reported. *)
Theorem StopRecord_dereferences_null_handler (env : Env) c :
  capture_engine_state_ c = CAPTURE_ENGINE_INITIALIZED →
  (record_handler_ c = None → StopRecord env c = Crashes NullDereference []) ∧
  (∀ h h', record_handler_ c = Some h →
           RecordHandler.StopRecord env h = (false, h') →
           ∃ c', StopRecord env c = Returns () c' [] ∧
                 record_handler_ c' = None).
Proof.
  intros Hstate. split.
  - intros Hnone. unfold StopRecord, bind, get, and_then, deref_record_handler.
    eval_op. reflexivity.
  - intros h h' Hsome Hstop.
    apply wp_total_unit. unfold StopRecord, OnRecordStopped, deref_record_handler.
    wp_run; wp_close.
Qed.

(** ** The end of a recording *)

(** What [OnRecordStopped] tells a listener about a recording. *)
Lemma OnRecordStopped_calls (success : bool) (error : string) c h :
  capture_controller_listener_ c = true →
  record_handler_ c = Some h →
  ∃ c',
    OnRecordStopped success error c =
      Returns () c'
        (if success
         then
           Listener.OnStopRecordSucceeded (RecordHandler.GetRecordPath h) ::
           if RecordHandler.IsTimedRecording h
           then [Listener.OnVideoRecordSucceeded (RecordHandler.GetRecordPath h)
                   (Z.quot (RecordHandler.GetRecordedDuration h) 1000)]
           else []
         else
           Listener.OnStopRecordFailed error ::
           if RecordHandler.IsTimedRecording h
           then [Listener.OnVideoRecordFailed error]
           else []) ∧
    record_handler_ c' =
      if success then Some (RecordHandler.OnRecordStopped h) else None.
Proof.
  intros Hlistener Hhandler. apply wp_total_unit. unfold OnRecordStopped.
  wp_run; wp_close.
Qed.

(** C7. When a record-stopped outcome reaches a controller that has a
    listener and a record handler, the listener is called on the stop-record
    channel, and, if the recording is timed, once more on the video-record
    channel; for a recording that is not timed the stop-record call is the
    only one.  The router hands every record-stopped event whose status can
    be read to [OnRecordStopped]. *)
Theorem OnRecordStopped_notifies (success : bool) (error : string) c h :
  capture_controller_listener_ c = true →
  record_handler_ c = Some h →
  let path := RecordHandler.GetRecordPath h in
  let stop_record :=
    if success then Listener.OnStopRecordSucceeded path
    else Listener.OnStopRecordFailed error in
  let video_record :=
    if success
    then Listener.OnVideoRecordSucceeded path
           (Z.quot (RecordHandler.GetRecordedDuration h) 1000)
    else Listener.OnVideoRecordFailed error in
  (∃ c',
     OnRecordStopped success error c =
       Returns () c'
         (if RecordHandler.IsTimedRecording h
          then [stop_record; video_record] else [stop_record]) ∧
     record_handler_ c' =
       if success then Some (RecordHandler.OnRecordStopped h) else None) ∧
  Listener.is_stop_record stop_record = true ∧
  Listener.is_video_record video_record = true ∧
  Listener.is_video_record stop_record = false ∧
  ∀ env event_hr,
    capture_engine_state_ c ≠ CAPTURE_ENGINE_NOT_INITIALIZED →
    OnEvent {| GetExtendedType := Some MF_CAPTURE_ENGINE_RECORD_STOPPED;
               GetStatus := Some event_hr |} env c =
    OnRecordStopped (SUCCEEDED event_hr)
      (if FAILED event_hr then system_category_message env event_hr
       else EmptyString) c.
Proof.
  intros Hlistener Hhandler path stop_record video_record.
  split; [|split; [|split; [|split]]].
  - destruct (OnRecordStopped_calls success error c h Hlistener Hhandler)
      as (c' & -> & Hc'). exists c'. split; [|done].
    subst stop_record video_record path.
    by destruct success, (RecordHandler.IsTimedRecording h).
  - by destruct success.
  - by destruct success.
  - by destruct success.
  - intros env event_hr Hstate. unfold OnEvent, bind, get. cbn [GetExtendedType GetStatus].
    match goal with
    | |- context [OnRecordStopped ?a ?b] => generalize (OnRecordStopped a b)
    end.
    intros m.
    destruct (capture_engine_state_ c); [done| |];
      repeat (case_bool_decide; try done); cbn; by destruct (m c).
Qed.

(** ** The start of the preview *)

(** The router does nothing on the native preview-started event. *)
Lemma OnEvent_ignores_preview_started status env c :
  OnEvent {| GetExtendedType := Some MF_CAPTURE_ENGINE_PREVIEW_STARTED;
             GetStatus := status |} env c = Returns () c [].
Proof.
  unfold OnEvent, bind, get. cbn [GetExtendedType GetStatus].
  destruct (_ && _); [done|]. by destruct status.
Qed.

(** C6 (amended). The native preview-started event changes nothing and
    reaches no listener.  A frame delivered to a reachable controller whose
    preview handler is starting makes the handler running; the listener is
    then told that the preview started, with the frame width and height as
    signed 32-bit values, when the preview frame width and height are both
    positive, and that it failed otherwise.  No other call of that operation
    is about the preview.  A width or height below 2^31 is passed as it is;
    from 2^31 on it arrives lowered by 2^32, that is negative. *)
Theorem first_frame_starts_preview (capture_time_us : Z) (env : Env) c h :
  reachable c →
  preview_handler_ c = Some h →
  PreviewHandler.IsStarting h = true →
  (∀ status,
     OnEvent {| GetExtendedType := Some MF_CAPTURE_ENGINE_PREVIEW_STARTED;
                GetStatus := status |} env c = Returns () c []) ∧
  (∃ c' rest,
     UpdateCaptureTime capture_time_us env c =
       Returns () c'
         ((if bool_decide (0 < preview_frame_width_ c ∧
                           0 < preview_frame_height_ c)
           then Listener.OnStartPreviewSucceeded
                  (to_int32 (preview_frame_width_ c))
                  (to_int32 (preview_frame_height_ c))
           else Listener.OnStartPreviewFailed EmptyString) :: rest) ∧
     preview_handler_ c' =
       Some (PreviewHandler.with_state PreviewHandler.PREVIEW_STATE__RUNNING h) ∧
     silent rest) ∧
  (∀ size, 0 ≤ size ≤ 2147483647 → to_int32 size = size) ∧
  (∀ size, 2147483648 ≤ size ≤ UINT32_MAX →
           to_int32 size = size - 4294967296).
Proof.
  intros Hreach Hhandler Hstarting.
  split; [intros; apply OnEvent_ignores_preview_started|].
  split; [|split; intros size Hsize; unfold to_int32, UINT32_MAX in *].
  2: { rewrite Z.mod_small by lia. lia. }
  2: { replace (size + 2147483648)
         with (size - 2147483648 + 1 * 4294967296) by lia.
       rewrite Z.mod_add by lia. rewrite Z.mod_small by lia. lia. }
  pose proof (reachable_consistent _ Hreach) as Hc.
  assert (Hlistener : capture_controller_listener_ c = true) by apply Hc.
  assert (Hstate : capture_engine_state_ c = CAPTURE_ENGINE_INITIALIZED).
  { apply Hc. by rewrite Hhandler. }
  assert (Hrunning : PreviewHandler.OnPreviewStarted h =
            PreviewHandler.with_state PreviewHandler.PREVIEW_STATE__RUNNING h).
  { unfold PreviewHandler.OnPreviewStarted, PreviewHandler.IsStarting in *.
    by rewrite Hstarting. }
  clear Hreach Hc.
  cut (wp False (UpdateCaptureTime capture_time_us env) c
         (λ _ c' calls,
            ∃ rest,
              calls =
                (if bool_decide (0 < preview_frame_width_ c ∧
                                 0 < preview_frame_height_ c)
                 then Listener.OnStartPreviewSucceeded
                        (to_int32 (preview_frame_width_ c))
                        (to_int32 (preview_frame_height_ c))
                 else Listener.OnStartPreviewFailed EmptyString) :: rest ∧
              preview_handler_ c' =
                Some (PreviewHandler.with_state
                        PreviewHandler.PREVIEW_STATE__RUNNING h) ∧
              silent rest)).
  { intros Hwp. apply wp_total in Hwp as ([] & c' & calls & -> & rest & -> & ?).
    eauto. }
  unfold UpdateCaptureTime, OnPreviewStarted, StopTimedRecord, listener_call.
  wp_run.
  all: decide_guards; simplify_eq/=; try congruence.
  all: try match goal with
           | H : _ && _ = false |- _ =>
               apply andb_false_iff in H
                 as [H%bool_decide_eq_false|H%bool_decide_eq_false]
           end.
  all: try (rewrite bool_decide_eq_true_2 by done).
  all: try (rewrite bool_decide_eq_false_2 by tauto).
  all: eexists; split; [reflexivity|]; split; [congruence|]; silent_solve.
Qed.

(** ** Pausing and resuming the preview *)

Lemma PreviewHandler_PausePreview_spec (h : PreviewHandler.t) :
  PreviewHandler.PausePreview h =
    if bool_decide (PreviewHandler.preview_state_ h =
                    PreviewHandler.PREVIEW_STATE__RUNNING)
    then (true, PreviewHandler.with_state PreviewHandler.PREVIEW_STATE__PAUSED h)
    else (false, h).
Proof.
  unfold PreviewHandler.PausePreview. by repeat case_bool_decide.
Qed.

Lemma PreviewHandler_ResumePreview_spec (h : PreviewHandler.t) :
  PreviewHandler.ResumePreview h =
    if bool_decide (PreviewHandler.preview_state_ h =
                    PreviewHandler.PREVIEW_STATE__PAUSED)
    then (true, PreviewHandler.with_state PreviewHandler.PREVIEW_STATE__RUNNING h)
    else (false, h).
Proof.
  unfold PreviewHandler.ResumePreview. by repeat case_bool_decide.
Qed.

(** With a handler that is not running, pausing is reported as failed and
    the handler stays as it is; likewise for resuming a handler that is not
    paused. *)
Lemma PausePreview_outside_running c h :
  capture_controller_listener_ c = true →
  preview_handler_ c = Some h →
  PreviewHandler.preview_state_ h ≠ PreviewHandler.PREVIEW_STATE__RUNNING →
  ∃ c',
    PausePreview c =
      Returns () c' [Listener.OnPausePreviewFailed "Failed to pause preview"] ∧
    preview_handler_ c' = Some h.
Proof.
  intros Hlistener Hhandler Hstate. apply wp_total_unit.
  unfold PausePreview, deref_preview_handler, listener_call.
  wp_run.
  all: try match goal with
           | H : PreviewHandler.PausePreview _ = _ |- _ =>
               rewrite PreviewHandler_PausePreview_spec in H;
               case_bool_decide
           end.
  all: wp_close.
Qed.

Lemma ResumePreview_outside_paused c h :
  capture_controller_listener_ c = true →
  preview_handler_ c = Some h →
  PreviewHandler.preview_state_ h ≠ PreviewHandler.PREVIEW_STATE__PAUSED →
  ∃ c',
    ResumePreview c =
      Returns () c' [Listener.OnResumePreviewFailed "Failed to pause preview"] ∧
    preview_handler_ c' = Some h.
Proof.
  intros Hlistener Hhandler Hstate. apply wp_total_unit.
  unfold ResumePreview, deref_preview_handler, listener_call.
  wp_run.
  all: try match goal with
           | H : PreviewHandler.ResumePreview _ = _ |- _ =>
               rewrite PreviewHandler_ResumePreview_spec in H;
               case_bool_decide
           end.
  all: wp_close.
Qed.

(** C8. Without a preview handler, [PausePreview] and [ResumePreview]
    dereference the null handler instead of reporting "Preview not started":
    [!preview_handler_] holds, so the right operand of [&&] is evaluated. *)
Theorem PausePreview_dereferences_null_handler c :
  preview_handler_ c = None →
  PausePreview c = Crashes NullDereference [] ∧
  ResumePreview c = Crashes NullDereference [].
Proof.
  intros Hnone. split.
  - unfold PausePreview, bind, get, and_then, deref_preview_handler.
    eval_op. reflexivity.
  - unfold ResumePreview, bind, get, and_then, deref_preview_handler.
    eval_op. reflexivity.
Qed.

(** ** The texture's pixel buffer *)

(** C9 (amended). Whatever the requested target size: with no raw data, or
    with a preview width or height that is not positive, no buffer is
    returned; with raw data that holds at least width × height four-byte
    pixels, the returned buffer has the preview frame width and height and
    four bytes for each of the width × height pixels, red, green and blue
    copied from the raw pixel and alpha 255. *)
Theorem ConvertPixelBufferForFlutter_full_frame (target_width target_height : Z)
    c :
  (source_buffer_data_ c = None ∨ source_buffer_size_ c ≤ 0 ∨
   preview_frame_width_ c ≤ 0 ∨ preview_frame_height_ c ≤ 0 →
   ConvertPixelBufferForFlutter target_width target_height c =
     Returns None c []) ∧
  ∀ src,
    source_buffer_data_ c = Some src →
    0 < source_buffer_size_ c →
    0 < preview_frame_width_ c →
    0 < preview_frame_height_ c →
    4 * (preview_frame_width_ c * preview_frame_height_ c)
      ≤ Z.of_nat (length src) ≤ UINT32_MAX →
    ∃ dest,
      ConvertPixelBufferForFlutter target_width target_height c =
        Returns
          (Some {| buffer := dest;
                   width := preview_frame_width_ c;
                   height := preview_frame_height_ c |})
          (set_dest_buffer_ (Some dest) c) [] ∧
      Z.of_nat (length dest) =
        4 * (preview_frame_width_ c * preview_frame_height_ c) ∧
      ∀ i : nat,
        Z.of_nat i < preview_frame_width_ c * preview_frame_height_ c →
        dest !! (4 * i)%nat = src !! (4 * i + 2)%nat ∧
        dest !! (4 * i + 1)%nat = src !! (4 * i + 1)%nat ∧
        dest !! (4 * i + 2)%nat = src !! (4 * i)%nat ∧
        dest !! (4 * i + 3)%nat = Some 255.
Proof.
  split.
  - intros Hnone. unfold ConvertPixelBufferForFlutter, bind, get.
    destruct (source_buffer_data_ c) as [src|]; [|done].
    destruct Hnone as [?|Hnone]; [done|].
    repeat case_bool_decide; try done; lia.
  - intros src Hsrc Hsize Hwidth Hheight [Hfull Hmax].
    unfold UINT32_MAX in Hmax.
    set (pixels := preview_frame_width_ c * preview_frame_height_ c) in *.
    assert (0 < pixels) by (unfold pixels; nia).
    destruct (convert_pixels_inside (Z.to_nat pixels) 0 src (4 * pixels))
      as (dest & Hdest & Hlen & Hpixels); [lia|lia|].
    exists dest. split; [|split].
    + unfold ConvertPixelBufferForFlutter, bind, get, modify, ret.
      rewrite Hsrc. fold pixels.
      rewrite !bool_decide_eq_true_2 by done. cbn [andb].
      unfold wrap32. rewrite (Z.mod_small pixels) by lia.
      rewrite (Z.mul_comm pixels 4), (Z.mod_small (4 * pixels)) by lia.
      by rewrite Hdest.
    + lia.
    + intros i Hi. apply (Hpixels i). lia.
Qed.

(** ** A timed recording that fails to stop *)

(** C10. [OnVideoRecordFailed] does nothing: it returns the camera as it
    was, without any host effect.  So when stopping a timed recording fails,
    the camera shows nothing of it: nothing at all when the controller fails
    to stop it by itself, and, on a failed record-stopped event, only the
    answer to a pending stop request, if there is one. *)
Theorem OnVideoRecordFailed_is_no_op (error : string) (camera : CameraImpl.t) :
  CameraImpl.OnVideoRecordFailed error camera = (camera, []) ∧
  dispatch (Listener.OnVideoRecordFailed error) camera = (camera, []) ∧
  (∀ env controller h h',
     capture_controller_listener_ controller = true →
     record_handler_ controller = Some h →
     RecordHandler.IsTimedRecording h = true →
     RecordHandler.StopRecord env h = (false, h') →
     ∃ controller',
       Camera.on_controller (StopTimedRecord env)
         (Camera.mk camera (Some controller)) =
         Camera.Done (Camera.mk camera (Some controller')) [] ∧
       record_handler_ controller' = None) ∧
  (∀ controller h,
     capture_controller_listener_ controller = true →
     record_handler_ controller = Some h →
     RecordHandler.IsTimedRecording h = true →
     CameraImpl.pending_results_ camera !! STOP_RECORD = None →
     ∃ controller',
       Camera.on_controller (OnRecordStopped false error)
         (Camera.mk camera (Some controller)) =
         Camera.Done (Camera.mk camera (Some controller')) []).
Proof.
  split; [done|]. split; [done|]. split.
  - intros env controller h h' Hlistener Hhandler Htimed Hstop.
    assert (∃ controller',
              StopTimedRecord env controller =
                Returns () controller'
                  [Listener.OnVideoRecordFailed "Failed to record video"] ∧
              record_handler_ controller' = None)
      as (controller' & Hrun & Hnone).
    { apply wp_total_unit. unfold StopTimedRecord, listener_call.
      wp_run; wp_close. }
    exists controller'. unfold Camera.on_controller.
    cbn [Camera.capture_controller_ Camera.camera]. by rewrite Hrun.
  - intros controller h Hlistener Hhandler Htimed Hpending.
    destruct (OnRecordStopped_calls false error controller h Hlistener
                Hhandler) as (controller' & Hrun & _).
    exists controller'. unfold Camera.on_controller.
    cbn [Camera.capture_controller_ Camera.camera].
    rewrite Hrun, Htimed. cbn.
    unfold CameraImpl.OnStopRecordFailed, CameraImpl.resolve,
      CameraImpl.GetPendingResultByType.
    by rewrite Hpending.
Qed.

(** ** The best media type *)

(** C5 (amended). The cap on the preview height is 240, 480, 720, 1080 or
    2160 for the presets LOW to ULTRA_HIGH and, for AUTO, 0xffffffff, which no
    32-bit height exceeds.  For every list of native types, every cap and
    every target the caller passes, [FindBestMediaType] returns whether the
    target holds a type at the end.  When some native type passes the test of
    the loop from the start (its height is at most the cap and its width or
    its height is positive), a type is selected: the last one of the
    enumeration that passed the test, its height at most the cap and its
    width or its height greater than the best seen before it, and no later
    type passes the test against it.  When no native type passes, in
    particular when none satisfies the cap, nothing is selected: the target
    is left as the caller passed it and the best size is 0 by 0; so the
    function returns no type when the target was empty, and returns the
    earlier type, with success, when it was not. *)
Theorem FindBestMediaType_selects_last_improvement
    (source_stream_index : SourceStream) (source : IMFCaptureSource)
    (previous : option IMFMediaType) (max_height : Z) :
  (∀ c,
     GetMaxPreviewHeight c =
       match resolution_preset_ c with
       | RESOLUTION_PRESET_LOW => 240
       | RESOLUTION_PRESET_MEDIUM => 480
       | RESOLUTION_PRESET_HIGH => 720
       | RESOLUTION_PRESET_VERY_HIGH => 1080
       | RESOLUTION_PRESET_ULTRA_HIGH => 2160
       | _ => UINT32_MAX
       end) ∧
  (∀ frame_height, is_uint32 frame_height → frame_height ≤ UINT32_MAX) ∧
  ∃ target best_width best_height,
    FindBestMediaType source_stream_index source previous max_height =
      (bool_decide (is_Some target), target, (best_width, best_height)) ∧
    (Exists
       (λ media_type, ∃ w h,
          MF_MT_FRAME_SIZE media_type = Some (w, h) ∧
          h ≤ max_height ∧ (0 < w ∨ 0 < h))
       (source source_stream_index) →
     ∃ media_type before after,
       target = Some media_type ∧
       source source_stream_index = before ++ media_type :: after ∧
       MF_MT_FRAME_SIZE media_type = Some (best_width, best_height) ∧
       best_height ≤ max_height ∧
       ((best_seen max_height before (0, 0)).1 < best_width ∨
        (best_seen max_height before (0, 0)).2 < best_height) ∧
       Forall
         (λ later, ∀ w h,
            MF_MT_FRAME_SIZE later = Some (w, h) →
            ¬ (h ≤ max_height ∧ (best_width < w ∨ best_height < h)))
         after) ∧
    (Forall
       (λ media_type, ∀ w h,
          MF_MT_FRAME_SIZE media_type = Some (w, h) →
          ¬ (h ≤ max_height ∧ (0 < w ∨ 0 < h)))
       (source source_stream_index) →
     target = previous ∧ (best_width, best_height) = (0, 0)) ∧
    (Forall
       (λ media_type, ∀ w h,
          MF_MT_FRAME_SIZE media_type = Some (w, h) → max_height < h)
       (source source_stream_index) →
     target = previous ∧ (best_width, best_height) = (0, 0)) ∧
    (previous = None → target = None → (best_width, best_height) = (0, 0)).
Proof.
  split; [by intros c; unfold GetMaxPreviewHeight; destruct (resolution_preset_ c)|].
  split; [by intros frame_height [_ ?]|].
  unfold FindBestMediaType.
  pose proof (scan_media_types_last max_height (source source_stream_index)
                previous (0, 0)) as Hscan.
  cbn [fst snd] in Hscan.
  destruct (scan_media_types max_height (source source_stream_index)
              previous 0 0)
    as [target [best_width best_height]].
  exists target, best_width, best_height. split; [done|].
  cbn zeta in Hscan.
  assert (Hnothing :
    Forall
      (λ media_type, ∀ w h,
         MF_MT_FRAME_SIZE media_type = Some (w, h) →
         ¬ (h ≤ max_height ∧ (0 < w ∨ 0 < h)))
      (source source_stream_index) →
    target = previous ∧ (best_width, best_height) = (0, 0)).
  { intros Hnone.
    destruct Hscan as [[[= -> -> ->] _]|Hlast]; [done|].
    destruct Hlast as (before & media_type & after & Htypes & _ & _
                       & Haccepted & _).
    exfalso. rewrite Htypes in Hnone.
    apply Forall_app in Hnone as [Hbefore Hnone].
    apply Forall_cons_1 in Hnone as [Hnone _].
    assert (Hbest : best_seen max_height before (0, 0) = (0, 0)).
    { assert (Hrejected :
        Forall (λ earlier, accepts max_height (0, 0) earlier = false) before).
      { eapply Forall_impl; [exact Hbefore|]. intros earlier Hrej.
        destruct (accepts max_height (0, 0) earlier) eqn:Hacc; [|done].
        apply accepts_spec in Hacc as (w & h & ? & ? & ?).
        exfalso. by apply (Hrej w h). }
      pose proof (scan_media_types_rejected max_height before None (0, 0)
                    Hrejected) as Hsame.
      unfold best_seen. cbn [fst snd] in *. by rewrite Hsame. }
    rewrite Hbest in Haccepted.
    apply accepts_spec in Haccepted as (w & h & ? & ? & ?).
    by apply (Hnone w h). }
  split; [|split; [exact Hnothing|split]].
  - intros Hsome.
    destruct Hscan as [[_ Hrej]|Hlast].
    { exfalso. apply Exists_exists in Hsome
        as (media_type & Hin & w & h & Hsize & Hcap & Hpos).
      rewrite Forall_forall in Hrej. specialize (Hrej _ Hin).
      assert (accepts max_height (0, 0) media_type = true) as Hacc;
        [|congruence].
      apply accepts_spec. by exists w, h. }
    destruct Hlast as (before & media_type & after & Htypes & Htarget & Hsize
                       & Haccepted & Hafter).
    cbn [fst snd] in *. subst target.
    apply accepts_spec in Haccepted as (w & h & Hsize' & Hcap & Hbetter).
    rewrite Hsize in Hsize'. injection Hsize' as <- <-.
    exists media_type, before, after. repeat split; try done.
    eapply Forall_impl; [exact Hafter|]. intros later Hrej w h Hlater Hpass.
    cbn beta in Hrej.
    assert (accepts max_height (best_width, best_height) later = true)
      as Hacc; [|congruence].
    apply accepts_spec. by exists w, h.
  - intros Hnone. apply Hnothing.
    eapply Forall_impl; [exact Hnone|]. intros media_type Hover w h Hsize.
    specialize (Hover w h Hsize). lia.
  - intros -> ->.
    destruct Hscan as [[[= -> ->] _]|Hlast]; [done|].
    by destruct Hlast as (? & ? & ? & _ & [=] & _).
Qed.

(** ** Pipeline errors *)

(** An error event whose status can be read, arriving while the engine is
    initializing or initialized, is passed to the listener once. *)
Lemma OnEvent_error_calls_listener env event_hr c :
  capture_controller_listener_ c = true →
  capture_engine_state_ c ≠ CAPTURE_ENGINE_NOT_INITIALIZED →
  OnEvent {| GetExtendedType := Some MF_CAPTURE_ENGINE_ERROR;
             GetStatus := Some event_hr |} env c =
    Returns () c
      [Listener.OnCaptureError
         (if FAILED event_hr then system_category_message env event_hr
          else EmptyString)].
Proof.
  intros Hlistener Hstate.
  unfold OnEvent, OnCaptureEngineError, if_listener, bind, get, emit.
  cbn [GetExtendedType GetStatus].
  destruct (capture_engine_state_ c); [done| |];
    repeat (case_bool_decide; try done); cbn; by rewrite Hlistener.
Qed.

(** ** Runs *)

Lemma run_reachable ops c c' : reachable c → run ops c = Some c' → reachable c'.
Proof.
  revert c. induction ops as [|[op env] ops IH]; intros c Hc Hrun.
  - by injection Hrun as <-.
  - cbn in Hrun. destruct (perform op env c) as [[] c1 calls|] eqn:Hstep; [|done].
    eapply IH; [|exact Hrun]. by eapply reachable_step.
Qed.

End ControllerFacts.
(** C1. For every operation kind, if a pending result already exists for that
    kind, [AddPendingResult] answers the second request with a "Duplicate
    request" error, returns false and leaves the camera, and with it the
    first pending result, as it was: the first request is still the one
    [GetPendingResultByType] hands out for that kind. *)
Theorem AddPendingResult_rejects_duplicate (type : PendingResultType)
    (first second : MethodResult) (c : CameraImpl.t) :
  CameraImpl.pending_results_ c !! type = Some first →
  ∃ c',
    CameraImpl.AddPendingResult type second c =
      (false, c',
       [ResultError second "Duplicate request" "Method handler already called"]) ∧
    c' = c ∧
    CameraImpl.pending_results_ c' !! type = Some first ∧
    (CameraImpl.GetPendingResultByType type c').1 = Some first.
Proof.
  intros Hfirst. exists c. unfold CameraImpl.AddPendingResult,
    CameraImpl.GetPendingResultByType. by rewrite Hfirst.
Qed.

Lemma AddPendingResult_rejects_duplicate_witness :
  ∃ c',
    CameraImpl.AddPendingResult START_RECORD 20%nat Examples.busy_camera =
      (false, c',
       [ResultError 20%nat "Duplicate request" "Method handler already called"]) ∧
    c' = Examples.busy_camera ∧
    CameraImpl.pending_results_ c' !! START_RECORD = Some 11%nat ∧
    (CameraImpl.GetPendingResultByType START_RECORD c').1 = Some 11%nat.
Proof.
  apply (AddPendingResult_rejects_duplicate START_RECORD 11%nat 20%nat
           Examples.busy_camera).
  reflexivity.
Defined.

(** C4, as stated, fails: a pipeline error that arrives while the camera is
    being created (the create request pending, no camera id assigned yet)
    fails the pending result but sends no "error" notification. *)
Lemma capture_error_before_camera_id_counterexample :
  ∃ s1 s2 effects,
    Camera.InitCamera true 5%nat false RESOLUTION_PRESET_MEDIUM Examples.env
      Examples.created_camera = Camera.Done s1 [] ∧
    CameraImpl.pending_results_ (Camera.camera s1) = {[CREATE_CAMERA := 7%nat]} ∧
    Camera.on_controller
      (CaptureControllerImpl.OnEvent
         (Examples.event MF_CAPTURE_ENGINE_ERROR E_FAIL) Examples.env) s1 =
      Camera.Done s2 effects ∧
    effects = [ResultError 7%nat "capture_error" "Unspecified error"] ∧
    error_notifications effects ≠ 1%nat.
Proof.
  do 3 eexists. split; [vm_compute; reflexivity|].
  split; [vm_compute; reflexivity|].
  split; [vm_compute; reflexivity|].
  split; [reflexivity|]. vm_compute. discriminate.
Qed.

(** C4 (amended). On a pipeline error the camera fails every pending result,
    of every kind, with the "capture_error" code and the error text, one
    [Error] call for each entry of the map, in the ascending order of the
    keys, and leaves the map empty.  Before that it sends one "error"
    notification on its channel if it has a messenger and a camera id that is
    not negative; otherwise it sends none. *)
Theorem OnCaptureError_fails_every_pending_result (error : string)
    (c : CameraImpl.t) :
  let pending := CameraImpl.pending_results_ c in
  let slots := CameraImpl.in_key_order pending in
  let failures :=
    (λ slot, ResultError slot.2 "capture_error" error) <$> slots in
  let notification :=
    match CameraImpl.messenger_ c with
    | Some messenger =>
        if bool_decide (0 ≤ CameraImpl.camera_id_ c)
        then [InvokeMethod messenger
                (CameraImpl.channel_name (CameraImpl.camera_id_ c)) "error"
                (EV_Map [(EV_String "description", EV_String error)])]
        else []
    | None => []
    end in
  ∃ c',
    CameraImpl.OnCaptureError error c = (c', notification ++ failures) ∧
    CameraImpl.pending_results_ c' = ∅ ∧
    length failures = size pending ∧
    StronglySorted
      (λ a b, (PendingResultType_to_nat a < PendingResultType_to_nat b)%nat)
      slots.*1 ∧
    NoDup slots.*1 ∧
    (∀ type result, (type, result) ∈ slots ↔ pending !! type = Some result) ∧
    error_notifications (notification ++ failures) =
      if bool_decide (is_Some (CameraImpl.messenger_ c) ∧
                      0 ≤ CameraImpl.camera_id_ c)
      then 1%nat else 0%nat.
Proof.
  intros pending slots failures notification.
  destruct (pending_slots pending) as (Hsorted & Hnodup & Hlen & Hslots).
  exists (CameraImpl.with_pending_results ∅ c).
  split; [done|]. split; [done|]. split.
  { unfold failures. by rewrite length_fmap. }
  split; [done|]. split; [done|]. split; [done|].
  unfold error_notifications. rewrite filter_app, length_app.
  unfold failures. rewrite failures_are_not_notifications, Nat.add_0_r.
  apply (push_notifications CameraImpl.kErrorEvent
           (EV_Map [(EV_String "description", EV_String error)]) c).
Qed.

(** * The theorems on concrete cameras and controllers *)

Lemma after_reachable ops : CaptureControllerImpl.reachable (Examples.after ops).
Proof.
  unfold Examples.after.
  destruct (CaptureControllerImpl.run ops Examples.new_controller) as [c|] eqn:H.
  - eapply run_reachable; [apply CaptureControllerImpl.reachable_new|exact H].
  - apply CaptureControllerImpl.reachable_new.
Qed.

Lemma dispose_fails_every_pending_result_witness :
  let s := Camera.mk Examples.busy_camera (Some (Examples.recording 5000)) in
  (∀ controller,
     Camera.capture_controller_ s = Some controller →
     CaptureControllerImpl.reachable controller) ∧
  ∃ camera',
    Camera.destructor Examples.env_stop_fails s =
      Camera.Done (Camera.mk camera' None)
        [ResultError 12%nat "Plugin disposed"
           "Plugin disposed before request was handled";
         ResultError 11%nat "Plugin disposed"
           "Plugin disposed before request was handled"] ∧
    CameraImpl.pending_results_ camera' = ∅.
Proof.
  intros s.
  assert (Hreach : ∀ controller,
            Camera.capture_controller_ s = Some controller →
            CaptureControllerImpl.reachable controller).
  { intros controller Hsome.
    rewrite <- (Some_inj _ _ Hsome).
    exact (after_reachable (Examples.start_record 5000)). }
  split; [exact Hreach|].
  destruct (dispose_fails_every_pending_result Examples.env_stop_fails s Hreach)
    as (camera' & Hdispose & Hempty & _).
  exists camera'. split; [exact Hdispose|exact Hempty].
Defined.

Lemma StopRecord_dereferences_null_handler_witness :
  CaptureControllerImpl.capture_engine_state_ Examples.initialized =
    CAPTURE_ENGINE_INITIALIZED ∧
  CaptureControllerImpl.record_handler_ Examples.initialized = None ∧
  CaptureControllerImpl.StopRecord Examples.env Examples.initialized =
    Crashes NullDereference [].
Proof.
  assert (Hstate : CaptureControllerImpl.capture_engine_state_
                     Examples.initialized = CAPTURE_ENGINE_INITIALIZED)
    by (vm_compute; reflexivity).
  assert (Hnone : CaptureControllerImpl.record_handler_ Examples.initialized
                  = None) by (vm_compute; reflexivity).
  split; [exact Hstate|]. split; [exact Hnone|].
  exact (proj1 (StopRecord_dereferences_null_handler Examples.env
                  Examples.initialized Hstate) Hnone).
Defined.

(** C6, as stated, fails: on a device whose native type is 640 wide and 0
    high, the first frame makes the starting preview handler running, but the
    listener is told that starting the preview failed. *)
Lemma first_frame_without_height_counterexample :
  CaptureControllerImpl.reachable Examples.previewing_flat ∧
  CaptureControllerImpl.preview_handler_ Examples.previewing_flat =
    Some (PreviewHandler.mk true PreviewHandler.PREVIEW_STATE__STARTING) ∧
  ∃ c',
    CaptureControllerImpl.UpdateCaptureTime 0 Examples.env
      Examples.previewing_flat =
      Returns () c' [Listener.OnStartPreviewFailed EmptyString] ∧
    CaptureControllerImpl.preview_handler_ c' =
      Some (PreviewHandler.mk true PreviewHandler.PREVIEW_STATE__RUNNING) ∧
    filter (λ call, Listener.is_start_preview_succeeded call = true)
      [Listener.OnStartPreviewFailed EmptyString] = [].
Proof.
  split; [exact (after_reachable _)|]. split; [vm_compute; reflexivity|].
  eexists. split; [vm_compute; reflexivity|]. split; reflexivity.
Qed.

Lemma first_frame_starts_preview_witness :
  let h := PreviewHandler.mk true PreviewHandler.PREVIEW_STATE__STARTING in
  CaptureControllerImpl.reachable Examples.previewing ∧
  CaptureControllerImpl.preview_handler_ Examples.previewing = Some h ∧
  PreviewHandler.IsStarting h = true ∧
  ∃ c' rest,
    CaptureControllerImpl.UpdateCaptureTime 0 Examples.env Examples.previewing =
      Returns () c' (Listener.OnStartPreviewSucceeded 640 480 :: rest) ∧
    CaptureControllerImpl.preview_handler_ c' =
      Some (PreviewHandler.mk true PreviewHandler.PREVIEW_STATE__RUNNING) ∧
    silent rest.
Proof.
  intros h.
  assert (Hreach : CaptureControllerImpl.reachable Examples.previewing)
    by exact (after_reachable _).
  assert (Hhandler : CaptureControllerImpl.preview_handler_ Examples.previewing
                     = Some h) by (vm_compute; reflexivity).
  assert (Hstarting : PreviewHandler.IsStarting h = true)
    by (vm_compute; reflexivity).
  split; [exact Hreach|]. split; [exact Hhandler|]. split; [exact Hstarting|].
  exact (proj1 (proj2 (first_frame_starts_preview 0 Examples.env
                         Examples.previewing h Hreach Hhandler Hstarting))).
Defined.

Lemma OnRecordStopped_notifies_witness :
  let h :=
    SpecRecordHandler.mk false SpecRecordHandler.RECORD_STATE__STARTED
      SpecRecordHandler.RECORDING_TYPE_TIMED "clip.mp4" 5000 None 0 in
  CaptureControllerImpl.capture_controller_listener_ (Examples.recording 5000)
    = true ∧
  CaptureControllerImpl.record_handler_ (Examples.recording 5000) = Some h ∧
  ∃ c',
    CaptureControllerImpl.OnRecordStopped true EmptyString
      (Examples.recording 5000) =
      Returns () c'
        [Listener.OnStopRecordSucceeded "clip.mp4";
         Listener.OnVideoRecordSucceeded "clip.mp4" 0] ∧
    CaptureControllerImpl.record_handler_ c' =
      Some (SpecRecordHandler.OnRecordStopped h).
Proof.
  intros h.
  assert (Hlistener : CaptureControllerImpl.capture_controller_listener_
                        (Examples.recording 5000) = true)
    by (vm_compute; reflexivity).
  assert (Hhandler : CaptureControllerImpl.record_handler_
                       (Examples.recording 5000) = Some h)
    by (vm_compute; reflexivity).
  split; [exact Hlistener|]. split; [exact Hhandler|].
  exact (proj1 (OnRecordStopped_notifies true EmptyString
                  (Examples.recording 5000) h Hlistener Hhandler)).
Defined.

Lemma PausePreview_dereferences_null_handler_witness :
  CaptureControllerImpl.preview_handler_ Examples.initialized = None ∧
  CaptureControllerImpl.PausePreview Examples.initialized =
    Crashes NullDereference [] ∧
  CaptureControllerImpl.ResumePreview Examples.initialized =
    Crashes NullDereference [].
Proof.
  assert (Hnone : CaptureControllerImpl.preview_handler_ Examples.initialized
                  = None) by (vm_compute; reflexivity).
  split; [exact Hnone|].
  exact (PausePreview_dereferences_null_handler Examples.initialized Hnone).
Defined.

(** C9, as stated, fails: the preview frames are 2 × 2 pixels, the raw buffer
    holds the one pixel that was delivered; raw data exists and the preview
    width and height are positive, but the loop leaves the raw buffer at its
    second pixel and no buffer is returned. *)
Lemma ConvertPixelBufferForFlutter_short_frame_counterexample :
  CaptureControllerImpl.reachable Examples.with_short_frame ∧
  CaptureControllerImpl.source_buffer_data_ Examples.with_short_frame =
    Some [10; 20; 30; 0] ∧
  CaptureControllerImpl.source_buffer_size_ Examples.with_short_frame = 4 ∧
  CaptureControllerImpl.preview_frame_width_ Examples.with_short_frame = 2 ∧
  CaptureControllerImpl.preview_frame_height_ Examples.with_short_frame = 2 ∧
  CaptureControllerImpl.ConvertPixelBufferForFlutter 2 2
    Examples.with_short_frame = Crashes BufferOverrun [].
Proof.
  split; [exact (after_reachable _)|]. repeat split; vm_compute; reflexivity.
Qed.

Lemma ConvertPixelBufferForFlutter_full_frame_witness :
  CaptureControllerImpl.source_buffer_data_ Examples.with_frame =
    Some Examples.two_pixels ∧
  0 < CaptureControllerImpl.source_buffer_size_ Examples.with_frame ∧
  0 < CaptureControllerImpl.preview_frame_width_ Examples.with_frame ∧
  0 < CaptureControllerImpl.preview_frame_height_ Examples.with_frame ∧
  4 * (CaptureControllerImpl.preview_frame_width_ Examples.with_frame *
       CaptureControllerImpl.preview_frame_height_ Examples.with_frame)
    ≤ Z.of_nat (length Examples.two_pixels) ≤ UINT32_MAX ∧
  ∃ dest,
    CaptureControllerImpl.ConvertPixelBufferForFlutter 100 100
      Examples.with_frame =
      Returns (Some {| buffer := dest; width := 2; height := 1 |})
        (CaptureControllerImpl.set_dest_buffer_ (Some dest) Examples.with_frame)
        [] ∧
    Z.of_nat (length dest) = 8.
Proof.
  assert (Hsrc : CaptureControllerImpl.source_buffer_data_ Examples.with_frame =
                 Some Examples.two_pixels) by (vm_compute; reflexivity).
  assert (Hsize : 0 < CaptureControllerImpl.source_buffer_size_
                        Examples.with_frame) by (vm_compute; reflexivity).
  assert (Hwidth : 0 < CaptureControllerImpl.preview_frame_width_
                         Examples.with_frame) by (vm_compute; reflexivity).
  assert (Hheight : 0 < CaptureControllerImpl.preview_frame_height_
                          Examples.with_frame) by (vm_compute; reflexivity).
  assert (Hfull :
            4 * (CaptureControllerImpl.preview_frame_width_ Examples.with_frame *
                 CaptureControllerImpl.preview_frame_height_ Examples.with_frame)
              ≤ Z.of_nat (length Examples.two_pixels) ≤ UINT32_MAX)
    by (vm_compute; split; discriminate).
  repeat (split; [assumption|]).
  destruct (proj2 (ConvertPixelBufferForFlutter_full_frame 100 100
                     Examples.with_frame) Examples.two_pixels Hsrc Hsize Hwidth
              Hheight Hfull) as (dest & Hconvert & Hlength & _).
  exists dest. split; [exact Hconvert|exact Hlength].
Defined.

Lemma OnVideoRecordFailed_is_no_op_witness :
  let h :=
    SpecRecordHandler.mk false SpecRecordHandler.RECORD_STATE__STARTED
      SpecRecordHandler.RECORDING_TYPE_TIMED "clip.mp4" 5000 None 0 in
  CaptureControllerImpl.capture_controller_listener_ (Examples.recording 5000)
    = true ∧
  CaptureControllerImpl.record_handler_ (Examples.recording 5000) = Some h ∧
  SpecRecordHandler.IsTimedRecording h = true ∧
  SpecRecordHandler.StopRecord Examples.env_stop_fails h =
    (false, SpecRecordHandler.with_state SpecRecordHandler.RECORD_STATE__STOPPING h) ∧
  CameraImpl.OnVideoRecordFailed "Failed to record video" Examples.busy_camera =
    (Examples.busy_camera, []) ∧
  ∃ controller',
    Camera.on_controller
      (CaptureControllerImpl.StopTimedRecord Examples.env_stop_fails)
      (Camera.mk Examples.busy_camera (Some (Examples.recording 5000))) =
      Camera.Done (Camera.mk Examples.busy_camera (Some controller')) [] ∧
    CaptureControllerImpl.record_handler_ controller' = None.
Proof.
  intros h.
  assert (Hlistener : CaptureControllerImpl.capture_controller_listener_
                        (Examples.recording 5000) = true)
    by (vm_compute; reflexivity).
  assert (Hhandler : CaptureControllerImpl.record_handler_
                       (Examples.recording 5000) = Some h)
    by (vm_compute; reflexivity).
  assert (Htimed : SpecRecordHandler.IsTimedRecording h = true)
    by (vm_compute; reflexivity).
  assert (Hstop : SpecRecordHandler.StopRecord Examples.env_stop_fails h =
                  (false, SpecRecordHandler.with_state
                            SpecRecordHandler.RECORD_STATE__STOPPING h))
    by (vm_compute; reflexivity).
  repeat (split; [assumption|]).
  pose proof (@OnVideoRecordFailed_is_no_op SpecRecordHandler.api
                SpecPhotoHandler.api "Failed to record video"
                Examples.busy_camera) as (Hnoop & _ & Hstopped & _).
  split; [exact Hnoop|].
  exact (Hstopped Examples.env_stop_fails (Examples.recording 5000) h _
           Hlistener Hhandler Htimed Hstop).
Defined.

(** The medium preset on a device offering 320 × 240, 640 × 480 and
    1280 × 720: the type chosen for the preview is 640 × 480. *)
Example FindBestMediaType_medium :
  FindBestMediaType MF_CAPTURE_ENGINE_PREFERRED_SOURCE_STREAM_FOR_VIDEO_PREVIEW
    (capture_source Examples.env) None 480 =
  (true, Some Examples.vga, (640, 480)).
Proof. vm_compute. reflexivity. Qed.

(** A recording of at most 5000 ms: once the frames span more than that, the
    controller stops it by itself, and the record-stopped event that follows
    reaches the listener on both channels. *)
Example timed_recording_stops_by_itself :
  CaptureControllerImpl.calls_of
    (Examples.start_record 5000 ++
     [(CaptureControllerImpl.op_UpdateCaptureTime 1000, Examples.env);
      (CaptureControllerImpl.op_UpdateCaptureTime 5001001, Examples.env);
      (CaptureControllerImpl.op_OnEvent
         (Examples.event MF_CAPTURE_ENGINE_RECORD_STOPPED S_OK), Examples.env)])
    Examples.new_controller =
  Some [Listener.OnCreateCaptureEngineSucceeded 1;
        Listener.OnStartRecordSucceeded;
        Listener.OnStopRecordSucceeded "clip.mp4";
        Listener.OnVideoRecordSucceeded "clip.mp4" 5000].
Proof. vm_compute. reflexivity. Qed.

(** C5, as stated, fails: the device offers 1280 × 720 only, so that no
    candidate satisfies the cap of 480, but the target holds the 640 × 480
    type of an earlier search; the search reports success, returns that type,
    and gives 0 by 0 as the best size.  A controller gets there when its
    first search found a preview type and no capture type: the next search
    starts from the preview type it kept. *)
Lemma FindBestMediaType_keeps_earlier_type_counterexample :
  let stream := MF_CAPTURE_ENGINE_PREFERRED_SOURCE_STREAM_FOR_VIDEO_PREVIEW in
  Forall
    (λ media_type, ∀ w h,
       MF_MT_FRAME_SIZE media_type = Some (w, h) → ¬ h ≤ 480)
    (capture_source MoreExamples.env_hd_only stream) ∧
  FindBestMediaType stream (capture_source MoreExamples.env_hd_only)
    (Some Examples.vga) 480 = (true, Some Examples.vga, (0, 0)) ∧
  CaptureControllerImpl.reachable MoreExamples.preview_type_only ∧
  CaptureControllerImpl.base_preview_media_type_
    MoreExamples.preview_type_only = Some Examples.vga ∧
  CaptureControllerImpl.GetMaxPreviewHeight MoreExamples.preview_type_only =
    480 ∧
  ∃ c' : Examples.Controller,
    CaptureControllerImpl.FindBaseMediaTypes MoreExamples.env_hd_only
      MoreExamples.preview_type_only = Returns S_OK c' [] ∧
    CaptureControllerImpl.base_preview_media_type_ c' = Some Examples.vga ∧
    CaptureControllerImpl.preview_frame_width_ c' = 0 ∧
    CaptureControllerImpl.preview_frame_height_ c' = 0.
Proof.
  intros stream. split.
  { repeat constructor. intros w h [= <- <-]. lia. }
  split; [vm_compute; reflexivity|].
  split; [exact (after_reachable _)|].
  split; [vm_compute; reflexivity|].
  split; [vm_compute; reflexivity|].
  eexists. split; [vm_compute; reflexivity|].
  repeat split; vm_compute; reflexivity.
Qed.

(** * More on the pending results of a camera *)

Section MoreCameraFacts.

Import CameraImpl.
Implicit Types c : CameraImpl.t.
Implicit Types m : gmap PendingResultType MethodResult.

Lemma removed_slot m type result :
  m !! type = Some result → m ∖ delete type m = {[type := result]}.
Proof.
  intros Hm. apply map_eq. intros k.
  rewrite lookup_difference, lookup_delete.
  destruct (decide (type = k)) as [->|Hne].
  - by rewrite lookup_singleton_eq.
  - rewrite lookup_singleton_ne by done. by destruct (m !! k).
Qed.

(** Entries leave a map in stages. *)
Lemma map_to_list_difference_stages m m' m'' :
  m' ⊆ m → m'' ⊆ m' →
  map_to_list (m ∖ m'') ≡ₚ map_to_list (m ∖ m') ++ map_to_list (m' ∖ m'').
Proof.
  intros H1 H2. apply NoDup_Permutation.
  - apply NoDup_map_to_list.
  - apply NoDup_app. split; [apply NoDup_map_to_list|].
    split; [|apply NoDup_map_to_list].
    intros [k v]. rewrite !elem_of_map_to_list, !lookup_difference_Some.
    intros [_ Hnone] [Hsome _]. congruence.
  - intros [k v].
    rewrite elem_of_app, !elem_of_map_to_list, !lookup_difference_Some.
    split.
    + intros [Hm Hm'']. destruct (m' !! k) as [v'|] eqn:Hm'; [|by left].
      right. split; [|done].
      pose proof (lookup_weaken _ _ _ _ Hm' H1). congruence.
    + intros [[Hm Hm']|[Hm' Hm'']].
      * split; [done|]. destruct (m'' !! k) as [v''|] eqn:Hm''; [|done].
        pose proof (lookup_weaken _ _ _ _ Hm'' H2). congruence.
      * split; [|done]. by eapply lookup_weaken.
Qed.

Lemma resolved_app effects1 effects2 :
  resolved (effects1 ++ effects2) = resolved effects1 ++ resolved effects2.
Proof. apply omap_app. Qed.

Lemma resolved_push method arguments c : resolved (push method arguments c) = [].
Proof.
  unfold push. destruct (messenger_ c); [|done]. by case_bool_decide.
Qed.

Lemma resolved_failures error_id description
    (slots : list (PendingResultType * MethodResult)) :
  resolved ((λ slot, ResultError slot.2 error_id description) <$> slots) =
  slots.*2.
Proof. induction slots as [|slot slots IH]; [done|]. cbn. by f_equal. Qed.

(** What [resolve] does, by whether the kind has a pending result. *)
Lemma resolve_spec type answer c :
  resolve type answer c =
    match pending_results_ c !! type with
    | Some result =>
        (with_pending_results (delete type (pending_results_ c)) c,
         [answer result])
    | None => (c, [])
    end.
Proof.
  unfold resolve, GetPendingResultByType.
  by destruct (pending_results_ c !! type).
Qed.

Lemma with_pending_results_same c :
  with_pending_results (pending_results_ c) c = c.
Proof. by destruct c. Qed.

(** X1. A request of a kind that has no pending result is stored:
    [AddPendingResult] returns true without any host effect, the kind is then
    pending, the other kinds are as before, and taking the result out again
    returns it and gives back the camera as it was. *)
Theorem AddPendingResult_then_get (type : PendingResultType)
    (result : MethodResult) c :
  pending_results_ c !! type = None →
  ∃ c1,
    AddPendingResult type result c = (true, c1, []) ∧
    HasPendingResultByType type c1 = true ∧
    (∀ other, other ≠ type →
       pending_results_ c1 !! other = pending_results_ c !! other) ∧
    GetPendingResultByType type c1 = (Some result, c).
Proof.
  intros Hnone. eexists. unfold AddPendingResult. rewrite Hnone.
  split; [reflexivity|]. split; [|split].
  - unfold HasPendingResultByType. cbn. rewrite lookup_insert_eq.
    by apply bool_decide_eq_true_2.
  - intros other Hother. cbn. by rewrite lookup_insert_ne.
  - unfold GetPendingResultByType. cbn. rewrite lookup_insert_eq.
    rewrite delete_insert_eq, (delete_id _ _ Hnone). f_equal. by destruct c.
Qed.

Lemma with_camera_id_same c : with_camera_id (camera_id_ c) c = c.
Proof. by destruct c. Qed.

(** The callbacks that answer a kind of request have one shape. *)
Lemma dispatch_resolves (call : Listener.call) (type : PendingResultType) :
  kind_of call = Some type →
  ∃ answer,
    (∀ r, resolved_result (answer r) = Some r) ∧
    ∀ c, dispatch call c =
           resolve type answer (with_camera_id (camera_id_after call c) c).
Proof.
  intros Hkind.
  destruct call; simplify_eq/=;
    (eexists; split; [|intros c; rewrite ?with_camera_id_same; reflexivity]);
    done.
Qed.

(** X2. A listener callback that answers a kind of request does nothing when
    no result of that kind is pending: no host effect, the same pending
    results; only the engine's creation still records the camera id. *)
Theorem callback_without_pending_result (call : Listener.call)
    (type : PendingResultType) c :
  kind_of call = Some type →
  pending_results_ c !! type = None →
  ∃ c',
    dispatch call c = (c', []) ∧
    pending_results_ c' = pending_results_ c ∧
    messenger_ c' = messenger_ c ∧
    camera_id_ c' = camera_id_after call c.
Proof.
  intros Hkind Hnone.
  destruct (dispatch_resolves call type Hkind) as (answer & _ & ->).
  rewrite resolve_spec. cbn. rewrite Hnone. by eexists.
Qed.

(** X3. A listener callback that answers a kind of request with a pending
    result answers that result, with one host effect, and removes it from the
    map; the same callback once more has no host effect. *)
Theorem callback_answers_its_slot_once (call : Listener.call)
    (type : PendingResultType) (result : MethodResult) c :
  kind_of call = Some type →
  pending_results_ c !! type = Some result →
  ∃ c' effect,
    dispatch call c = (c', [effect]) ∧
    resolved_result effect = Some result ∧
    pending_results_ c' = delete type (pending_results_ c) ∧
    (dispatch call c').2 = [].
Proof.
  intros Hkind Hsome.
  destruct (dispatch_resolves call type Hkind) as (answer & Hanswer & Hcall).
  exists (with_pending_results (delete type (pending_results_ c))
            (with_camera_id (camera_id_after call c) c)), (answer result).
  rewrite !Hcall, !resolve_spec. cbn. rewrite Hsome, lookup_delete_eq.
  by rewrite Hanswer.
Qed.

Lemma dispatch_answers_what_leaves (call : Listener.call) c :
  pending_results_ (dispatch call c).1 ⊆ pending_results_ c ∧
  resolved (dispatch call c).2 ≡ₚ
    (map_to_list (pending_results_ c ∖ pending_results_ (dispatch call c).1)).*2.
Proof.
  assert (Hresolve : ∀ type answer c0,
            (∀ r, resolved_result (answer r) = Some r) →
            pending_results_ (resolve type answer c0).1 ⊆ pending_results_ c0 ∧
            resolved (resolve type answer c0).2 ≡ₚ
              (map_to_list (pending_results_ c0
                            ∖ pending_results_ (resolve type answer c0).1)).*2).
  { intros type answer c0 Hanswer. rewrite resolve_spec.
    destruct (pending_results_ c0 !! type) as [r|] eqn:Hr; cbn.
    - split; [apply delete_subseteq|].
      rewrite (removed_slot _ _ _ Hr), map_to_list_singleton.
      unfold resolved. cbn. by rewrite Hanswer.
    - split; [done|]. by rewrite map_difference_diag, map_to_list_empty. }
  destruct call; cbn [dispatch];
    try (apply Hresolve; done).
  - apply (Hresolve CREATE_CAMERA _ (with_camera_id texture_id c)). done.
  - cbn. split; [done|]. rewrite resolved_push.
    by rewrite map_difference_diag, map_to_list_empty.
  - cbn. split; [done|]. by rewrite map_difference_diag, map_to_list_empty.
  - unfold OnCaptureError, SendErrorForPendingResults.
    cbn [fst snd pending_results_ with_pending_results].
    split; [apply map_empty_subseteq|].
    rewrite resolved_app, resolved_push. cbn [app].
    by rewrite resolved_failures, map_difference_empty,
      in_key_order_map_to_list.
Qed.

(** X4. Whatever calls a camera receives from its controller, in any number
    and order: no call adds a pending result, and the method results answered
    by the host effects are exactly the entries that left the map, one answer
    for each. *)
Theorem callbacks_answer_what_leaves (calls : list Listener.call) c :
  pending_results_ (dispatch_all calls c).1 ⊆ pending_results_ c ∧
  resolved (dispatch_all calls c).2 ≡ₚ
    (map_to_list
       (pending_results_ c ∖ pending_results_ (dispatch_all calls c).1)).*2.
Proof.
  revert c. induction calls as [|call calls IH]; intros c.
  - cbn. split; [done|]. by rewrite map_difference_diag, map_to_list_empty.
  - cbn [dispatch_all].
    pose proof (dispatch_answers_what_leaves call c) as [Hsub1 Hperm1].
    destruct (dispatch call c) as [c1 effects1]. cbn [fst snd] in *.
    pose proof (IH c1) as [Hsub2 Hperm2].
    destruct (dispatch_all calls c1) as [c2 effects2]. cbn [fst snd] in *.
    split; [by etrans|].
    rewrite resolved_app, Hperm1, Hperm2.
    rewrite (map_to_list_difference_stages _ _ _ Hsub1 Hsub2).
    by rewrite fmap_app.
Qed.

(** X5. Once the engine's creation gave a camera with a messenger a texture
    id that is not negative, the camera's notifications go out on the channel
    named by the base name followed by that id in decimal: a timed
    recording's result is one "video_recorded" message with path and
    duration, and a pipeline error is one "error" message followed by the
    failure of every result still pending, which are those that were pending
    before the creation but for the creation request, in the ascending order
    of the keys, and by nothing else. *)
Theorem notifications_use_the_texture_id (messenger : BinaryMessenger)
    (texture_id : Z) (filepath error : string) (video_duration : Z) c :
  messenger_ c = Some messenger →
  0 ≤ texture_id →
  let c1 := (OnCreateCaptureEngineSucceeded texture_id c).1 in
  let channel := "flutter.io/cameraPlugin/camera" +:+ pretty texture_id in
  OnVideoRecordSucceeded filepath video_duration c1 =
    (c1, [InvokeMethod messenger channel "video_recorded"
            (EV_Map [(EV_String "path", EV_String filepath);
                     (EV_String "maxVideoDuration", EV_Int64 video_duration)])]) ∧
  OnCaptureError error c1 =
    (with_pending_results ∅ c1,
     InvokeMethod messenger channel "error"
       (EV_Map [(EV_String "description", EV_String error)])
     :: ((λ slot, ResultError slot.2 "capture_error" error)
           <$> in_key_order (delete CREATE_CAMERA (pending_results_ c)))).
Proof.
  intros Hmessenger Hid c1 channel.
  assert (Hm1 : messenger_ c1 = Some messenger).
  { unfold c1, OnCreateCaptureEngineSucceeded. rewrite resolve_spec. cbn.
    by destruct (pending_results_ c !! CREATE_CAMERA). }
  assert (Hid1 : camera_id_ c1 = texture_id).
  { unfold c1, OnCreateCaptureEngineSucceeded. rewrite resolve_spec. cbn.
    by destruct (pending_results_ c !! CREATE_CAMERA). }
  assert (Hpending1 : pending_results_ c1 =
                      delete CREATE_CAMERA (pending_results_ c)).
  { unfold c1, OnCreateCaptureEngineSucceeded. rewrite resolve_spec. cbn.
    destruct (pending_results_ c !! CREATE_CAMERA) eqn:Hcreate; cbn; [done|].
    by rewrite delete_id. }
  split.
  - unfold OnVideoRecordSucceeded, push. rewrite Hm1, Hid1.
    by rewrite bool_decide_eq_true_2.
  - unfold OnCaptureError, SendErrorForPendingResults, push.
    rewrite Hm1, Hid1, Hpending1, bool_decide_eq_true_2 by done.
    reflexivity.
Qed.

End MoreCameraFacts.

(** * More on the choice of a media type *)

Lemma scan_media_types_keeps_target max_height types target best_width
    best_height :
  is_Some target →
  is_Some (scan_media_types max_height types target best_width best_height).1.
Proof.
  revert target best_width best_height.
  induction types as [|media_type types IH]; intros target bw bh Htarget;
    [done|].
  cbn. destruct (MF_MT_FRAME_SIZE media_type) as [[w h]|]; [|by apply IH].
  destruct (improves _ _ _ _ _); by apply IH.
Qed.

Lemma scan_media_types_finds max_height types :
  is_Some (scan_media_types max_height types None 0 0).1 ↔
  Exists (λ media_type, accepts max_height (0, 0) media_type = true) types.
Proof.
  induction types as [|media_type types IH].
  - cbn. rewrite Exists_nil. split; [by intros [? [=]]|done].
  - rewrite Exists_cons. cbn [scan_media_types]. unfold accepts at 1.
    cbn [fst snd].
    destruct (MF_MT_FRAME_SIZE media_type) as [[w h]|].
    + destruct (improves max_height 0 0 w h).
      * split; [by left|]. intros _.
        by apply scan_media_types_keeps_target.
      * rewrite IH. split; [by right|]. by intros [[=]|?].
    + rewrite IH. split; [by right|]. by intros [[=]|?].
Qed.

Lemma FindBestMediaType_found stream source previous max_height found target
    best :
  FindBestMediaType stream source previous max_height = (found, target, best) →
  found = bool_decide (is_Some target) ∧ (is_Some previous → is_Some target).
Proof.
  unfold FindBestMediaType.
  pose proof (scan_media_types_keeps_target max_height (source stream)
                previous 0 0) as Hkeep.
  destruct (scan_media_types _ _ _ _ _) as [target' best'].
  intros [= <- <- <-]. done.
Qed.

(** X6. Starting without a media type, the search succeeds exactly when the
    stream offers a type whose frame size can be read, whose height is within
    the limit, and whose width or height is not zero. *)
Theorem FindBestMediaType_succeeds_iff stream source max_height :
  (FindBestMediaType stream source None max_height).1.1 = true ↔
  ∃ media_type w h,
    media_type ∈ source stream ∧
    MF_MT_FRAME_SIZE media_type = Some (w, h) ∧
    h ≤ max_height ∧ (0 < w ∨ 0 < h).
Proof.
  unfold FindBestMediaType.
  pose proof (scan_media_types_finds max_height (source stream)) as Hfinds.
  destruct (scan_media_types _ _ _ _ _) as [target best].
  cbn [fst snd] in *.
  rewrite bool_decide_eq_true, Hfinds, Exists_exists.
  split.
  - intros (media_type & Hin & Hacc).
    apply accepts_spec in Hacc as (w & h & ? & ? & ?). by exists media_type, w, h.
  - intros (media_type & w & h & Hin & Hsize & ? & ?).
    exists media_type. split; [done|]. apply accepts_spec. by exists w, h.
Qed.

(** X7. A search that starts from a media type found earlier reports success
    whatever the stream offers; when the stream offers nothing acceptable the
    earlier type is kept and the best size comes back as 0 by 0. *)
Theorem FindBestMediaType_from_earlier_type stream source earlier max_height :
  (FindBestMediaType stream source (Some earlier) max_height).1.1 = true ∧
  (Forall (λ media_type, accepts max_height (0, 0) media_type = false)
     (source stream) →
   FindBestMediaType stream source (Some earlier) max_height =
   (true, Some earlier, (0, 0))).
Proof.
  split.
  - destruct (FindBestMediaType _ _ _ _) as [[found target] best] eqn:Hfind.
    apply FindBestMediaType_found in Hfind as [-> Hkeep].
    cbn. apply bool_decide_eq_true, Hkeep. done.
  - intros Hrej. unfold FindBestMediaType.
    by rewrite (scan_media_types_rejected max_height _ (Some earlier) (0, 0)).
Qed.

Lemma FindBestMediaType_chosen stream source max_height found target best :
  FindBestMediaType stream source None max_height = (found, target, best) →
  found = true →
  ∃ chosen,
    target = Some chosen ∧ chosen ∈ source stream ∧
    MF_MT_FRAME_SIZE chosen = Some best ∧ best.2 ≤ max_height.
Proof.
  unfold FindBestMediaType.
  pose proof (scan_media_types_last max_height (source stream) None (0, 0))
    as Hlast.
  cbn zeta in Hlast. cbn [fst snd] in Hlast.
  destruct (scan_media_types _ _ _ _ _) as [target' best'].
  intros [= <- <- <-] Hfound. apply bool_decide_eq_true in Hfound.
  destruct Hlast as [[[= -> ->] _]|Hlast].
  - by destruct Hfound.
  - destruct Hlast as (before & chosen & after & Htypes & H1 & H2 & H3 & _).
    cbn [fst snd] in *. exists chosen. rewrite Htypes.
    split; [done|]. split; [set_solver|]. split; [done|].
    apply accepts_spec in H3 as (w & h & Hsize & Hh & _).
    rewrite H2 in Hsize. by injection Hsize as ->.
Qed.

(** * More on the preview handler *)

Lemma InitPreviewSink_attaches env base h hr h1 :
  PreviewHandler.InitPreviewSink env base h = Some (hr, h1) →
  FAILED hr = false →
  PreviewHandler.preview_sink_ h1 = true.
Proof.
  unfold PreviewHandler.InitPreviewSink.
  destruct (PreviewHandler.preview_sink_ h) eqn:Hsink.
  { by intros [= <- <-]. }
  repeat (case_match; [intros [= <- <-]; congruence|]).
  case_match; [|done].
  repeat (case_match; [intros [= <- <-]; cbn; congruence|]).
  by intros [= <- <-].
Qed.

Lemma StartPreview_begun env base h h' :
  PreviewHandler.StartPreview env base h = Some (true, h') → preview_begun h'.
Proof.
  unfold PreviewHandler.StartPreview, preview_begun.
  pose proof (InitPreviewSink_attaches env base h) as Hsink.
  destruct (PreviewHandler.InitPreviewSink env base h) as [[hr h1]|]; [|done].
  specialize (Hsink hr h1 eq_refl).
  destruct (FAILED hr); [done|]. intros [= _ <-]. cbn. auto.
Qed.

Lemma StopPreview_begun env h :
  preview_begun h → preview_begun (PreviewHandler.StopPreview env h).2.
Proof.
  unfold PreviewHandler.StopPreview, preview_begun. intros [? ?].
  case_match; cbn; auto.
Qed.

Lemma PausePreview_begun h :
  preview_begun h → preview_begun (PreviewHandler.PausePreview h).2.
Proof.
  unfold PreviewHandler.PausePreview, preview_begun. intros [? ?].
  case_match; cbn; auto.
Qed.

Lemma ResumePreview_begun h :
  preview_begun h → preview_begun (PreviewHandler.ResumePreview h).2.
Proof.
  unfold PreviewHandler.ResumePreview, preview_begun. intros [? ?].
  case_match; cbn; auto.
Qed.

Lemma OnPreviewStarted_begun h :
  preview_begun h → preview_begun (PreviewHandler.OnPreviewStarted h).
Proof.
  unfold PreviewHandler.OnPreviewStarted, preview_begun. intros [? ?].
  case_match; cbn; auto.
Qed.


(** [BuildMediaTypeForVideoPreview] on a media type returns the first
    failure of its four native calls, or the status of the last. *)
Lemma BuildMediaTypeForVideoPreview_succeeds env media_type :
  ∃ hr,
    PreviewHandler.BuildMediaTypeForVideoPreview env (Some media_type) =
      Some hr ∧
    FAILED hr =
      negb (negb (FAILED (hr_MFCreateMediaType env)) &&
            negb (FAILED (hr_CopyAllItems env)) &&
            negb (FAILED (hr_SetGUID env)) &&
            negb (FAILED (hr_SetUINT32 env))).
Proof.
  unfold PreviewHandler.BuildMediaTypeForVideoPreview.
  destruct (FAILED (hr_MFCreateMediaType env)) eqn:H1; [by eexists|].
  destruct (FAILED (hr_CopyAllItems env)) eqn:H2; [by eexists|].
  destruct (FAILED (hr_SetGUID env)) eqn:H3; [by eexists|].
  destruct (FAILED (hr_SetUINT32 env)) eqn:H4; by eexists.
Qed.

(** Whether the ten native calls of a preview start all succeed. *)
Lemma StartPreview_new env media_type :
  let started :=
    negb (FAILED (hr_GetSink env)) && negb (FAILED (hr_As_preview_sink env)) &&
    negb (FAILED (hr_RemoveAllStreams env)) &&
    (negb (FAILED (hr_MFCreateMediaType env)) &&
     negb (FAILED (hr_CopyAllItems env)) &&
     negb (FAILED (hr_SetGUID env)) &&
     negb (FAILED (hr_SetUINT32 env))) &&
    negb (FAILED (hr_AddStream env)) &&
    negb (FAILED (hr_SetSampleCallback env)) &&
    SUCCEEDED (hr_StartPreview env) in
  ∃ h,
    PreviewHandler.StartPreview env (Some media_type) PreviewHandler.new =
      Some (started, h) ∧
    (started = true →
     h = PreviewHandler.mk true PreviewHandler.PREVIEW_STATE__STARTING).
Proof.
  unfold PreviewHandler.StartPreview, PreviewHandler.InitPreviewSink.
  cbn [PreviewHandler.preview_sink_ PreviewHandler.new].
  destruct (BuildMediaTypeForVideoPreview_succeeds env media_type)
    as (hr & -> & Hhr).
  destruct (FAILED (hr_GetSink env)) eqn:H1; cbn; rewrite ?H1;
    [by eexists|].
  destruct (FAILED (hr_As_preview_sink env)) eqn:H2; cbn; rewrite ?H2;
    [by eexists|].
  destruct (FAILED (hr_RemoveAllStreams env)) eqn:H3; cbn; rewrite ?H3;
    [by eexists|].
  rewrite Hhr.
  destruct (_ && _ && _ && _); cbn; rewrite ?Hhr; cbn; [|by eexists].
  destruct (FAILED (hr_AddStream env)) eqn:H5; cbn; rewrite ?H5;
    [by eexists|].
  destruct (FAILED (hr_SetSampleCallback env)) eqn:H6; cbn; rewrite ?H6;
    by eexists.
Qed.

(** Without a media type, a preview start calls through the null pointer as
    soon as the sink is obtained and a media type can be created. *)
Lemma StartPreview_null env :
  let reached :=
    negb (FAILED (hr_GetSink env)) && negb (FAILED (hr_As_preview_sink env)) &&
    negb (FAILED (hr_RemoveAllStreams env)) &&
    negb (FAILED (hr_MFCreateMediaType env)) in
  if reached
  then PreviewHandler.StartPreview env None PreviewHandler.new = None
  else ∃ h,
         PreviewHandler.StartPreview env None PreviewHandler.new =
           Some (false, h).
Proof.
  unfold PreviewHandler.StartPreview, PreviewHandler.InitPreviewSink,
    PreviewHandler.BuildMediaTypeForVideoPreview.
  cbn [PreviewHandler.preview_sink_ PreviewHandler.new].
  destruct (FAILED (hr_GetSink env)) eqn:H1; cbn; rewrite ?H1;
    [by eexists|].
  destruct (FAILED (hr_As_preview_sink env)) eqn:H2; cbn; rewrite ?H2;
    [by eexists|].
  destruct (FAILED (hr_RemoveAllStreams env)) eqn:H3; cbn; rewrite ?H3;
    [by eexists|].
  destruct (FAILED (hr_MFCreateMediaType env)) eqn:H4; cbn; rewrite ?H4;
    [by eexists|done].
Qed.

(** X22. After [StopPreview], whatever it returned, the handler refuses a
    further stop, a pause and a resume and keeps its sink; a handler that was
    starting, running or paused is then stopping, also when the engine failed
    to stop the preview, and the call returned whether the engine
    succeeded. *)
Theorem StopPreview_is_final env env' h :
  let h' := (PreviewHandler.StopPreview env h).2 in
  PreviewHandler.StopPreview env' h' = (false, h') ∧
  PreviewHandler.PausePreview h' = (false, h') ∧
  PreviewHandler.ResumePreview h' = (false, h') ∧
  PreviewHandler.preview_sink_ h' = PreviewHandler.preview_sink_ h ∧
  (PreviewHandler.preview_state_ h = PreviewHandler.PREVIEW_STATE__STARTING ∨
   PreviewHandler.preview_state_ h = PreviewHandler.PREVIEW_STATE__RUNNING ∨
   PreviewHandler.preview_state_ h = PreviewHandler.PREVIEW_STATE__PAUSED →
   PreviewHandler.StopPreview env h =
     (SUCCEEDED (hr_StopPreview env),
      PreviewHandler.with_state PreviewHandler.PREVIEW_STATE__STOPPING h)).
Proof.
  destruct h as [sink state].
  unfold PreviewHandler.StopPreview, PreviewHandler.PausePreview,
    PreviewHandler.ResumePreview.
  destruct state; cbn; repeat split; try done;
    intros [[=]|[[=]|[=]]].
Qed.

(** X23. When the sink is obtained and its stream cannot be added,
    [StartPreview] fails but the handler keeps the sink; a further
    [StartPreview] on that handler, whatever media type it is given, then
    skips the setup of the sink, with no stream added and no sample callback
    set, and returns whether the engine started the preview. *)
Theorem StartPreview_after_failed_AddStream env env' media_type base' h :
  PreviewHandler.preview_sink_ h = false →
  FAILED (hr_GetSink env) = false →
  FAILED (hr_As_preview_sink env) = false →
  FAILED (hr_RemoveAllStreams env) = false →
  FAILED (hr_MFCreateMediaType env) = false →
  FAILED (hr_CopyAllItems env) = false →
  FAILED (hr_SetGUID env) = false →
  FAILED (hr_SetUINT32 env) = false →
  FAILED (hr_AddStream env) = true →
  let h1 := PreviewHandler.with_sink true h in
  PreviewHandler.StartPreview env (Some media_type) h = Some (false, h1) ∧
  PreviewHandler.StartPreview env' base' h1 =
    Some (SUCCEEDED (hr_StartPreview env'),
          PreviewHandler.with_state PreviewHandler.PREVIEW_STATE__STARTING h1).
Proof.
  intros Hsink H1 H2 H3 H4 H5 H6 H7 H8.
  unfold PreviewHandler.StartPreview, PreviewHandler.InitPreviewSink,
    PreviewHandler.BuildMediaTypeForVideoPreview.
  rewrite Hsink, H1, H2, H3, H4, H5, H6, H7, H8. cbn. by rewrite H8.
Qed.

(** * More on the pixel conversion *)



(** * More on the controller *)

Section MoreControllerFacts.

Import CaptureControllerImpl.

Context {RH : RecordHandler.api} {PH : PhotoHandler.api}.
Implicit Types c : CaptureControllerImpl.t.

(** A conditional on something known takes its branch. *)
Ltac wp_known :=
  lazymatch goal with
  | |- wp _ (match ?x with _ => _ end) _ _ =>
      let x' := eval cbn in x in
      first
        [ match goal with
          | H : x' = _ |- _ => change x with x'; rewrite H
          end
        | match x' with
          | context [bool_decide ?P] =>
              change x with x';
              first
                [ rewrite (bool_decide_eq_true_2 P) by first [congruence|lia]
                | rewrite (bool_decide_eq_false_2 P)
                    by first [congruence|lia|intros ?; congruence] ]
          end ]
  end.

(** Symbolic execution through all the operations called. *)
Ltac wp_exec := repeat (first [wp_known | wp_step]; cbn beta iota).

(** What being well formed says of a controller, by the state it is in. *)
Ltac by_state Hc :=
  unfold well_formed, idle, buffer_sized in Hc;
  let Hst := fresh "Hst" in
  match type of Hc with
  | context [match capture_engine_state_ ?c with _ => _ end] =>
      destruct (capture_engine_state_ c) eqn:Hst
  end;
  destruct_and?; try congruence.

Ltac unfold_operations :=
  unfold perform, InitCaptureDevice, create_failed, ResetCaptureController,
    TakePicture, StartRecord, StartPreview, StopRecord, StopTimedRecord,
    StopPreview, PausePreview, ResumePreview, OnEvent, GetFrameBuffer,
    write_frame, OnBufferUpdated, UpdateCaptureTime,
    ConvertPixelBufferForFlutter, FindBaseMediaTypes,
    OnCaptureEngineInitialized, OnCaptureEngineError, OnPreviewStarted,
    OnPreviewStopped, OnRecordStarted, OnRecordStopped, OnPicture,
    listener_call, if_listener, deref_record_handler, deref_preview_handler,
    deref_photo_handler.

Ltac media_facts :=
  repeat match goal with
         | H : FindBestMediaType _ _ _ _ = (_, _, _) |- _ =>
             apply FindBestMediaType_found in H as [? ?]
         end.

Ltac leaf :=
  try discriminate; decide_guards; media_facts;
  unfold well_formed, idle, buffer_sized in *; cbn in *;
  destruct_and?;
  try match goal with
      | H : context [match capture_engine_state_ ?c with _ => _ end] |- _ =>
          let Hst := fresh "Hst" in
          destruct (capture_engine_state_ c) eqn:Hst; destruct_and?
      end;
  repeat (case_bool_decide; try congruence; try lia);
  try (exfalso;
       match goal with H : ¬ (?a ≠ ?b) |- _ => apply H; discriminate end);
  cbn in *; decide_guards; subst;
  try congruence;
  repeat match goal with
         | H : ?x = _ |- context [match ?x with _ => _ end] => rewrite H
         | H : ?x = _, H' : context [match ?x with _ => _ end] |- _ =>
             rewrite H in H'
         end;
  repeat match goal with |- _ ∧ _ => split end; intros;
  repeat match goal with
         | H : is_Some ?x → _, H' : is_Some ?x |- _ => specialize (H H')
         | H : ∀ h, ?x = Some h → _, H' : ?x = Some _ |- _ =>
             specialize (H _ H'); destruct H
         | H : ∀ h, Some ?y = Some h → _ |- _ =>
             specialize (H _ eq_refl); destruct H
         | H : Some _ = Some _ |- _ => injection H as <-
         | H : PreviewHandler.PausePreview ?h = (_, ?h') |- _ =>
             assert (h' = (PreviewHandler.PausePreview h).2) as ->
               by (by rewrite H);
             clear H
         | H : PreviewHandler.ResumePreview ?h = (_, ?h') |- _ =>
             assert (h' = (PreviewHandler.ResumePreview h).2) as ->
               by (by rewrite H);
             clear H
         end;
  repeat match goal with |- _ ∧ _ => split end;
  first
    [ fast_done | congruence | lia
    | by rewrite length_replicate
    | rewrite length_take, length_app, length_drop; lia
    | match goal with H : is_Some None |- _ => by destruct H end
    | match goal with H : ?x = None, H' : is_Some ?x |- _ =>
        rewrite H in H'; by destruct H' end
    | match goal with H : is_Some ?x → _, H' : is_Some ?x |- _ => exact (H H') end
    | match goal with H : is_Some _ → ?G |- ?G => apply H; done end
    | by eauto using StartPreview_begun, StopPreview_begun,
        PausePreview_begun, ResumePreview_begun, OnPreviewStarted_begun
    | idtac ].

Lemma perform_well_formed op env c :
  well_formed c → wp True (perform op env) c (λ _ c' _, well_formed c').
Proof.
  intros Hc. by_state Hc; destruct op; repeat progress unfold_operations.
  all: wp_exec.
  all: leaf.
Qed.

(** The states operations lead to are well formed. *)
Lemma reachable_well_formed c : reachable c → well_formed c.
Proof.
  induction 1 as [|c op env c' calls _ IH Hop].
  - unfold well_formed, idle, buffer_sized. cbn. repeat split; try done.
  - pose proof (perform_well_formed op env c IH) as Hwp.
    unfold wp in Hwp. by rewrite Hop in Hwp.
Qed.


(** An operation returns exactly this. *)
Lemma wp_equals {A} (m : M CaptureControllerImpl.t A) c a c' calls :
  wp False m c (λ a' c'' calls', a' = a ∧ calls' = calls ∧ c'' = c') →
  m c = Returns a c' calls.
Proof.
  unfold wp. destruct (m c) as [a' c'' calls'|]; [|done].
  by intros (-> & -> & ->).
Qed.

(** Two controllers with the same members are the same. *)
Ltac same_controller :=
  match goal with
  | c : CaptureControllerImpl.t |- _ =>
      destruct c; cbn in *; simplify_eq; reflexivity
  end.

(** What is known at the end of a path. *)
Ltac facts :=
  try discriminate; decide_guards; media_facts;
  unfold well_formed, idle, buffer_sized in *; cbn in *; destruct_and?;
  try match goal with
      | H : context [match capture_engine_state_ ?c with _ => _ end] |- _ =>
          let Hst := fresh "Hst" in
          destruct (capture_engine_state_ c) eqn:Hst; destruct_and?
      end;
  repeat (case_bool_decide; try congruence; try lia);
  try (exfalso;
       match goal with H : ¬ (?a ≠ ?b) |- _ => apply H; discriminate end);
  cbn in *; decide_guards; try congruence.

(** The end of a path that returns what is claimed, or cannot be taken. *)
Ltac exact_leaf :=
  facts;
  repeat match goal with |- _ ∧ _ => split end;
  first [ reflexivity | congruence | same_controller ].

(** X8. Whatever operations a controller built with a listener has gone
    through, it is well formed: it has its listener; outside the
    initialized state it holds no handler, media type, preview size or
    texture; initialized, it has a texture id; handlers exist only with the
    media type they need; and a preview handler it holds has its sink and is
    past the start of its preview. *)
Theorem operations_keep_controller_well_formed ops c :
  run ops (CaptureControllerImpl true) = Some c → well_formed c.
Proof.
  intros Hrun. apply reachable_well_formed.
  eapply run_reachable; [apply reachable_new|exact Hrun].
Qed.

(** X9. Until the engine is initialized a reachable controller refuses the
    requests for a picture, a recording and a preview with a failure call,
    tells nothing when asked to stop a recording, ignores frames, and stays
    as it is. *)
Theorem requests_before_initialization c file_path max_video_duration_ms
    capture_time_us env :
  reachable c →
  capture_engine_state_ c ≠ CAPTURE_ENGINE_INITIALIZED →
  TakePicture file_path env c =
    Returns () c [Listener.OnTakePictureFailed "Not initialized"] ∧
  StartRecord file_path max_video_duration_ms env c =
    Returns () c [Listener.OnStartRecordFailed not_initialized_message] ∧
  StartPreview env c =
    Returns () c [Listener.OnStartPreviewFailed not_initialized_message] ∧
  StopRecord env c = Returns () c [] ∧
  UpdateCaptureTime capture_time_us env c = Returns () c [].
Proof.
  intros Hc%reachable_well_formed Hstate. by_state Hc.
  all: repeat match goal with |- _ ∧ _ => split end.
  all: apply wp_equals; repeat progress unfold_operations; wp_exec.
  all: exact_leaf.
Qed.

(** X10. A reachable controller that is initializing or initialized refuses
    to be initialized again: the listener is told so and nothing changes. *)
Theorem InitCaptureDevice_refused_after_first c texture_registrar device_id
    record_audio resolution_preset env :
  reachable c →
  capture_engine_state_ c ≠ CAPTURE_ENGINE_NOT_INITIALIZED →
  InitCaptureDevice texture_registrar device_id record_audio resolution_preset
    env c =
  Returns () c
    [Listener.OnCreateCaptureEngineFailed
       (if bool_decide (capture_engine_state_ c = CAPTURE_ENGINE_INITIALIZED)
        then "Capture device already initialized"
        else "Capture device already initializing")].
Proof.
  intros Hc%reachable_well_formed Hstate. by_state Hc.
  all: apply wp_equals; repeat progress unfold_operations; wp_exec.
  all: exact_leaf.
Qed.

(** X11. Initializing a reachable controller that is not initialized stores
    the requested settings.  When the platform starts and the capture engine
    is created the controller is initializing and the listener hears nothing
    yet; when either fails the listener is told "Failed to create camera" and
    the controller is not initialized, as before. *)
Theorem InitCaptureDevice_first c texture_registrar device_id record_audio
    resolution_preset env :
  reachable c →
  capture_engine_state_ c = CAPTURE_ENGINE_NOT_INITIALIZED →
  let configured :=
    set_texture_registrar_ texture_registrar
      (set_record_audio_ record_audio
         (set_resolution_preset_ resolution_preset c)) in
  InitCaptureDevice texture_registrar device_id record_audio resolution_preset
    env c =
  if FAILED (hr_MFStartup env) || FAILED (hr_CreateCaptureEngine env)
  then Returns () configured
         [Listener.OnCreateCaptureEngineFailed "Failed to create camera"]
  else Returns ()
         (set_media_foundation_started_ true
            (set_capture_engine_state_ CAPTURE_ENGINE_INITIALIZING configured))
         [].
Proof.
  intros Hc%reachable_well_formed Hstate configured. subst configured.
  by_state Hc.
  destruct (FAILED (hr_MFStartup env)) eqn:Hstartup;
    destruct (FAILED (hr_CreateCaptureEngine env)) eqn:Hcreate; cbn [orb].
  all: apply wp_equals; repeat progress unfold_operations; wp_exec.
  all: exact_leaf.
Qed.

(** X12. The engine's initialized event, whatever status it carries, makes a
    reachable initializing controller register its texture.  With an id that
    is not negative the controller is initialized and the listener gets the
    id; with a negative id the listener is told "Failed to create
    texture_id" and the controller is reset. *)
Theorem engine_initialized_event c status env :
  reachable c →
  capture_engine_state_ c = CAPTURE_ENGINE_INITIALIZING →
  texture_registrar_ c = true →
  OnEvent {| GetExtendedType := Some MF_CAPTURE_ENGINE_INITIALIZED;
             GetStatus := Some status |} env c =
  if bool_decide (0 ≤ RegisterTexture env)
  then Returns ()
         (set_capture_engine_state_ CAPTURE_ENGINE_INITIALIZED
            (set_texture_id_ (RegisterTexture env) c))
         [Listener.OnCreateCaptureEngineSucceeded (RegisterTexture env)]
  else Returns ()
         (set_media_foundation_started_ false
            (set_capture_engine_state_ CAPTURE_ENGINE_NOT_INITIALIZED c))
         [Listener.OnCreateCaptureEngineFailed "Failed to create texture_id"].
Proof.
  intros Hc%reachable_well_formed Hstate Hregistrar. by_state Hc.
  case_bool_decide.
  all: apply wp_equals; repeat progress unfold_operations;
    cbn [GetExtendedType GetStatus]; wp_exec.
  all: exact_leaf.
Qed.

(** X13. The router drops an event when the controller is not initialized
    (nor initializing), when the event's type or status cannot be read, and
    when the type is preview-started, stream-blocked, stream-unblocked or
    unknown: nothing changes and the listener hears nothing. *)
Theorem OnEvent_dropped event env c :
  capture_engine_state_ c = CAPTURE_ENGINE_NOT_INITIALIZED ∨
  GetExtendedType event = None ∨
  GetStatus event = None ∨
  GetExtendedType event = Some MF_CAPTURE_ENGINE_PREVIEW_STARTED ∨
  GetExtendedType event = Some MF_CAPTURE_ENGINE_CAMERA_STREAM_BLOCKED ∨
  GetExtendedType event = Some MF_CAPTURE_ENGINE_CAMERA_STREAM_UNBLOCKED ∨
  (∃ guid, GetExtendedType event = Some (MF_CAPTURE_ENGINE_other guid)) →
  OnEvent event env c = Returns () c [].
Proof.
  intros Hcase. unfold OnEvent, bind, get.
  destruct Hcase as [H|[H|[H|[H|[H|[H|[guid H]]]]]]]; rewrite H.
  - reflexivity.
  - by destruct (_ && _).
  - destruct (_ && _); [done|]. by destruct (GetExtendedType event).
  - destruct (_ && _); [done|]. by destruct (GetStatus event).
  - destruct (_ && _); [done|]. by destruct (GetStatus event).
  - destruct (_ && _); [done|]. by destruct (GetStatus event).
  - destruct (_ && _); [done|]. by destruct (GetStatus event).
Qed.

(** X14. [FindBaseMediaTypes] always returns, without a call to the
    listener, either [S_OK] or a failure.  It returns [S_OK] only on an
    initialized controller; a preview type it had to look for is one of the
    preview stream's types, its frame size is the preview size stored and its
    height is within the limit of the resolution preset; a capture type it
    had to look for is one of the record stream's types. *)
Theorem FindBaseMediaTypes_outcome env c :
  ∃ hr c',
    FindBaseMediaTypes env c = Returns hr c' [] ∧
    (hr = S_OK ∨ FAILED hr = true) ∧
    (hr = S_OK →
     capture_engine_state_ c = CAPTURE_ENGINE_INITIALIZED ∧
     (base_preview_media_type_ c = None →
      ∃ chosen,
        base_preview_media_type_ c' = Some chosen ∧
        chosen ∈ capture_source env
                   MF_CAPTURE_ENGINE_PREFERRED_SOURCE_STREAM_FOR_VIDEO_PREVIEW ∧
        MF_MT_FRAME_SIZE chosen =
          Some (preview_frame_width_ c', preview_frame_height_ c') ∧
        preview_frame_height_ c' ≤ GetMaxPreviewHeight c) ∧
     (base_capture_media_type_ c = None →
      ∃ chosen,
        base_capture_media_type_ c' = Some chosen ∧
        chosen ∈ capture_source env
                   MF_CAPTURE_ENGINE_PREFERRED_SOURCE_STREAM_FOR_VIDEO_RECORD)).
Proof.
  cut (wp False (FindBaseMediaTypes env) c (λ hr c' calls,
         calls = [] ∧ (hr = S_OK ∨ FAILED hr = true) ∧
         (hr = S_OK →
          capture_engine_state_ c = CAPTURE_ENGINE_INITIALIZED ∧
          (base_preview_media_type_ c = None →
           ∃ chosen,
             base_preview_media_type_ c' = Some chosen ∧
             chosen ∈ capture_source env
               MF_CAPTURE_ENGINE_PREFERRED_SOURCE_STREAM_FOR_VIDEO_PREVIEW ∧
             MF_MT_FRAME_SIZE chosen =
               Some (preview_frame_width_ c', preview_frame_height_ c') ∧
             preview_frame_height_ c' ≤ GetMaxPreviewHeight c) ∧
          (base_capture_media_type_ c = None →
           ∃ chosen,
             base_capture_media_type_ c' = Some chosen ∧
             chosen ∈ capture_source env
               MF_CAPTURE_ENGINE_PREFERRED_SOURCE_STREAM_FOR_VIDEO_RECORD)))).
  { intros (hr & c' & calls & Heq & -> & H)%wp_total. by exists hr, c'. }
  unfold FindBaseMediaTypes. wp_exec.
  - split; [done|]. split; [by right|]. intros [=].
  - split; [done|]. split; [by right|]. intros Hok.
    rewrite Hok in *. vm_compute in Heqb0. discriminate.
  - split; [done|]. split; [by right|]. intros [=].
  - split; [done|]. split; [by right|]. intros [=].
  - decide_guards. split; [done|]. split; [by left|]. intros _.
    split; [by destruct (decide (capture_engine_state_ c =
                                   CAPTURE_ENGINE_INITIALIZED))|].
    cbn. split.
    + intros Hnone. rewrite Hnone in *.
      match goal with
      | H : FindBestMediaType
              MF_CAPTURE_ENGINE_PREFERRED_SOURCE_STREAM_FOR_VIDEO_PREVIEW
              _ _ _ = _ |- _ =>
          apply FindBestMediaType_chosen in H as (chosen & -> & ? & ? & ?);
            [|congruence]
      end.
      by exists chosen.
    + intros Hnone. rewrite Hnone in *.
      match goal with
      | H : FindBestMediaType
              MF_CAPTURE_ENGINE_PREFERRED_SOURCE_STREAM_FOR_VIDEO_RECORD
              _ _ _ = _ |- _ =>
          apply FindBestMediaType_chosen in H as (chosen & -> & ? & ? & ?);
            [|congruence]
      end.
      by exists chosen.
Qed.

Ltac silent_leaf :=
  cbn [app]; unfold silent;
  repeat first
    [ apply Forall_nil_2
    | apply Forall_cons_2; [eexists; reflexivity|] ].

(** X15. A request for a frame buffer leaves a reachable controller with a
    buffer of the length asked for.  A buffer of that length it already has is
    kept, with what it holds, so that asking twice changes nothing the second
    time; a request for another length gets a zeroed buffer of the new
    length. *)
Theorem GetFrameBuffer_reuses_buffer c new_length :
  reachable c →
  ∃ c1 data,
    GetFrameBuffer new_length c = Returns () c1 [] ∧
    source_buffer_data_ c1 = Some data ∧
    length data = Z.to_nat new_length ∧
    source_buffer_size_ c1 = new_length ∧
    (is_Some (source_buffer_data_ c) → source_buffer_size_ c = new_length →
     c1 = c) ∧
    GetFrameBuffer new_length c1 = Returns () c1 [] ∧
    ∀ other_length,
      other_length ≠ new_length →
      GetFrameBuffer other_length c1 =
        Returns ()
          (set_source_buffer_size_ other_length
             (set_source_buffer_data_
                (Some (replicate (Z.to_nat other_length) 0)) c1))
          [].
Proof.
  intros Hc%reachable_well_formed.
  assert (Hsized : buffer_sized c) by apply Hc. clear Hc.
  unfold buffer_sized in Hsized.
  assert (Hagain : ∀ c1 data length,
            source_buffer_data_ c1 = Some data →
            source_buffer_size_ c1 = length →
            GetFrameBuffer length c1 = Returns () c1 [] ∧
            ∀ other_length,
              other_length ≠ length →
              GetFrameBuffer other_length c1 =
                Returns ()
                  (set_source_buffer_size_ other_length
                     (set_source_buffer_data_
                        (Some (replicate (Z.to_nat other_length) 0)) c1))
                  []).
  { intros c1 data len Hdata Hsize. unfold GetFrameBuffer, bind, get, modify.
    rewrite Hdata, Hsize. cbn. split.
    - by rewrite bool_decide_eq_false_2 by (intros H; by apply H).
    - intros other Hother. by rewrite bool_decide_eq_true_2 by done. }
  destruct (source_buffer_data_ c) as [data|] eqn:Hdata.
  - destruct (decide (source_buffer_size_ c = new_length)) as [Hsame|Hother].
    + exists c, data.
      destruct (Hagain c data new_length Hdata Hsame) as [Hget Hrest].
      rewrite Hdata. repeat split; try done. by rewrite <- Hsame.
    + exists (set_source_buffer_size_ new_length
                (set_source_buffer_data_
                   (Some (replicate (Z.to_nat new_length) 0)) c)),
        (replicate (Z.to_nat new_length) 0).
      destruct (Hagain
                  (set_source_buffer_size_ new_length
                     (set_source_buffer_data_
                        (Some (replicate (Z.to_nat new_length) 0)) c))
                  _ new_length eq_refl eq_refl) as [Hget Hrest].
      split; [|split; [reflexivity|]].
      { unfold GetFrameBuffer, bind, get, modify. rewrite Hdata. cbn.
        by rewrite bool_decide_eq_true_2 by done. }
      repeat split; try done. by rewrite length_replicate.
  - exists (set_source_buffer_size_ new_length
              (set_source_buffer_data_
                 (Some (replicate (Z.to_nat new_length) 0)) c)),
      (replicate (Z.to_nat new_length) 0).
    destruct (Hagain
                (set_source_buffer_size_ new_length
                   (set_source_buffer_data_
                      (Some (replicate (Z.to_nat new_length) 0)) c))
                _ new_length eq_refl eq_refl) as [Hget Hrest].
    split; [|split; [reflexivity|]].
    { unfold GetFrameBuffer, bind, get, modify. by rewrite Hdata. }
    repeat split; try done. by rewrite length_replicate.
Qed.

(** X16. A request for a picture while one is being taken is answered with
    "Photo already requested" and destroys the photo handler, so that the
    photo-taken event of the picture in flight, successful or not, is
    reported as a failure. *)
Theorem TakePicture_while_taking c h file_path env status env' :
  reachable c →
  photo_handler_ c = Some h →
  PhotoHandler.IsTakingPhoto h = true →
  let c' := set_photo_handler_ None c in
  TakePicture file_path env c =
    Returns () c' [Listener.OnTakePictureFailed "Photo already requested"] ∧
  OnEvent {| GetExtendedType := Some MF_CAPTURE_ENGINE_PHOTO_TAKEN;
             GetStatus := Some status |} env' c' =
    Returns () c'
      [Listener.OnTakePictureFailed
         (if FAILED status then system_category_message env' status
          else EmptyString)].
Proof.
  intros Hc%reachable_well_formed Hhandler Htaking c'. subst c'.
  by_state Hc.
  all: match goal with
       | H : is_Some (photo_handler_ _) → _ |- _ =>
           destruct H as [capture_type Hcapture]; [by rewrite Hhandler|]
       end.
  all: try congruence.
  split.
  all: apply wp_equals; repeat progress unfold_operations;
    cbn [GetExtendedType GetStatus]; wp_exec.
  all: exact_leaf.
Qed.

(** X17. A request to record while the record handler cannot start is
    answered with a failure and destroys the record handler, so that the
    record-stopped event of the recording under way tells the listener
    nothing. *)
Theorem StartRecord_while_recording c h file_path max_video_duration_ms env
    status env' :
  reachable c →
  record_handler_ c = Some h →
  RecordHandler.CanStart h = false →
  let c' := set_record_handler_ None c in
  StartRecord file_path max_video_duration_ms env c =
    Returns () c'
      [Listener.OnStartRecordFailed
         "Recording cannot be started. Previous recording must be stopped first."] ∧
  OnEvent {| GetExtendedType := Some MF_CAPTURE_ENGINE_RECORD_STOPPED;
             GetStatus := Some status |} env' c' = Returns () c' [].
Proof.
  intros Hc%reachable_well_formed Hhandler Hstart c'. subst c'.
  by_state Hc.
  all: match goal with
       | H : is_Some (record_handler_ _) → _ |- _ =>
           destruct H as [capture_type Hcapture]; [by rewrite Hhandler|]
       end.
  all: try congruence.
  split.
  all: apply wp_equals; repeat progress unfold_operations;
    cbn [GetExtendedType GetStatus]; wp_exec.
  all: exact_leaf.
Qed.

(** X18. A frame that reaches a reachable controller whose preview handler
    is not starting tells the listener nothing about the preview and leaves
    the preview handler as it is. *)
Theorem later_frames_keep_the_preview c h capture_time_us env :
  reachable c →
  preview_handler_ c = Some h →
  PreviewHandler.preview_state_ h ≠ PreviewHandler.PREVIEW_STATE__STARTING →
  ∃ c' calls,
    UpdateCaptureTime capture_time_us env c = Returns () c' calls ∧
    silent calls ∧ preview_handler_ c' = Some h.
Proof.
  intros Hc%reachable_well_formed Hhandler Hstate.
  assert (Hstarting : PreviewHandler.IsStarting h = false).
  { unfold PreviewHandler.IsStarting. by apply bool_decide_eq_false. }
  cut (wp False (UpdateCaptureTime capture_time_us env) c
         (λ _ c' calls, silent calls ∧ preview_handler_ c' = Some h)).
  { intros ([] & c' & calls & Heq & H)%wp_total. by exists c', calls. }
  by_state Hc.
  all: repeat progress unfold_operations; wp_exec.
  all: first [ by (split; [silent_leaf|done]) | by (exfalso; facts) ].
Qed.

(** X19. Destroying a reachable controller never faults: it returns the
    controller reset, without its listener, having told the listener at most
    that a video recording failed. *)
Theorem destructor_resets c env :
  reachable c →
  ∃ calls,
    destructor env c =
      Returns () (set_capture_controller_listener_ false (reset_members c))
        calls ∧
    silent calls.
Proof.
  intros Hc%reachable_well_formed.
  cut (wp False (destructor env) c
         (λ _ c' calls,
            silent calls ∧
            c' = set_capture_controller_listener_ false (reset_members c))).
  { intros ([] & c' & calls & Heq & Hsilent & ->)%wp_total. by exists calls. }
  by_state Hc.
  all: unfold destructor; repeat progress unfold_operations; wp_exec.
  all: first [ by (split; [silent_leaf|reflexivity]) | by (exfalso; facts) ].
Qed.

(** X20. [StartPreview] on a reachable initialized controller that knows
    its preview type and has no preview handler hands the capture type to the
    new handler.  With a capture type it succeeds exactly when the ten native
    calls of the preview start do: then the controller holds a preview
    handler that is starting and the listener hears nothing until the first
    frame; otherwise the listener is told "Failed to start video preview" and
    the controller stays as it was.  Without a capture type the null pointer
    is dereferenced as soon as the sink is obtained, its streams are removed
    and a media type is created; when one of these fails the listener is told
    "Failed to start video preview". *)
Theorem StartPreview_outcome c env :
  reachable c →
  capture_engine_state_ c = CAPTURE_ENGINE_INITIALIZED →
  is_Some (base_preview_media_type_ c) →
  preview_handler_ c = None →
  let sink_obtained :=
    negb (FAILED (hr_GetSink env)) && negb (FAILED (hr_As_preview_sink env)) &&
    negb (FAILED (hr_RemoveAllStreams env)) in
  let failed :=
    Returns () c
      [Listener.OnStartPreviewFailed "Failed to start video preview"] in
  (is_Some (base_capture_media_type_ c) →
   StartPreview env c =
   if sink_obtained &&
      (negb (FAILED (hr_MFCreateMediaType env)) &&
       negb (FAILED (hr_CopyAllItems env)) &&
       negb (FAILED (hr_SetGUID env)) &&
       negb (FAILED (hr_SetUINT32 env))) &&
      negb (FAILED (hr_AddStream env)) &&
      negb (FAILED (hr_SetSampleCallback env)) &&
      SUCCEEDED (hr_StartPreview env)
   then Returns ()
          (set_preview_handler_
             (Some (PreviewHandler.mk true
                      PreviewHandler.PREVIEW_STATE__STARTING)) c) []
   else failed) ∧
  (base_capture_media_type_ c = None →
   StartPreview env c =
   if sink_obtained && negb (FAILED (hr_MFCreateMediaType env))
   then Crashes NullDereference []
   else failed).
Proof.
  intros Hc%reachable_well_formed Hstate [preview_type Hpreview] Hhandler
    sink_obtained failed.
  subst sink_obtained failed. by_state Hc. split.
  - intros [capture_type Hcapture].
    destruct (StartPreview_new env capture_type)
      as (h' & Hstart & Hstarting).
    cbn zeta in Hstart, Hstarting.
    destruct (_ && _ && _ && _ && _ && _ && _) eqn:Hstarted;
      [specialize (Hstarting eq_refl); subst h'|clear Hstarting].
    all: apply wp_equals; repeat progress unfold_operations.
    all: rewrite ?Hstate, ?Hpreview, ?Hhandler, ?Hcapture.
    all: wp_exec; rewrite ?Hcapture, ?Hstart; wp_exec.
    all: exact_leaf.
  - intros Hcapture.
    pose proof (StartPreview_null env) as Hnull. cbn zeta in Hnull.
    destruct (_ && _ && _ && _) eqn:Hreached.
    + unfold StartPreview, OnPreviewStarted, bind, get, ret, modify, crash.
      match goal with
      | H : capture_engine_state_ c = _ |- _ => rewrite H
      end.
      rewrite bool_decide_eq_false_2 by (intros Hne; by apply Hne).
      cbn. rewrite Hpreview. cbn. change (FAILED S_OK) with false.
      cbn. rewrite Hhandler. cbn. by rewrite Hcapture, Hnull.
    + destruct Hnull as [h' Hstart].
      apply wp_equals; repeat progress unfold_operations.
      wp_exec; rewrite ?Hcapture, ?Hstart; wp_exec.
      all: exact_leaf.
Qed.

(** X21. On a reachable controller whose preview is running, pausing tells
    the listener it succeeded and resuming after that tells so as well and
    gives the controller back as it was; neither looks at anything but the
    handler's state. *)
Theorem pause_then_resume c h :
  reachable c →
  preview_handler_ c = Some h →
  PreviewHandler.preview_state_ h = PreviewHandler.PREVIEW_STATE__RUNNING →
  let paused :=
    set_preview_handler_
      (Some (PreviewHandler.with_state PreviewHandler.PREVIEW_STATE__PAUSED h))
      c in
  PausePreview c = Returns () paused [Listener.OnPausePreviewSucceeded] ∧
  ResumePreview paused = Returns () c [Listener.OnResumePreviewSucceeded].
Proof.
  intros Hc%reachable_well_formed Hhandler Hstate paused. subst paused.
  assert (Hlistener : capture_controller_listener_ c = true) by apply Hc.
  clear Hc. destruct h as [sink state]. cbn in Hstate. subst state.
  split.
  all: apply wp_equals; repeat progress unfold_operations;
    unfold PreviewHandler.PausePreview, PreviewHandler.ResumePreview;
    cbn [PreviewHandler.preview_state_ PreviewHandler.with_state
         PreviewHandler.preview_sink_];
    wp_exec.
  all: exact_leaf.
Qed.


(** X25. Creating a camera, end to end.  [InitCamera] on a camera without a
    controller that has a pending creation request builds the controller and
    stores the messenger.  When the platform or the capture engine fails to
    start, the request is answered at once with the error "Failed to create
    camera".  Otherwise nothing is answered until the engine's initialized
    event: then the texture is registered, and with an id that is not
    negative the request is answered with that id as the camera id, which the
    camera keeps. *)
Theorem camera_creation (camera : CameraImpl.t) (result : MethodResult)
    (messenger : BinaryMessenger) (enable_audio : bool)
    (resolution_preset : ResolutionPreset) (env env' : Env) (status : HRESULT) :
  CameraImpl.pending_results_ camera !! CREATE_CAMERA = Some result →
  let answered :=
    CameraImpl.with_pending_results
      (delete CREATE_CAMERA (CameraImpl.pending_results_ camera))
      (CameraImpl.with_messenger (Some messenger) camera) in
  let configured :=
    set_texture_registrar_ true
      (set_record_audio_ enable_audio
         (set_resolution_preset_ resolution_preset
            (CaptureControllerImpl true))) in
  let initializing :=
    set_media_foundation_started_ true
      (set_capture_engine_state_ CAPTURE_ENGINE_INITIALIZING configured) in
  let waiting :=
    Camera.mk (CameraImpl.with_messenger (Some messenger) camera)
      (Some initializing) in
  Camera.InitCamera true messenger enable_audio resolution_preset env
    (Camera.mk camera None) =
  (if FAILED (hr_MFStartup env) || FAILED (hr_CreateCaptureEngine env)
   then Camera.Done (Camera.mk answered (Some configured))
          [ResultError result "camera_error" "Failed to create camera"]
   else Camera.Done waiting []) ∧
  (0 ≤ RegisterTexture env' →
   Camera.on_controller
     (OnEvent {| GetExtendedType := Some MF_CAPTURE_ENGINE_INITIALIZED;
                 GetStatus := Some status |} env') waiting =
   Camera.Done
     (Camera.mk
        (CameraImpl.with_camera_id (RegisterTexture env') answered)
        (Some (set_capture_engine_state_ CAPTURE_ENGINE_INITIALIZED
                 (set_texture_id_ (RegisterTexture env') initializing))))
     [ResultSuccess result
        (EV_Map [(EV_String "cameraId", EV_Int64 (RegisterTexture env'))])]).
Proof.
  intros Hpending answered configured initializing waiting.
  assert (Hinit :
    InitCaptureDevice true (CameraImpl.device_id_ camera) enable_audio
      resolution_preset env (CaptureControllerImpl true) =
    if FAILED (hr_MFStartup env) || FAILED (hr_CreateCaptureEngine env)
    then Returns () configured
           [Listener.OnCreateCaptureEngineFailed "Failed to create camera"]
    else Returns () initializing []).
  { destruct (FAILED (hr_MFStartup env)) eqn:Hstartup;
      destruct (FAILED (hr_CreateCaptureEngine env)) eqn:Hcreate; cbn [orb].
    all: apply wp_equals; repeat progress unfold_operations; wp_exec.
    all: first [ by repeat split | congruence ]. }
  split.
  - unfold Camera.InitCamera, Camera.on_controller.
    cbn [Camera.capture_controller_ Camera.camera CameraImpl.device_id_
         CameraImpl.with_messenger].
    rewrite Hinit.
    destruct (_ || _); [|done].
    cbn [dispatch_all dispatch]. unfold CameraImpl.OnCreateCaptureEngineFailed.
    rewrite resolve_spec.
    cbn [CameraImpl.pending_results_ CameraImpl.with_messenger].
    by rewrite Hpending.
  - intros Hid.
    assert (Hevent :
      OnEvent {| GetExtendedType := Some MF_CAPTURE_ENGINE_INITIALIZED;
                 GetStatus := Some status |} env' initializing =
      Returns ()
        (set_capture_engine_state_ CAPTURE_ENGINE_INITIALIZED
           (set_texture_id_ (RegisterTexture env') initializing))
        [Listener.OnCreateCaptureEngineSucceeded (RegisterTexture env')]).
    { apply wp_equals; repeat progress unfold_operations;
        cbn [GetExtendedType GetStatus]; wp_exec.
      all: first [ by repeat split | by (exfalso; decide_guards) ]. }
    unfold Camera.on_controller, waiting.
    cbn [Camera.capture_controller_ Camera.camera].
    rewrite Hevent.
    cbn [dispatch_all dispatch].
    unfold CameraImpl.OnCreateCaptureEngineSucceeded.
    rewrite resolve_spec.
    cbn [CameraImpl.pending_results_ CameraImpl.with_camera_id
         CameraImpl.with_messenger].
    by rewrite Hpending.
Qed.

(** X26. Requests made through the camera before the controller is
    initialized.  A pending picture, recording or preview request is
    answered with a "camera_error" and leaves the map; a pending request to
    stop a recording is not answered and stays pending. *)
Theorem camera_requests_before_initialization (camera : CameraImpl.t) c
    (file_path : string) (max_video_duration_ms : Z) (env : Env)
    (picture record preview stop : MethodResult) :
  reachable c →
  capture_engine_state_ c ≠ CAPTURE_ENGINE_INITIALIZED →
  let pending := CameraImpl.pending_results_ camera in
  let s := Camera.mk camera (Some c) in
  let answered type :=
    Camera.mk (CameraImpl.with_pending_results (delete type pending) camera)
      (Some c) in
  (pending !! TAKE_PICTURE = Some picture →
   Camera.on_controller (TakePicture file_path env) s =
   Camera.Done (answered TAKE_PICTURE)
     [ResultError picture "camera_error" "Not initialized"]) ∧
  (pending !! START_RECORD = Some record →
   Camera.on_controller (StartRecord file_path max_video_duration_ms env) s =
   Camera.Done (answered START_RECORD)
     [ResultError record "camera_error" not_initialized_message]) ∧
  (pending !! INITIALIZE = Some preview →
   Camera.on_controller (StartPreview env) s =
   Camera.Done (answered INITIALIZE)
     [ResultError preview "camera_error" not_initialized_message]) ∧
  (pending !! STOP_RECORD = Some stop →
   Camera.on_controller (StopRecord env) s = Camera.Done s []).
Proof.
  intros Hc%reachable_well_formed Hstate pending s answered.
  assert (Hpicture : TakePicture file_path env c =
            Returns () c [Listener.OnTakePictureFailed "Not initialized"]).
  { by_state Hc.
    all: apply wp_equals; repeat progress unfold_operations; wp_exec.
    all: exact_leaf. }
  assert (Hrecord : StartRecord file_path max_video_duration_ms env c =
            Returns () c [Listener.OnStartRecordFailed not_initialized_message]).
  { by_state Hc.
    all: apply wp_equals; repeat progress unfold_operations; wp_exec.
    all: exact_leaf. }
  assert (Hpreview : StartPreview env c =
            Returns () c [Listener.OnStartPreviewFailed not_initialized_message]).
  { by_state Hc.
    all: apply wp_equals; repeat progress unfold_operations; wp_exec.
    all: exact_leaf. }
  assert (Hstop : StopRecord env c = Returns () c []).
  { by_state Hc.
    all: apply wp_equals; repeat progress unfold_operations; wp_exec.
    all: exact_leaf. }
  unfold Camera.on_controller, s, answered, pending.
  cbn [Camera.capture_controller_ Camera.camera].
  rewrite Hpicture, Hrecord, Hpreview, Hstop.
  cbn [dispatch_all dispatch].
  unfold CameraImpl.OnTakePictureFailed, CameraImpl.OnStartRecordFailed,
    CameraImpl.OnStartPreviewFailed.
  rewrite !resolve_spec.
  repeat split; intros Hpending; by rewrite ?Hpending.
Qed.

(** X27. Initializing a camera again replaces its controller: the old
    controller, when reachable, is destroyed without a fault and without an
    answer to any request, and the outcome is that of initializing the same
    camera without a controller. *)
Theorem InitCamera_replaces_controller (camera : CameraImpl.t) old
    (texture_registrar : bool) (messenger : BinaryMessenger)
    (enable_audio : bool) (resolution_preset : ResolutionPreset) (env : Env) :
  reachable old →
  Camera.InitCamera texture_registrar messenger enable_audio resolution_preset
    env (Camera.mk camera (Some old)) =
  Camera.InitCamera texture_registrar messenger enable_audio resolution_preset
    env (Camera.mk camera None).
Proof.
  intros Hold.
  pose proof (destructor_silent env old (reachable_consistent _ Hold)) as Hwp.
  apply wp_total in Hwp as ([] & old' & calls & Hdestroyed & Hsilent).
  unfold Camera.InitCamera. cbn [Camera.capture_controller_ Camera.camera].
  rewrite Hdestroyed, (silent_dispatch_all _ _ Hsilent).
  by destruct (Camera.on_controller _ _).
Qed.

(** X28. Taking a picture, end to end.  On a reachable initialized
    controller that knows its capture type and has no photo handler,
    [TakePicture] creates the handler and asks it for the photo.  When that
    fails the listener is told "Failed to take photo" and the handler is
    destroyed.  When it succeeds the listener hears nothing until the
    photo-taken event: a successful event reports the handler's photo path, a
    failed one reports the failure and destroys the handler. *)
Theorem picture_end_to_end c file_path env status env' :
  reachable c →
  capture_engine_state_ c = CAPTURE_ENGINE_INITIALIZED →
  is_Some (base_capture_media_type_ c) →
  photo_handler_ c = None →
  let taken := (PhotoHandler.TakePhoto file_path env PhotoHandler.new).1 in
  let h := (PhotoHandler.TakePhoto file_path env PhotoHandler.new).2 in
  let waiting := set_photo_handler_ (Some h) c in
  TakePicture file_path env c =
    (if taken then Returns () waiting []
     else Returns () c [Listener.OnTakePictureFailed "Failed to take photo"]) ∧
  OnEvent {| GetExtendedType := Some MF_CAPTURE_ENGINE_PHOTO_TAKEN;
             GetStatus := Some status |} env' waiting =
    (if SUCCEEDED status
     then Returns ()
            (set_photo_handler_ (Some (PhotoHandler.OnPhotoTaken h)) c)
            [Listener.OnTakePictureSucceeded (PhotoHandler.GetPhotoPath h)]
     else Returns () c
            [Listener.OnTakePictureFailed
               (if FAILED status then system_category_message env' status
                else EmptyString)]).
Proof.
  intros Hc%reachable_well_formed Hstate [capture_type Hcapture] Hhandler
    taken h waiting.
  subst taken h waiting.
  destruct (PhotoHandler.TakePhoto file_path env PhotoHandler.new)
    as [taken h] eqn:Htake.
  cbn [fst snd]. by_state Hc. split.
  - destruct taken.
    all: apply wp_equals; repeat progress unfold_operations; wp_exec.
    all: exact_leaf.
  - destruct (SUCCEEDED status) eqn:Hstatus.
    all: apply wp_equals; repeat progress unfold_operations;
      cbn [GetExtendedType GetStatus]; wp_exec.
    all: exact_leaf.
Qed.

(** X29. Starting a recording, end to end.  On a reachable initialized
    controller that knows its capture type and has no record handler,
    [StartRecord] creates the handler, with the audio setting of the
    controller, and asks it to record.  When that fails the listener is told
    "Failed to start video recording" and the handler is destroyed.  When it
    succeeds the listener hears nothing until the record-started event: a
    successful event reports the start, a failed one reports the failure and
    destroys the handler. *)
Theorem record_start_end_to_end c file_path max_video_duration_ms env status
    env' :
  reachable c →
  capture_engine_state_ c = CAPTURE_ENGINE_INITIALIZED →
  is_Some (base_capture_media_type_ c) →
  record_handler_ c = None →
  let start :=
    RecordHandler.StartRecord file_path max_video_duration_ms env
      (RecordHandler.new (record_audio_ c)) in
  let waiting := set_record_handler_ (Some start.2) c in
  StartRecord file_path max_video_duration_ms env c =
    (if start.1 then Returns () waiting []
     else Returns () c
            [Listener.OnStartRecordFailed "Failed to start video recording"]) ∧
  OnEvent {| GetExtendedType := Some MF_CAPTURE_ENGINE_RECORD_STARTED;
             GetStatus := Some status |} env' waiting =
    (if SUCCEEDED status
     then Returns ()
            (set_record_handler_
               (Some (RecordHandler.OnRecordStarted start.2)) c)
            [Listener.OnStartRecordSucceeded]
     else Returns () c
            [Listener.OnStartRecordFailed
               (if FAILED status then system_category_message env' status
                else EmptyString)]).
Proof.
  intros Hc%reachable_well_formed Hstate [capture_type Hcapture] Hhandler
    start waiting.
  subst start waiting.
  destruct (RecordHandler.StartRecord file_path max_video_duration_ms env
              (RecordHandler.new (record_audio_ c)))
    as [started h] eqn:Hstart.
  cbn [fst snd]. by_state Hc. split.
  - destruct started.
    all: apply wp_equals; repeat progress unfold_operations; wp_exec.
    all: exact_leaf.
  - destruct (SUCCEEDED status) eqn:Hstatus.
    all: apply wp_equals; repeat progress unfold_operations;
      cbn [GetExtendedType GetStatus]; wp_exec.
    all: exact_leaf.
Qed.

End MoreControllerFacts.

(** * The further theorems on concrete cameras and controllers *)

Lemma AddPendingResult_then_get_witness :
  CameraImpl.pending_results_ Examples.busy_camera !! STOP_RECORD = None ∧
  ∃ c1,
    CameraImpl.AddPendingResult STOP_RECORD 13%nat Examples.busy_camera =
      (true, c1, []) ∧
    CameraImpl.HasPendingResultByType STOP_RECORD c1 = true ∧
    CameraImpl.GetPendingResultByType STOP_RECORD c1 =
      (Some 13%nat, Examples.busy_camera).
Proof.
  assert (Hfree : CameraImpl.pending_results_ Examples.busy_camera
                    !! STOP_RECORD = None) by (vm_compute; reflexivity).
  split; [exact Hfree|].
  destruct (AddPendingResult_then_get STOP_RECORD 13%nat Examples.busy_camera
              Hfree) as (c1 & Hadd & Hhas & _ & Hget).
  exists c1. split; [exact Hadd|]. split; [exact Hhas|exact Hget].
Defined.

Lemma callback_without_pending_result_witness :
  kind_of (Listener.OnStopRecordFailed "stopped") = Some STOP_RECORD ∧
  CameraImpl.pending_results_ Examples.busy_camera !! STOP_RECORD = None ∧
  ∃ c',
    dispatch (Listener.OnStopRecordFailed "stopped") Examples.busy_camera =
      (c', []) ∧
    CameraImpl.pending_results_ c' =
      CameraImpl.pending_results_ Examples.busy_camera.
Proof.
  assert (Hkind : kind_of (Listener.OnStopRecordFailed "stopped") =
                  Some STOP_RECORD) by reflexivity.
  assert (Hfree : CameraImpl.pending_results_ Examples.busy_camera
                    !! STOP_RECORD = None) by (vm_compute; reflexivity).
  split; [exact Hkind|]. split; [exact Hfree|].
  destruct (callback_without_pending_result
              (Listener.OnStopRecordFailed "stopped") STOP_RECORD
              Examples.busy_camera Hkind Hfree) as (c' & Hcall & Hsame & _).
  exists c'. split; [exact Hcall|exact Hsame].
Defined.

Lemma callback_answers_its_slot_once_witness :
  kind_of (Listener.OnTakePictureSucceeded "photo.jpeg") = Some TAKE_PICTURE ∧
  CameraImpl.pending_results_ Examples.busy_camera !! TAKE_PICTURE =
    Some 12%nat ∧
  ∃ c' effect,
    dispatch (Listener.OnTakePictureSucceeded "photo.jpeg")
      Examples.busy_camera = (c', [effect]) ∧
    resolved_result effect = Some 12%nat ∧
    (dispatch (Listener.OnTakePictureSucceeded "photo.jpeg") c').2 = [].
Proof.
  assert (Hkind : kind_of (Listener.OnTakePictureSucceeded "photo.jpeg") =
                  Some TAKE_PICTURE) by reflexivity.
  assert (Hpending : CameraImpl.pending_results_ Examples.busy_camera
                       !! TAKE_PICTURE = Some 12%nat)
    by (vm_compute; reflexivity).
  split; [exact Hkind|]. split; [exact Hpending|].
  destruct (callback_answers_its_slot_once
              (Listener.OnTakePictureSucceeded "photo.jpeg") TAKE_PICTURE
              12%nat Examples.busy_camera Hkind Hpending)
    as (c' & effect & Hcall & Hresult & _ & Honce).
  exists c', effect. split; [exact Hcall|]. split; [exact Hresult|exact Honce].
Defined.

Lemma notifications_use_the_texture_id_witness :
  CameraImpl.messenger_ Examples.busy_camera = Some 1%nat ∧
  0 ≤ 5 ∧
  let c1 :=
    (CameraImpl.OnCreateCaptureEngineSucceeded 5 Examples.busy_camera).1 in
  CameraImpl.OnVideoRecordSucceeded "clip.mp4" 3 c1 =
    (c1, [InvokeMethod 1%nat ("flutter.io/cameraPlugin/camera" +:+ pretty 5)
            "video_recorded"
            (EV_Map [(EV_String "path", EV_String "clip.mp4");
                     (EV_String "maxVideoDuration", EV_Int64 3)])]).
Proof.
  assert (Hmessenger : CameraImpl.messenger_ Examples.busy_camera =
                       Some 1%nat) by reflexivity.
  assert (Hid : 0 ≤ 5) by lia.
  split; [exact Hmessenger|]. split; [exact Hid|].
  exact (proj1 (notifications_use_the_texture_id 1%nat 5 "clip.mp4" "lost" 3
                  Examples.busy_camera Hmessenger Hid)).
Defined.

Lemma operations_keep_controller_well_formed_witness :
  CaptureControllerImpl.run (Examples.start_preview Examples.env)
    (CaptureControllerImpl.CaptureControllerImpl true) =
    Some Examples.previewing ∧
  well_formed Examples.previewing.
Proof.
  assert (Hrun : CaptureControllerImpl.run (Examples.start_preview Examples.env)
                   (CaptureControllerImpl.CaptureControllerImpl true) =
                 Some Examples.previewing) by (vm_compute; reflexivity).
  split; [exact Hrun|].
  exact (@operations_keep_controller_well_formed SpecRecordHandler.api
           SpecPhotoHandler.api _ _ Hrun).
Defined.

Lemma requests_before_initialization_witness :
  CaptureControllerImpl.reachable MoreExamples.initializing ∧
  CaptureControllerImpl.capture_engine_state_ MoreExamples.initializing ≠
    CAPTURE_ENGINE_INITIALIZED ∧
  CaptureControllerImpl.TakePicture "photo.jpeg" Examples.env
    MoreExamples.initializing =
    Returns () MoreExamples.initializing
      [Listener.OnTakePictureFailed "Not initialized"].
Proof.
  assert (Hreach : CaptureControllerImpl.reachable MoreExamples.initializing)
    by exact (after_reachable _).
  assert (Hstate : CaptureControllerImpl.capture_engine_state_
                     MoreExamples.initializing ≠ CAPTURE_ENGINE_INITIALIZED)
    by (vm_compute; discriminate).
  split; [exact Hreach|]. split; [exact Hstate|].
  exact (proj1 (@requests_before_initialization SpecRecordHandler.api
                  SpecPhotoHandler.api MoreExamples.initializing "photo.jpeg"
                  0 0 Examples.env Hreach Hstate)).
Defined.

Lemma InitCaptureDevice_refused_after_first_witness :
  CaptureControllerImpl.reachable Examples.initialized ∧
  CaptureControllerImpl.capture_engine_state_ Examples.initialized ≠
    CAPTURE_ENGINE_NOT_INITIALIZED ∧
  CaptureControllerImpl.InitCaptureDevice true "camera0" true
    RESOLUTION_PRESET_LOW Examples.env Examples.initialized =
    Returns () Examples.initialized
      [Listener.OnCreateCaptureEngineFailed
         (if bool_decide
               (CaptureControllerImpl.capture_engine_state_
                  Examples.initialized = CAPTURE_ENGINE_INITIALIZED)
          then "Capture device already initialized"
          else "Capture device already initializing")].
Proof.
  assert (Hreach : CaptureControllerImpl.reachable Examples.initialized)
    by exact (after_reachable _).
  assert (Hstate : CaptureControllerImpl.capture_engine_state_
                     Examples.initialized ≠ CAPTURE_ENGINE_NOT_INITIALIZED)
    by (vm_compute; discriminate).
  split; [exact Hreach|]. split; [exact Hstate|].
  exact (@InitCaptureDevice_refused_after_first SpecRecordHandler.api
           SpecPhotoHandler.api Examples.initialized true "camera0" true
           RESOLUTION_PRESET_LOW Examples.env Hreach Hstate).
Defined.

Lemma InitCaptureDevice_first_witness :
  CaptureControllerImpl.reachable Examples.new_controller ∧
  CaptureControllerImpl.capture_engine_state_ Examples.new_controller =
    CAPTURE_ENGINE_NOT_INITIALIZED ∧
  CaptureControllerImpl.InitCaptureDevice true "camera0" false
    RESOLUTION_PRESET_MEDIUM Examples.env Examples.new_controller =
    Returns () MoreExamples.initializing [].
Proof.
  assert (Hreach : CaptureControllerImpl.reachable Examples.new_controller)
    by exact CaptureControllerImpl.reachable_new.
  assert (Hstate : CaptureControllerImpl.capture_engine_state_
                     Examples.new_controller = CAPTURE_ENGINE_NOT_INITIALIZED)
    by reflexivity.
  split; [exact Hreach|]. split; [exact Hstate|].
  exact (@InitCaptureDevice_first SpecRecordHandler.api SpecPhotoHandler.api
           Examples.new_controller true "camera0" false
           RESOLUTION_PRESET_MEDIUM Examples.env Hreach Hstate).
Defined.

Lemma engine_initialized_event_witness :
  CaptureControllerImpl.reachable MoreExamples.initializing ∧
  CaptureControllerImpl.capture_engine_state_ MoreExamples.initializing =
    CAPTURE_ENGINE_INITIALIZING ∧
  CaptureControllerImpl.texture_registrar_ MoreExamples.initializing = true ∧
  CaptureControllerImpl.OnEvent
    (Examples.event MF_CAPTURE_ENGINE_INITIALIZED E_FAIL) Examples.env
    MoreExamples.initializing =
    Returns () Examples.initialized
      [Listener.OnCreateCaptureEngineSucceeded 1].
Proof.
  assert (Hreach : CaptureControllerImpl.reachable MoreExamples.initializing)
    by exact (after_reachable _).
  assert (Hstate : CaptureControllerImpl.capture_engine_state_
                     MoreExamples.initializing = CAPTURE_ENGINE_INITIALIZING)
    by (vm_compute; reflexivity).
  assert (Hregistrar : CaptureControllerImpl.texture_registrar_
                         MoreExamples.initializing = true)
    by (vm_compute; reflexivity).
  split; [exact Hreach|]. split; [exact Hstate|]. split; [exact Hregistrar|].
  exact (@engine_initialized_event SpecRecordHandler.api SpecPhotoHandler.api
           MoreExamples.initializing E_FAIL Examples.env Hreach Hstate
           Hregistrar).
Defined.

Lemma OnEvent_dropped_witness :
  let event := {| GetExtendedType := None; GetStatus := Some S_OK |} in
  GetExtendedType event = None ∧
  CaptureControllerImpl.OnEvent event Examples.env Examples.previewing =
    Returns () Examples.previewing [].
Proof.
  intros event.
  assert (Hunread : GetExtendedType event = None) by reflexivity.
  split; [exact Hunread|].
  exact (@OnEvent_dropped SpecRecordHandler.api SpecPhotoHandler.api event
           Examples.env Examples.previewing (or_intror (or_introl Hunread))).
Defined.

Lemma GetFrameBuffer_reuses_buffer_witness :
  CaptureControllerImpl.reachable Examples.with_frame ∧
  CaptureControllerImpl.GetFrameBuffer 8 Examples.with_frame =
    Returns () Examples.with_frame [] ∧
  CaptureControllerImpl.source_buffer_data_ Examples.with_frame =
    Some Examples.two_pixels.
Proof.
  assert (Hreach : CaptureControllerImpl.reachable Examples.with_frame)
    by exact (after_reachable _).
  split; [exact Hreach|].
  destruct (@GetFrameBuffer_reuses_buffer SpecRecordHandler.api
              SpecPhotoHandler.api Examples.with_frame 8 Hreach)
    as (c1 & data & Hget & _ & _ & _ & Hsame & _).
  assert (Hdata : CaptureControllerImpl.source_buffer_data_ Examples.with_frame
                  = Some Examples.two_pixels) by (vm_compute; reflexivity).
  assert (Hsize : CaptureControllerImpl.source_buffer_size_ Examples.with_frame
                  = 8) by (vm_compute; reflexivity).
  rewrite Hsame in Hget.
  - split; [exact Hget|exact Hdata].
  - rewrite Hdata. by eexists.
  - exact Hsize.
Defined.

Lemma TakePicture_while_taking_witness :
  let h := SpecPhotoHandler.mk true "photo.jpeg" in
  CaptureControllerImpl.reachable MoreExamples.taking_picture ∧
  CaptureControllerImpl.photo_handler_ MoreExamples.taking_picture = Some h ∧
  SpecPhotoHandler.capturing_ h = true ∧
  CaptureControllerImpl.TakePicture "other.jpeg" Examples.env
    MoreExamples.taking_picture =
    Returns ()
      (CaptureControllerImpl.set_photo_handler_ None
         MoreExamples.taking_picture)
      [Listener.OnTakePictureFailed "Photo already requested"] ∧
  CaptureControllerImpl.OnEvent
    (Examples.event MF_CAPTURE_ENGINE_PHOTO_TAKEN S_OK) Examples.env
    (CaptureControllerImpl.set_photo_handler_ None
       MoreExamples.taking_picture) =
    Returns ()
      (CaptureControllerImpl.set_photo_handler_ None
         MoreExamples.taking_picture)
      [Listener.OnTakePictureFailed EmptyString].
Proof.
  intros h.
  assert (Hreach : CaptureControllerImpl.reachable MoreExamples.taking_picture)
    by exact (after_reachable _).
  assert (Hhandler : CaptureControllerImpl.photo_handler_
                       MoreExamples.taking_picture = Some h)
    by (vm_compute; reflexivity).
  assert (Htaking : SpecPhotoHandler.capturing_ h = true) by reflexivity.
  split; [exact Hreach|]. split; [exact Hhandler|]. split; [exact Htaking|].
  exact (@TakePicture_while_taking SpecRecordHandler.api SpecPhotoHandler.api
           MoreExamples.taking_picture h "other.jpeg" Examples.env S_OK
           Examples.env Hreach Hhandler Htaking).
Defined.

Lemma StartRecord_while_recording_witness :
  let h :=
    SpecRecordHandler.mk false SpecRecordHandler.RECORD_STATE__STARTED
      SpecRecordHandler.RECORDING_TYPE_TIMED "clip.mp4" 5000 None 0 in
  CaptureControllerImpl.reachable (Examples.recording 5000) ∧
  CaptureControllerImpl.record_handler_ (Examples.recording 5000) = Some h ∧
  SpecRecordHandler.CanStart h = false ∧
  CaptureControllerImpl.OnEvent
    (Examples.event MF_CAPTURE_ENGINE_RECORD_STOPPED S_OK) Examples.env
    (CaptureControllerImpl.set_record_handler_ None (Examples.recording 5000)) =
    Returns ()
      (CaptureControllerImpl.set_record_handler_ None (Examples.recording 5000))
      [].
Proof.
  intros h.
  assert (Hreach : CaptureControllerImpl.reachable (Examples.recording 5000))
    by exact (after_reachable _).
  assert (Hhandler : CaptureControllerImpl.record_handler_
                       (Examples.recording 5000) = Some h)
    by (vm_compute; reflexivity).
  assert (Hstart : SpecRecordHandler.CanStart h = false)
    by (vm_compute; reflexivity).
  split; [exact Hreach|]. split; [exact Hhandler|]. split; [exact Hstart|].
  exact (proj2 (@StartRecord_while_recording SpecRecordHandler.api
                  SpecPhotoHandler.api (Examples.recording 5000) h "next.mp4"
                  0 Examples.env S_OK Examples.env Hreach Hhandler Hstart)).
Defined.

Lemma later_frames_keep_the_preview_witness :
  let h := PreviewHandler.mk true PreviewHandler.PREVIEW_STATE__RUNNING in
  CaptureControllerImpl.reachable MoreExamples.preview_running ∧
  CaptureControllerImpl.preview_handler_ MoreExamples.preview_running =
    Some h ∧
  PreviewHandler.preview_state_ h ≠ PreviewHandler.PREVIEW_STATE__STARTING ∧
  ∃ (c' : Examples.Controller) calls,
    CaptureControllerImpl.UpdateCaptureTime 40000 Examples.env
      MoreExamples.preview_running = Returns () c' calls ∧
    silent calls ∧
    CaptureControllerImpl.preview_handler_ c' = Some h.
Proof.
  intros h.
  assert (Hreach : CaptureControllerImpl.reachable MoreExamples.preview_running)
    by exact (after_reachable _).
  assert (Hhandler : CaptureControllerImpl.preview_handler_
                       MoreExamples.preview_running = Some h)
    by (vm_compute; reflexivity).
  assert (Hstate : PreviewHandler.preview_state_ h ≠
                   PreviewHandler.PREVIEW_STATE__STARTING)
    by (vm_compute; discriminate).
  split; [exact Hreach|]. split; [exact Hhandler|]. split; [exact Hstate|].
  exact (@later_frames_keep_the_preview SpecRecordHandler.api
           SpecPhotoHandler.api MoreExamples.preview_running h 40000
           Examples.env Hreach Hhandler Hstate).
Defined.

Lemma destructor_resets_witness :
  CaptureControllerImpl.reachable (Examples.recording 5000) ∧
  ∃ calls,
    CaptureControllerImpl.destructor Examples.env_stop_fails
      (Examples.recording 5000) =
      Returns ()
        (CaptureControllerImpl.set_capture_controller_listener_ false
           (CaptureControllerImpl.reset_members (Examples.recording 5000)))
        calls ∧
    silent calls.
Proof.
  assert (Hreach : CaptureControllerImpl.reachable (Examples.recording 5000))
    by exact (after_reachable _).
  split; [exact Hreach|].
  exact (@destructor_resets SpecRecordHandler.api SpecPhotoHandler.api
           (Examples.recording 5000) Examples.env_stop_fails Hreach).
Defined.

Lemma StartPreview_outcome_witness :
  CaptureControllerImpl.reachable MoreExamples.preview_type_only ∧
  CaptureControllerImpl.capture_engine_state_ MoreExamples.preview_type_only =
    CAPTURE_ENGINE_INITIALIZED ∧
  is_Some (CaptureControllerImpl.base_preview_media_type_
             MoreExamples.preview_type_only) ∧
  CaptureControllerImpl.preview_handler_ MoreExamples.preview_type_only =
    None ∧
  CaptureControllerImpl.base_capture_media_type_
    MoreExamples.preview_type_only = None ∧
  CaptureControllerImpl.StartPreview Examples.env
    MoreExamples.preview_type_only = Crashes NullDereference [].
Proof.
  assert (Hreach : CaptureControllerImpl.reachable
                     MoreExamples.preview_type_only)
    by exact (after_reachable _).
  assert (Hstate : CaptureControllerImpl.capture_engine_state_
                     MoreExamples.preview_type_only =
                   CAPTURE_ENGINE_INITIALIZED)
    by (vm_compute; reflexivity).
  assert (Htype : is_Some (CaptureControllerImpl.base_preview_media_type_
                             MoreExamples.preview_type_only))
    by (exists Examples.vga; vm_compute; reflexivity).
  assert (Hnone : CaptureControllerImpl.preview_handler_
                    MoreExamples.preview_type_only = None)
    by (vm_compute; reflexivity).
  assert (Hcapture : CaptureControllerImpl.base_capture_media_type_
                       MoreExamples.preview_type_only = None)
    by (vm_compute; reflexivity).
  split; [exact Hreach|]. split; [exact Hstate|]. split; [exact Htype|].
  split; [exact Hnone|]. split; [exact Hcapture|].
  exact (proj2 (@StartPreview_outcome SpecRecordHandler.api
                  SpecPhotoHandler.api MoreExamples.preview_type_only
                  Examples.env Hreach Hstate Htype Hnone) Hcapture).
Defined.

(** With both media types known, on a platform whose preview sink refuses
    the stream, the preview request is refused and nothing changes. *)
Example StartPreview_without_stream :
  CaptureControllerImpl.StartPreview MoreExamples.env_no_stream
    MoreExamples.preview_stopped =
  Returns () MoreExamples.preview_stopped
    [Listener.OnStartPreviewFailed "Failed to start video preview"].
Proof. vm_compute. reflexivity. Qed.

(** A preview 4294967295 pixels wide: the first frame reports the start with
    the width -1. *)
Example first_frame_with_widest_type :
  CaptureControllerImpl.calls_of
    [(CaptureControllerImpl.op_UpdateCaptureTime 0, Examples.env)]
    MoreExamples.previewing_widest =
  Some [Listener.OnStartPreviewSucceeded (-1) 1].
Proof. vm_compute. reflexivity. Qed.

Lemma pause_then_resume_witness :
  let h := PreviewHandler.mk true PreviewHandler.PREVIEW_STATE__RUNNING in
  let paused :=
    CaptureControllerImpl.set_preview_handler_
      (Some (PreviewHandler.mk true PreviewHandler.PREVIEW_STATE__PAUSED))
      MoreExamples.preview_running in
  CaptureControllerImpl.reachable MoreExamples.preview_running ∧
  CaptureControllerImpl.preview_handler_ MoreExamples.preview_running =
    Some h ∧
  PreviewHandler.preview_state_ h = PreviewHandler.PREVIEW_STATE__RUNNING ∧
  CaptureControllerImpl.PausePreview MoreExamples.preview_running =
    Returns () paused [Listener.OnPausePreviewSucceeded] ∧
  CaptureControllerImpl.ResumePreview paused =
    Returns () MoreExamples.preview_running
      [Listener.OnResumePreviewSucceeded].
Proof.
  intros h paused.
  assert (Hreach : CaptureControllerImpl.reachable MoreExamples.preview_running)
    by exact (after_reachable _).
  assert (Hhandler : CaptureControllerImpl.preview_handler_
                       MoreExamples.preview_running = Some h)
    by (vm_compute; reflexivity).
  assert (Hstate : PreviewHandler.preview_state_ h =
                   PreviewHandler.PREVIEW_STATE__RUNNING) by reflexivity.
  split; [exact Hreach|]. split; [exact Hhandler|]. split; [exact Hstate|].
  exact (@pause_then_resume SpecRecordHandler.api SpecPhotoHandler.api
           MoreExamples.preview_running h Hreach Hhandler Hstate).
Defined.

Lemma StartPreview_after_failed_AddStream_witness :
  PreviewHandler.preview_sink_ PreviewHandler.new = false ∧
  FAILED (hr_GetSink MoreExamples.env_no_stream) = false ∧
  FAILED (hr_As_preview_sink MoreExamples.env_no_stream) = false ∧
  FAILED (hr_RemoveAllStreams MoreExamples.env_no_stream) = false ∧
  FAILED (hr_MFCreateMediaType MoreExamples.env_no_stream) = false ∧
  FAILED (hr_CopyAllItems MoreExamples.env_no_stream) = false ∧
  FAILED (hr_SetGUID MoreExamples.env_no_stream) = false ∧
  FAILED (hr_SetUINT32 MoreExamples.env_no_stream) = false ∧
  FAILED (hr_AddStream MoreExamples.env_no_stream) = true ∧
  let h1 := PreviewHandler.mk true PreviewHandler.PREVIEW_STATE__STOPPED in
  PreviewHandler.StartPreview MoreExamples.env_no_stream (Some Examples.vga)
    PreviewHandler.new = Some (false, h1) ∧
  PreviewHandler.StartPreview MoreExamples.env_no_stream None h1 =
    Some (true, PreviewHandler.mk true PreviewHandler.PREVIEW_STATE__STARTING).
Proof.
  assert (Hsink : PreviewHandler.preview_sink_ PreviewHandler.new = false)
    by reflexivity.
  assert (H1 : FAILED (hr_GetSink MoreExamples.env_no_stream) = false)
    by (vm_compute; reflexivity).
  assert (H2 : FAILED (hr_As_preview_sink MoreExamples.env_no_stream) = false)
    by (vm_compute; reflexivity).
  assert (H3 : FAILED (hr_RemoveAllStreams MoreExamples.env_no_stream) = false)
    by (vm_compute; reflexivity).
  assert (H4 : FAILED (hr_MFCreateMediaType MoreExamples.env_no_stream)
               = false) by (vm_compute; reflexivity).
  assert (H5 : FAILED (hr_CopyAllItems MoreExamples.env_no_stream) = false)
    by (vm_compute; reflexivity).
  assert (H6 : FAILED (hr_SetGUID MoreExamples.env_no_stream) = false)
    by (vm_compute; reflexivity).
  assert (H7 : FAILED (hr_SetUINT32 MoreExamples.env_no_stream) = false)
    by (vm_compute; reflexivity).
  assert (H8 : FAILED (hr_AddStream MoreExamples.env_no_stream) = true)
    by (vm_compute; reflexivity).
  repeat (split; [assumption|]).
  exact (StartPreview_after_failed_AddStream MoreExamples.env_no_stream
           MoreExamples.env_no_stream Examples.vga None PreviewHandler.new
           Hsink H1 H2 H3 H4 H5 H6 H7 H8).
Defined.


Lemma camera_creation_witness :
  let camera := Camera.camera Examples.created_camera in
  CameraImpl.pending_results_ camera !! CREATE_CAMERA = Some 7%nat ∧
  ∃ waiting : Examples.CameraWithController,
    Camera.InitCamera true 3%nat false RESOLUTION_PRESET_MEDIUM Examples.env
      (Camera.mk camera None) = Camera.Done waiting [] ∧
    ∃ s : Examples.CameraWithController,
      Camera.on_controller
        (CaptureControllerImpl.OnEvent
           (Examples.event MF_CAPTURE_ENGINE_INITIALIZED S_OK) Examples.env)
        waiting =
      Camera.Done s
        [ResultSuccess 7%nat (EV_Map [(EV_String "cameraId", EV_Int64 1)])].
Proof.
  intros camera.
  assert (Hpending : CameraImpl.pending_results_ camera !! CREATE_CAMERA =
                     Some 7%nat) by (vm_compute; reflexivity).
  split; [exact Hpending|].
  destruct (@camera_creation SpecRecordHandler.api SpecPhotoHandler.api camera
              7%nat 3%nat false RESOLUTION_PRESET_MEDIUM Examples.env
              Examples.env S_OK Hpending) as [Hinit Hevent].
  eexists. split; [exact Hinit|].
  eexists. apply Hevent. vm_compute. discriminate.
Defined.

Lemma camera_requests_before_initialization_witness :
  CaptureControllerImpl.reachable MoreExamples.initializing ∧
  CaptureControllerImpl.capture_engine_state_ MoreExamples.initializing ≠
    CAPTURE_ENGINE_INITIALIZED ∧
  CameraImpl.pending_results_ Examples.busy_camera !! TAKE_PICTURE =
    Some 12%nat ∧
  Camera.on_controller
    (CaptureControllerImpl.TakePicture "photo.jpeg" Examples.env)
    (Camera.mk Examples.busy_camera (Some MoreExamples.initializing)) =
  Camera.Done
    (Camera.mk
       (CameraImpl.with_pending_results
          (delete TAKE_PICTURE
             (CameraImpl.pending_results_ Examples.busy_camera))
          Examples.busy_camera)
       (Some MoreExamples.initializing))
    [ResultError 12%nat "camera_error" "Not initialized"].
Proof.
  assert (Hreach : CaptureControllerImpl.reachable MoreExamples.initializing)
    by exact (after_reachable _).
  assert (Hstate : CaptureControllerImpl.capture_engine_state_
                     MoreExamples.initializing ≠ CAPTURE_ENGINE_INITIALIZED)
    by (vm_compute; discriminate).
  assert (Hpending : CameraImpl.pending_results_ Examples.busy_camera
                       !! TAKE_PICTURE = Some 12%nat)
    by (vm_compute; reflexivity).
  split; [exact Hreach|]. split; [exact Hstate|]. split; [exact Hpending|].
  exact (proj1 (@camera_requests_before_initialization SpecRecordHandler.api
                  SpecPhotoHandler.api Examples.busy_camera
                  MoreExamples.initializing "photo.jpeg" 0 Examples.env
                  12%nat 0%nat 0%nat 0%nat Hreach Hstate) Hpending).
Defined.

Lemma InitCamera_replaces_controller_witness :
  CaptureControllerImpl.reachable (Examples.recording 5000) ∧
  Camera.InitCamera true 3%nat false RESOLUTION_PRESET_MEDIUM
    Examples.env_stop_fails
    (Camera.mk Examples.busy_camera (Some (Examples.recording 5000))) =
  Camera.InitCamera true 3%nat false RESOLUTION_PRESET_MEDIUM
    Examples.env_stop_fails (Camera.mk Examples.busy_camera None).
Proof.
  assert (Hreach : CaptureControllerImpl.reachable (Examples.recording 5000))
    by exact (after_reachable _).
  split; [exact Hreach|].
  exact (@InitCamera_replaces_controller SpecRecordHandler.api
           SpecPhotoHandler.api Examples.busy_camera (Examples.recording 5000)
           true 3%nat false RESOLUTION_PRESET_MEDIUM Examples.env_stop_fails
           Hreach).
Defined.

Lemma picture_end_to_end_witness :
  CaptureControllerImpl.reachable MoreExamples.preview_stopped ∧
  CaptureControllerImpl.capture_engine_state_ MoreExamples.preview_stopped =
    CAPTURE_ENGINE_INITIALIZED ∧
  is_Some (CaptureControllerImpl.base_capture_media_type_
             MoreExamples.preview_stopped) ∧
  CaptureControllerImpl.photo_handler_ MoreExamples.preview_stopped = None ∧
  let waiting :=
    @CaptureControllerImpl.set_photo_handler_ SpecRecordHandler.api
      SpecPhotoHandler.api (Some (SpecPhotoHandler.mk true "photo.jpeg"))
      MoreExamples.preview_stopped in
  CaptureControllerImpl.TakePicture "photo.jpeg" Examples.env
    MoreExamples.preview_stopped = Returns () waiting [] ∧
  CaptureControllerImpl.OnEvent
    (Examples.event MF_CAPTURE_ENGINE_PHOTO_TAKEN S_OK) Examples.env waiting =
    Returns ()
      (@CaptureControllerImpl.set_photo_handler_ SpecRecordHandler.api
         SpecPhotoHandler.api (Some (SpecPhotoHandler.mk false "photo.jpeg"))
         MoreExamples.preview_stopped)
      [Listener.OnTakePictureSucceeded "photo.jpeg"].
Proof.
  assert (Hreach : CaptureControllerImpl.reachable MoreExamples.preview_stopped)
    by exact (after_reachable _).
  assert (Hstate : CaptureControllerImpl.capture_engine_state_
                     MoreExamples.preview_stopped = CAPTURE_ENGINE_INITIALIZED)
    by (vm_compute; reflexivity).
  assert (Htype : is_Some (CaptureControllerImpl.base_capture_media_type_
                             MoreExamples.preview_stopped))
    by (exists Examples.hd; vm_compute; reflexivity).
  assert (Hnone : CaptureControllerImpl.photo_handler_
                    MoreExamples.preview_stopped = None)
    by (vm_compute; reflexivity).
  split; [exact Hreach|]. split; [exact Hstate|]. split; [exact Htype|].
  split; [exact Hnone|].
  exact (@picture_end_to_end SpecRecordHandler.api SpecPhotoHandler.api
           MoreExamples.preview_stopped "photo.jpeg" Examples.env S_OK
           Examples.env Hreach Hstate Htype Hnone).
Defined.

Lemma record_start_end_to_end_witness :
  CaptureControllerImpl.reachable MoreExamples.preview_stopped ∧
  CaptureControllerImpl.capture_engine_state_ MoreExamples.preview_stopped =
    CAPTURE_ENGINE_INITIALIZED ∧
  is_Some (CaptureControllerImpl.base_capture_media_type_
             MoreExamples.preview_stopped) ∧
  CaptureControllerImpl.record_handler_ MoreExamples.preview_stopped = None ∧
  ∃ waiting : Examples.Controller,
    CaptureControllerImpl.StartRecord "clip.mp4" 0 Examples.env
      MoreExamples.preview_stopped = Returns () waiting [] ∧
    ∃ c' : Examples.Controller,
      CaptureControllerImpl.OnEvent
        (Examples.event MF_CAPTURE_ENGINE_RECORD_STARTED S_OK) Examples.env
        waiting = Returns () c' [Listener.OnStartRecordSucceeded].
Proof.
  assert (Hreach : CaptureControllerImpl.reachable MoreExamples.preview_stopped)
    by exact (after_reachable _).
  assert (Hstate : CaptureControllerImpl.capture_engine_state_
                     MoreExamples.preview_stopped = CAPTURE_ENGINE_INITIALIZED)
    by (vm_compute; reflexivity).
  assert (Htype : is_Some (CaptureControllerImpl.base_capture_media_type_
                             MoreExamples.preview_stopped))
    by (exists Examples.hd; vm_compute; reflexivity).
  assert (Hnone : CaptureControllerImpl.record_handler_
                    MoreExamples.preview_stopped = None)
    by (vm_compute; reflexivity).
  split; [exact Hreach|]. split; [exact Hstate|]. split; [exact Htype|].
  split; [exact Hnone|].
  destruct (@record_start_end_to_end SpecRecordHandler.api SpecPhotoHandler.api
              MoreExamples.preview_stopped "clip.mp4" 0 Examples.env S_OK
              Examples.env Hreach Hstate Htype Hnone) as [Hstart Hevent].
  eexists. split; [exact Hstart|]. eexists. exact Hevent.
Defined.
